(** * GratifPanel: the CSV ingestion pipeline and its HTTP facade

    A shallow embedding of [backend/ingestao.py] and [backend/app.py].

    Conventions of the embedding.
    - A Python [str] is a [string] whose characters are the code points
      below 256 (Latin-1, the reader's own fallback encoding), so that
      [isspace], [lower] and the regular expression class [\d] are the
      Python ones on that range.
    - A missing value (pandas [NaN], Python [None]) is an absent key of a
      row, hence [None] on lookup.
    - A number produced by [pd.to_numeric] is kept as the exact decimal it
      denotes; the rounding to binary64 is not part of the model.
    - The hosted store, [chardet] and [pd.read_csv] are collaborators of the
      program: the store is a state with a request journal and a failure
      oracle, the other two are parameters of the endpoints. The files on
      disk and the line that [input] reads are parameters of the command
      line, and the select request of [/api/competencias] is a parameter
      of that route. *)

From Stdlib Require Import ZArith List Bool Lia Ascii.
From Stdlib Require QArith.
From stdpp Require Import base option list strings gmap pretty.

Import QArith_base Qreduction.
Close Scope Q_scope.
Local Open Scope Z_scope.
Local Open Scope nat_scope.

(** ** Python strings *)

Module Py.

Definition ord (c : ascii) : nat := Ascii.nat_of_ascii c.

(** [str.isspace] on one character (code points below 256). *)
Definition isspace (c : ascii) : bool :=
  let n := ord c in
  ((9 <=? n) && (n <=? 13)) || ((28 <=? n) && (n <=? 32))
  || (n =? 133) || (n =? 160).

(** The class [\d] of [re] on code points below 256. *)
Definition isdigit (c : ascii) : bool :=
  let n := ord c in (48 <=? n) && (n <=? 57).

Fixpoint lstrip (s : string) : string :=
  match s with
  | EmptyString => EmptyString
  | String c r => if isspace c then lstrip r else s
  end.

Fixpoint rstrip (s : string) : string :=
  match s with
  | EmptyString => EmptyString
  | String c r =>
      match rstrip r with
      | EmptyString => if isspace c then EmptyString else String c EmptyString
      | r' => String c r'
      end
  end.

(** [s.strip()] *)
Definition strip (s : string) : string := rstrip (lstrip s).

Fixpoint map_chars (f : ascii → ascii) (s : string) : string :=
  match s with
  | EmptyString => EmptyString
  | String c r => String (f c) (map_chars f r)
  end.

Fixpoint filter_chars (p : ascii → bool) (s : string) : string :=
  match s with
  | EmptyString => EmptyString
  | String c r => if p c then String c (filter_chars p r) else filter_chars p r
  end.

(** [str.lower] on one character: A-Z and the Latin-1 capitals. *)
Definition lower_char (c : ascii) : ascii :=
  let n := ord c in
  if ((65 <=? n) && (n <=? 90))
     || ((192 <=? n) && (n <=? 222) && negb (n =? 215))
  then Ascii.ascii_of_nat (n + 32) else c.

Definition lower (s : string) : string := map_chars lower_char s.

(** [s.replace(a, b)] for one-character [a] and [b]. *)
Definition replace_char (a b : ascii) (s : string) : string :=
  map_chars (λ c, if Ascii.eqb c a then b else c) s.

(** [c in s] for a one-character [c]. *)
Fixpoint contains (c : ascii) (s : string) : bool :=
  match s with
  | EmptyString => false
  | String d r => Ascii.eqb c d || contains c r
  end.

(** [s.split(sep)] for a one-character separator: always at least one
    field. *)
Fixpoint split (sep : ascii) (s : string) : list string :=
  match s with
  | EmptyString => [EmptyString]
  | String c r =>
      if Ascii.eqb c sep then EmptyString :: split sep r
      else match split sep r with
           | f :: fs => String c f :: fs
           | [] => [String c EmptyString]
           end
  end.

(** [s.split(sep, 1)] when [sep] occurs in [s]: the text before the first
    separator and the text after it. *)
Fixpoint split1 (sep : ascii) (s : string) : option (string * string) :=
  match s with
  | EmptyString => None
  | String c r =>
      if Ascii.eqb c sep then Some (EmptyString, r)
      else match split1 sep r with
           | Some (a, b) => Some (String c a, b)
           | None => None
           end
  end.

(** [s[:n]] *)
Fixpoint take (n : N) (s : string) : string :=
  match s with
  | EmptyString => EmptyString
  | String c r => if N.eqb n 0 then EmptyString else String c (take (N.pred n) r)
  end.

Fixpoint range_aux (fuel i stop step : nat) : list nat :=
  match fuel with
  | 0 => []
  | S f => if i <? stop then i :: range_aux f (i + step) stop step else []
  end.

(** [range(start, stop, step)] for a positive [step]: at most
    [stop - start] numbers are produced. *)
Definition range (start stop step : nat) : list nat :=
  range_aux (stop - start) start stop step.

(** [l[i:j]] for [i <= j] *)
Definition slice {A} (l : list A) (i j : nat) : list A :=
  firstn (j - i) (skipn i l).

(** [str.upper] on one character: a-z and the Latin-1 small letters. The
    three characters whose upper case is not below 256 or is not one
    character (code points 181, 223 and 255) are kept: a text with one of
    them is not equal to a text of A-Z before or after. *)
Definition upper_char (c : ascii) : ascii :=
  let n := ord c in
  if ((97 <=? n) && (n <=? 122))
     || ((224 <=? n) && (n <=? 254) && negb (n =? 247))
  then Ascii.ascii_of_nat (n - 32) else c.

Definition upper (s : string) : string := map_chars upper_char s.

(** [os.path.basename(p)]: what follows the last slash. *)
Fixpoint basename (p : string) : string :=
  match p with
  | EmptyString => EmptyString
  | String c r =>
      if contains "/"%char r then basename r
      else if Ascii.eqb c "/"%char then r
      else p
  end.

End Py.

(** ** Numbers: [pd.to_numeric(..., errors="coerce")] *)

Inductive numero : Type :=
  | Finito (q : Q)
  | Infinito (negativo : bool).

Module Numeric.

(** White space of the C locale, skipped by the number reader around a
    literal. *)
Definition isspace_ascii (c : ascii) : bool :=
  let n := Py.ord c in (n =? 32) || ((9 <=? n) && (n <=? 13)).

Fixpoint skip_space (s : string) : string :=
  match s with
  | String c r => if isspace_ascii c then skip_space r else s
  | EmptyString => EmptyString
  end.

Definition digit_val (c : ascii) : Z := Z.of_nat (Py.ord c - 48).

(** The leading run of digits of [s], most significant first, and the rest
    of [s]. *)
Fixpoint digits (s : string) : list Z * string :=
  match s with
  | String c r =>
      if Py.isdigit c
      then let '(ds, rest) := digits r in (digit_val c :: ds, rest)
      else ([], s)
  | EmptyString => ([], EmptyString)
  end.

Definition value (ds : list Z) : Z :=
  fold_left (λ acc d, (10 * acc + d)%Z) ds 0%Z.

(** An optional sign: [true] for a minus. *)
Definition sign (s : string) : bool * string :=
  match s with
  | String "-"%char r => (true, r)
  | String "+"%char r => (false, r)
  | _ => (false, s)
  end.

(** An optional exponent part; [None] when an [e] is not followed by an
    integer. *)
Definition exponent (s : string) : option (Z * string) :=
  match s with
  | String c r =>
      if Ascii.eqb c "e"%char || Ascii.eqb c "E"%char then
        let '(neg, r1) := sign r in
        let '(ds, r2) := digits r1 in
        match ds with
        | [] => None
        | _ => Some (if neg then (- value ds)%Z else value ds, r2)
        end
      else Some (0%Z, s)
  | EmptyString => Some (0%Z, s)
  end.

(** [m * 10 ^ e] as a reduced fraction. *)
Definition scale (m e : Z) : Q :=
  Qred (if (0 <=? e)%Z then Qmake (m * 10 ^ e) 1
        else Qmake m (Z.to_pos (10 ^ (- e)))).

(** A decimal literal: optional blanks, optional sign, digits with an
    optional point (at least one digit in all), optional exponent, optional
    blanks, and nothing more. *)
Definition parse_decimal (s : string) : option Q :=
  let '(neg, s1) := sign (skip_space s) in
  let '(ip, s2) := digits s1 in
  let '(fp, s3) :=
    match s2 with
    | String "."%char r => digits r
    | _ => ([], s2)
    end in
  match ip ++ fp with
  | [] => None
  | ds =>
      match exponent s3 with
      | None => None
      | Some (e, s4) =>
          match skip_space s4 with
          | EmptyString =>
              let m := value ds in
              Some (scale (if neg then (- m)%Z else m)
                          (e - Z.of_nat (length fp)))
          | _ => None
          end
      end
  end.

(** The spellings of an infinity the reader accepts, compared without
    regard to case. *)
Definition parse_inf (s : string) : option bool :=
  let t := Py.lower s in
  if bool_decide (t = "inf" ∨ t = "+inf" ∨ t = "infinity" ∨ t = "+infinity")
  then Some false
  else if bool_decide (t = "-inf" ∨ t = "-infinity") then Some true
  else None.

(** One element of [pd.to_numeric(serie, errors="coerce")]: [None] is
    [NaN]. *)
Definition to_numeric (s : string) : option numero :=
  match parse_decimal s with
  | Some q => Some (Finito q)
  | None => Infinito <$> parse_inf s
  end.

End Numeric.

(** ** Values, rows and data frames *)

(** The content of one cell of a data frame. *)
Inductive celula : Type :=
  | Str (s : string)
  | Num (x : numero).

(** A [pandas.DataFrame] read row by row: the header in order, and every
    row as a map from column name to cell, a missing value being an absent
    key. *)
Record DataFrame : Type := {
  columns : list string;
  linhas : list (gmap string celula)
}.

(** A JSON document, as a request carries it and a response returns it. The
    fields of an object have distinct names, as the keys of a [dict] do. *)
#[warnings="-register-all"] Inductive json : Type :=
  | JNull
  | JBool (b : bool)
  | JNum (x : numero)
  | JStr (s : string)
  | JArr (itens : list json)
  | JObj (campos : list (string * json)).

Definition JNat (n : nat) : json := JNum (Finito (Qmake (Z.of_nat n) 1)).

Definition celula_json (c : celula) : json :=
  match c with
  | Str s => JStr s
  | Num x => JNum x
  end.

Definition numero_eqb (a b : numero) : bool :=
  match a, b with
  | Finito p, Finito q => Qeq_bool p q
  | Infinito m, Infinito n => Bool.eqb m n
  | _, _ => false
  end.

Definition numero_leb (a b : numero) : bool :=
  match a, b with
  | Finito p, Finito q => Qle_bool p q
  | Infinito neg, Finito _ => neg
  | Finito _, Infinito neg => negb neg
  | Infinito m, Infinito n => m || negb n
  end.

Definition celula_eqb (a b : celula) : bool :=
  match a, b with
  | Str s, Str t => String.eqb s t
  | Num x, Num y => numero_eqb x y
  | _, _ => false
  end.

(** The order in which [mode] lists its values: text by code point, numbers
    by value; a column mixing both does not occur in this program, and here
    numbers come first. *)
Definition celula_leb (a b : celula) : bool :=
  match a, b with
  | Str s, Str t => String.leb s t
  | Num x, Num y => numero_leb x y
  | Num _, Str _ => true
  | Str _, Num _ => false
  end.

(** Python's truth value of a decoded JSON document ([not v] is its
    negation). *)
Definition truthy (v : json) : bool :=
  match v with
  | JNull => false
  | JBool b => b
  | JNum (Finito q) => negb (Qeq_bool q (Qmake 0 1))
  | JNum (Infinito _) => true
  | JStr s => negb (String.eqb s "")
  | JArr l => negb (bool_decide (length l = 0))
  | JObj l => negb (bool_decide (length l = 0))
  end.

Module Pandas.

(** [df[c]]: the column as a series, one optional cell per row. *)
Definition coluna (c : string) (df : DataFrame) : list (option celula) :=
  map (λ r : gmap string celula, r !! c) (linhas df).

(** [df[c] = f(row)], row by row; a new column goes last in the header. *)
Definition set_coluna (c : string) (f : gmap string celula → option celula)
    (df : DataFrame) : DataFrame :=
  {| columns := if bool_decide (c ∈ columns df) then columns df
                else columns df ++ [c];
     linhas := map (λ r : gmap string celula, partial_alter (λ _, f r) c r)
                   (linhas df) |}.

(** A method of the [.str] accessor applied to one element: elements that
    are not text, missing ones included, give [NaN]. *)
Definition str_method (f : string → string) (c : option celula)
    : option celula :=
  match c with
  | Some (Str s) => Some (Str (f s))
  | _ => None
  end.

(** [serie.fillna(v)] on one element. *)
Definition fillna (v : celula) (c : option celula) : celula :=
  match c with
  | Some x => x
  | None => v
  end.

(** [a + b] on one element of two object series: text concatenates. *)
Definition soma (a b : celula) : option celula :=
  match a, b with
  | Str s, Str t => Some (Str (s +:+ t))
  | _, _ => None
  end.

(** [pd.to_numeric(serie, errors="coerce")] on one element. *)
Definition to_numeric (c : option celula) : option celula :=
  match c with
  | Some (Str s) => Num <$> Numeric.to_numeric s
  | Some (Num x) => Some (Num x)
  | None => None
  end.

(** [df.dropna(subset=cs)]: keeps the rows that have a value in every
    column of [cs]. *)
Definition dropna (cs : list string) (df : DataFrame) : DataFrame :=
  {| columns := columns df;
     linhas := filter (λ r : gmap string celula,
                         forallb (λ c, bool_decide (is_Some (r !! c))) cs
                         = true)
                      (linhas df) |}.

(** [df[mask]] with the mask computed row by row. *)
Definition selecionar (p : gmap string celula → bool) (df : DataFrame)
    : DataFrame :=
  {| columns := columns df;
     linhas := filter (λ r, p r = true) (linhas df) |}.

(** [df.rename(columns=m)] for one pair of [m]. *)
Definition rename1 (de para : string) (df : DataFrame) : DataFrame :=
  {| columns := map (λ c, if String.eqb c de then para else c) (columns df);
     linhas := map (λ r : gmap string celula,
                      match r !! de with
                      | Some v => <[para := v]> (delete de r)
                      | None => r
                      end) (linhas df) |}.

Definition rename (m : list (string * string)) (df : DataFrame)
    : DataFrame :=
  fold_left (λ d p, rename1 p.1 p.2 d) m df.

(** [df.drop(columns=cs, errors="ignore")] *)
Definition drop (cs : list string) (df : DataFrame) : DataFrame :=
  {| columns := filter (λ c, c ∉ cs) (columns df);
     linhas := map (λ r : gmap string celula,
                      fold_left (λ r' c, delete c r') cs r) (linhas df) |}.

(** [df[cs]] for a list of names that are all in the header. *)
Definition projetar (cs : list string) (df : DataFrame) : DataFrame :=
  {| columns := cs;
     linhas := map (λ r : gmap string celula,
                      filter (λ kv : string * celula, kv.1 ∈ cs) r)
                   (linhas df) |}.

(** [len(df)] *)
Definition len (df : DataFrame) : nat := length (linhas df).

(** How often [x] occurs in [l]. *)
Definition contagem (x : celula) (l : list celula) : nat :=
  length (filter (λ y, celula_eqb x y = true) l).

Definition maximo (l : list nat) : nat := fold_right Nat.max 0 l.

(** The values of [l], each once, in the order of their first
    occurrence. *)
Fixpoint distintos (l : list celula) : list celula :=
  match l with
  | [] => []
  | x :: r => x :: filter (λ y, celula_eqb x y = false) (distintos r)
  end.

Fixpoint inserir_ordenado (x : celula) (l : list celula) : list celula :=
  match l with
  | [] => [x]
  | y :: r => if celula_leb x y then x :: l else y :: inserir_ordenado x r
  end.

Definition ordenar (l : list celula) : list celula :=
  fold_right inserir_ordenado [] l.

(** [serie.mode()]: the values that occur most often among those that are
    not missing, in increasing order; empty when every element is
    missing. *)
Definition mode (serie : list (option celula)) : list celula :=
  let vs := omap id serie in
  let m := maximo (map (λ x, contagem x vs) vs) in
  ordenar (distintos (filter (λ x, contagem x vs = m) vs)).

End Pandas.

(** ** Exceptions and the hosted store *)

Inductive excecao : Type :=
  | HTTPException (status_code : nat) (detail : string)
  | Exception (classe : string) (mensagem : string).

(** [str(e)] *)
Definition str_exc (e : excecao) : string :=
  match e with
  | HTTPException st d => pretty st +:+ ": " +:+ d
  | Exception _ m => m
  end.

Inductive resultado (A : Type) : Type :=
  | Normal (a : A)
  | Raise (e : excecao).
Arguments Normal {A} a.
Arguments Raise {A} e.

(** One record of the table [importacoes_log]. *)
Record LogEntry : Type := {
  log_mes_ano : celula;
  log_operacao : string;
  log_arquivo : string;
  log_linhas_total : nat;
  log_linhas_inseridas : nat;
  log_linhas_erro : nat;
  log_importado_por : string;
  log_importado_em : string
}.

(** The requests this program sends to the store. *)
Inductive chamada : Type :=
  | SelectCount (mes_ano : json)
  | InsertGratificacoes (lote : list (gmap string celula))
  | DeleteGratificacoes (mes_ano : json)
  | InsertLog (registro : LogEntry).

(** The store as the program sees it: its two tables, whether the
    credentials are configured, the journal of the requests received so far
    (oldest first), and which requests fail: [falha n] tells whether the
    request number [n] (counted from 0) raises instead of being served. *)
Record Supabase : Type := {
  gratificacoes : list (gmap string celula);
  importacoes_log : list LogEntry;
  credenciais : bool;
  chamadas : list chamada;
  falha : nat → bool
}.

(** A computation that talks to the store and may raise. *)
Definition M (A : Type) : Type := Supabase → resultado A * Supabase.

#[global] Instance M_ret : MRet M := λ A a st, (Normal a, st).
#[global] Instance M_bind : MBind M := λ A B f m st,
  match m st with
  | (Normal a, st') => f a st'
  | (Raise e, st') => (Raise e, st')
  end.

Definition raise {A} (e : excecao) : M A := λ st, (Raise e, st).

(** [try: m  except Exception as e: h e] *)
Definition try_except {A} (m : M A) (h : excecao → M A) : M A := λ st,
  match m st with
  | (Normal a, st') => (Normal a, st')
  | (Raise e, st') => h e st'
  end.

(** A pure computation that may raise, run inside [M]. *)
Definition lift {A} (r : resultado A) : M A := λ st, (r, st).

Module Store.

(** Whether a row has the value [v] in [mes_ano] (the filter
    [.eq("mes_ano", v)]). *)
Definition eq_mes_ano (v : json) (r : gmap string celula) : bool :=
  match r !! "mes_ano", v with
  | Some (Str a), JStr b => String.eqb a b
  | Some (Num x), JNum y => numero_eqb x y
  | _, _ => false
  end.

Definition registrar (c : chamada) (st : Supabase) : Supabase :=
  {| gratificacoes := gratificacoes st;
     importacoes_log := importacoes_log st;
     credenciais := credenciais st;
     chamadas := chamadas st ++ [c];
     falha := falha st |}.

Definition com_gratificacoes (g : list (gmap string celula))
    (st : Supabase) : Supabase :=
  {| gratificacoes := g;
     importacoes_log := importacoes_log st;
     credenciais := credenciais st;
     chamadas := chamadas st;
     falha := falha st |}.

Definition com_log (l : list LogEntry) (st : Supabase) : Supabase :=
  {| gratificacoes := gratificacoes st;
     importacoes_log := l;
     credenciais := credenciais st;
     chamadas := chamadas st;
     falha := falha st |}.

(** [.execute()]: the request is journalled; when the store fails it, an
    exception is raised and the tables are as before, otherwise [efeito]
    serves it. *)
Definition execute {A} (c : chamada) (efeito : Supabase → A * Supabase)
    : M A := λ st,
  let st1 := registrar c st in
  if falha st (length (chamadas st))
  then (Raise (Exception "APIError" "request failed"), st1)
  else let '(a, st2) := efeito st1 in (Normal a, st2).

(** [table("gratificacoes").select("id", count="exact").eq("mes_ano", v)]:
    the number of matching rows. *)
Definition select_count (v : json) : M nat :=
  execute (SelectCount v)
    (λ st, (length (filter (λ r, eq_mes_ano v r = true) (gratificacoes st)),
            st)).

(** [table("gratificacoes").insert(lote)] *)
Definition insert (lote : list (gmap string celula)) : M unit :=
  execute (InsertGratificacoes lote)
    (λ st, (tt, com_gratificacoes (gratificacoes st ++ lote) st)).

(** [table("gratificacoes").delete().eq("mes_ano", v)]: the deleted rows. *)
Definition delete_eq (v : json) : M (list (gmap string celula)) :=
  execute (DeleteGratificacoes v)
    (λ st, (filter (λ r, eq_mes_ano v r = true) (gratificacoes st),
            com_gratificacoes
              (filter (λ r, eq_mes_ano v r = false) (gratificacoes st)) st)).

(** [table("importacoes_log").insert(e)] *)
Definition insert_log (e : LogEntry) : M unit :=
  execute (InsertLog e) (λ st, (tt, com_log (importacoes_log st ++ [e]) st)).

(** [create_client(SUPABASE_URL, SUPABASE_KEY)] *)
Definition create_client : M unit := λ st,
  if credenciais st then (Normal tt, st)
  else (Raise (Exception "SupabaseException" "supabase_url is required"), st).

End Store.

(** [for x in xs: acc = body acc x], inside [M]. *)
Fixpoint for_each {A B} (xs : list A) (body : B → A → M B) (acc : B) : M B :=
  match xs with
  | [] => mret acc
  | x :: r => acc' ← body acc x; for_each r body acc'
  end.

(** ** [ingestao.py] *)

Module Ingestao.

Definition COLUNAS_MANTER : list string :=
  [ "EMP_CODIGO"; "MES_ANO"; "NUM_FOLHA"; "SETOR"; "ORGAO"; "NUMFUNC";
    "NUMVINC"; "SITUACAO"; "CARGO"; "TIPOVINC"; "RUBRICA"; "NOME_RUBRICA";
    "COMPLEMENTO"; "COMPETENCIA"; "INFO"; "TIPO_PAGAMENTO"; "TIPO_RUBRICA";
    "VDA"; "VALOR" ].

Definition TAMANHO_LOTE : nat := 500.

(** [[c for c in COLUNAS_MANTER if c not in df.columns]] *)
Definition faltando (df : DataFrame) : list string :=
  filter (λ c, c ∉ columns df) COLUNAS_MANTER.

(** [validar_colunas]: the verdict, and the names it prints as missing. *)
Definition validar_colunas (df : DataFrame) : bool * list string :=
  match faltando df with
  | [] => (true, [])
  | f => (false, f)
  end.

(** The class [[^\d.\-]] negated: what step 4 keeps. *)
Definition valor_char (c : ascii) : bool :=
  Py.isdigit c || Ascii.eqb c "."%char || Ascii.eqb c "-"%char.

(** The two [.str.replace] of step 4 on one text. *)
Definition normalizar_valor (s : string) : string :=
  Py.filter_chars valor_char (Py.replace_char ","%char "."%char s).

Definition RENOMEAR : list (string * string) :=
  [ ("EMP_CODIGO", "emp_codigo"); ("MES_ANO", "mes_ano");
    ("NUM_FOLHA", "num_folha"); ("SETOR", "setor"); ("ORGAO", "orgao");
    ("SITUACAO", "situacao"); ("CARGO", "cargo"); ("TIPOVINC", "tipovinc");
    ("RUBRICA", "rubrica"); ("NOME_RUBRICA", "nome_rubrica");
    ("COMPLEMENTO", "complemento"); ("COMPETENCIA", "competencia");
    ("INFO", "info"); ("TIPO_PAGAMENTO", "tipo_pagamento");
    ("TIPO_RUBRICA", "tipo_rubrica"); ("VDA", "vda"); ("VALOR", "valor") ].

(** Steps 1 to 4 of [transformar]: projection, trimming, [cod] and the
    conversion of [VALOR]. *)
Definition preparar (df : DataFrame) : DataFrame :=
  let df := Pandas.projetar COLUNAS_MANTER df in
  let df :=
    fold_left
      (λ d col, Pandas.set_coluna col
                  (λ r, Pandas.str_method Py.strip (r !! col)) d)
      (columns df) df in
  let df :=
    Pandas.set_coluna "cod"
      (λ r, Pandas.soma (Pandas.fillna (Str "") (r !! "NUMFUNC"))
                        (Pandas.fillna (Str "") (r !! "NUMVINC"))) df in
  let df :=
    Pandas.set_coluna "cod"
      (λ r, Pandas.str_method Py.strip (r !! "cod")) df in
  let df :=
    Pandas.set_coluna "VALOR"
      (λ r, Pandas.str_method normalizar_valor (r !! "VALOR")) df in
  Pandas.set_coluna "VALOR" (λ r, Pandas.to_numeric (r !! "VALOR")) df.

(** The mask [df["cod"] != ""] on one row. *)
Definition cod_nao_vazio (r : gmap string celula) : bool :=
  match r !! "cod" with
  | Some (Str s) => negb (String.eqb s "")
  | _ => true
  end.

(** Step 5: the rows that stay. *)
Definition filtrar (df : DataFrame) : DataFrame :=
  Pandas.selecionar cod_nao_vazio (Pandas.dropna ["cod"; "VALOR"] df).

(** Steps 6 to 9. *)
Definition finalizar (usuario agora : string) (df : DataFrame) : DataFrame :=
  let df := Pandas.rename RENOMEAR df in
  let df := Pandas.drop ["NUMFUNC"; "NUMVINC"] df in
  let df := Pandas.set_coluna "importado_por" (λ _, Some (Str usuario)) df in
  Pandas.set_coluna "importado_em" (λ _, Some (Str agora)) df.

(** [transformar(df, usuario)]: the transformed frame, and the number of
    rows it reports as removed ([antes - depois]). [agora] is what
    [datetime.now().isoformat()] returns. Selecting a column that the frame
    lacks raises [KeyError]. *)
Definition transformar (df : DataFrame) (usuario agora : string)
    : resultado (DataFrame * nat) :=
  match faltando df with
  | [] =>
      let df := preparar df in
      let antes := Pandas.len df in
      let df := filtrar df in
      let depois := Pandas.len df in
      Normal (finalizar usuario agora df, antes - depois)
  | _ => Raise (Exception "KeyError" "not in index")
  end.

(** [extrair_mes_ano(df)] *)
Definition extrair_mes_ano (df : DataFrame) : resultado celula :=
  if bool_decide ("mes_ano" ∈ columns df) then
    match Pandas.coluna "mes_ano" df with
    | [] => Normal (Str "DESCONHECIDO")
    | serie =>
        match Pandas.mode serie with
        | x :: _ => Normal x
        | [] =>
            Raise (Exception "IndexError"
                     "single positional indexer is out-of-bounds")
        end
    end
  else Normal (Str "DESCONHECIDO").

(** [deletar_competencia(supabase, mes_ano)] *)
Definition deletar_competencia (mes_ano : celula) : M nat :=
  dados ← Store.delete_eq (celula_json mes_ano);
  mret (length dados).

(** One turn of the loop of [inserir_em_lotes]; [acc] is
    [(inseridos, erros)]. *)
Definition inserir_lote (registros : list (gmap string celula))
    (acc : nat * nat) (i : nat) : M (nat * nat) :=
  let lote := Py.slice registros i (i + TAMANHO_LOTE) in
  try_except
    (_ ← Store.insert lote; mret (acc.1 + length lote, acc.2))
    (λ _, mret (acc.1, acc.2 + length lote)).

(** [inserir_em_lotes(supabase, df)] *)
Definition inserir_em_lotes (df : DataFrame) : M (nat * nat) :=
  let total := Pandas.len df in
  let registros := linhas df in
  for_each (Py.range 0 total TAMANHO_LOTE) (inserir_lote registros) (0, 0).

(** [registrar_log(...)]; [agora] is what [datetime.now().isoformat()]
    returns. *)
Definition registrar_log (mes_ano : celula) (operacao arquivo : string)
    (linhas_total linhas_inseridas linhas_erro : nat)
    (usuario agora : string) : M unit :=
  Store.insert_log
    {| log_mes_ano := mes_ano;
       log_operacao := operacao;
       log_arquivo := arquivo;
       log_linhas_total := linhas_total;
       log_linhas_inseridas := linhas_inseridas;
       log_linhas_erro := linhas_erro;
       log_importado_por := usuario;
       log_importado_em := agora |}.

(** The arguments of the command line. *)
Record Args : Type := {
  arquivo : string;
  usuario : string;
  substituir : bool
}.

Section Principal.

(** [chardet.detect(b)["encoding"]]: a name, or [None]. *)
Variable chardet_detect : string → option string.

(** [pd.read_csv(path, sep=";", encoding=e, dtype=str,
    on_bad_lines="warn")], on the bytes of the file. *)
Variable read_csv : string → option string → resultado DataFrame.

(** The files on disk: the bytes found at a path. *)
Variable arquivos : string → option string.

(** [detectar_encoding(caminho_arquivo)] *)
Definition detectar_encoding (caminho_arquivo : string)
    : resultado (option string) :=
  match arquivos caminho_arquivo with
  | Some conteudo => Normal (chardet_detect (Py.take 100000 conteudo))
  | None => Raise (Exception "FileNotFoundError" "No such file or directory")
  end.

(** [ler_csv(caminho_arquivo)] *)
Definition ler_csv (caminho_arquivo : string) : resultado DataFrame :=
  match detectar_encoding caminho_arquivo with
  | Raise e => Raise e
  | Normal encoding =>
      match arquivos caminho_arquivo with
      | None =>
          Raise (Exception "FileNotFoundError" "No such file or directory")
      | Some conteudo =>
          match read_csv conteudo encoding with
          | Normal df => Normal df
          | Raise _ => read_csv conteudo (Some "latin1")
          end
      end
  end.

(** [main()], after the arguments are parsed. The value is the exit status:
    [sys.exit(n)] gives [n], the end of the function gives 0; an exception
    that nothing catches is raised. [entrada] is the line that [input]
    reads; [agora_1] and [agora_2] are the clock readings of [transformar]
    and of [registrar_log]. The store is configured when the two
    environment variables are set. *)
Definition main (args : Args) (entrada agora_1 agora_2 : string) : M nat :=
  if negb (bool_decide (is_Some (arquivos (arquivo args)))) then mret 1
  else
    configurado ← (λ st, (Normal (credenciais st), st));
    if negb configurado then mret 1
    else
      conectado ← try_except (_ ← Store.create_client; mret true)
                     (λ _, mret false);
      if negb conectado then mret 1
      else
        df_raw ← lift (ler_csv (arquivo args));
        if negb (validar_colunas df_raw).1 then mret 1
        else
          t ← lift (transformar df_raw (usuario args) agora_1);
          let df : DataFrame := t.1 in
          mes_ano ← lift (extrair_mes_ano df);
          let operacao :=
            if substituir args then "SUBSTITUICAO" else "NOVA" in
          confirmado ←
            (if substituir args then
               let confirmacao := Py.upper (Py.strip entrada) in
               if negb (String.eqb confirmacao "SIM") then mret false
               else _ ← deletar_competencia mes_ano; mret true
             else mret true);
          if negb confirmado then mret 0
          else
            r ← inserir_em_lotes df;
            _ ← registrar_log mes_ano operacao
                  (Py.basename (arquivo args)) (Pandas.len df) r.1 r.2
                  (usuario args) agora_2;
            mret 0.

End Principal.

End Ingestao.

(** ** [app.py] *)

(** An uploaded file: its name and its bytes. *)
Record UploadFile : Type := {
  filename : string;
  conteudo : string
}.

Module App.

(** [ALLOWED_USERS], built when the module loads from the text of the
    environment variable of the same name. *)
Definition carregar_usuarios (ALLOWED_USERS_RAW : string)
    : gmap string string :=
  if String.eqb ALLOWED_USERS_RAW "" then ∅
  else
    fold_left
      (λ (users : gmap string string) user_entry,
         if Py.contains ":"%char user_entry then
           match Py.split1 ":"%char (Py.strip user_entry) with
           | Some (email, password) =>
               <[Py.lower (Py.strip email) := Py.strip password]> users
           | None => users
           end
         else users)
      (Py.split ","%char ALLOWED_USERS_RAW) ∅.

(** The keys of a decoded JSON object: [body.get(k)], which raises on a
    document without that method. *)
Definition get (k : string) (body : json) : resultado json :=
  match body with
  | JObj campos =>
      Normal (default JNull
                (snd <$> find (λ kv : string * json, String.eqb kv.1 k)
                           campos))
  | _ => Raise (Exception "AttributeError" "object has no attribute 'get'")
  end.

Definition COLUNAS_PREVIEW : list string :=
  [ "NUMFUNC"; "NUMVINC"; "NOME_CARGO"; "NOME_ORGAO"; "MES_ANO";
    "COMPETENCIA"; "NOME_RUBRICA"; "VALOR" ].

Section Endpoints.

(** [chardet.detect(b)["encoding"]]: a name, or [None]. *)
Variable chardet_detect : string → option string.

(** [pd.read_csv(io.BytesIO(b), sep=";", encoding=e, dtype=str,
    on_bad_lines="warn")] *)
Variable read_csv : string → option string → resultado DataFrame.

(** The allow-list in force. *)
Variable ALLOWED_USERS : gmap string string.

(** [get_supabase()] *)
Definition get_supabase : M unit := Store.create_client.

(** [login(email, password)] *)
Definition login (email password : string) : resultado json :=
  let email_lower := Py.lower (Py.strip email) in
  if bool_decide (ALLOWED_USERS = ∅) then
    Raise (HTTPException 403
             "Sistema não configurado. Entre em contato com o administrador.")
  else if bool_decide (ALLOWED_USERS !! email_lower = Some password) then
    Normal (JObj [("ok", JBool true); ("email", JStr email)])
  else Raise (HTTPException 401 "E-mail ou senha incorretos").

(** The reading both endpoints start with: the detected encoding first, then
    Latin-1 once. *)
Definition ler (conteudo : string) : resultado DataFrame * option string :=
  let encoding := chardet_detect (Py.take 100000 conteudo) in
  (match read_csv conteudo encoding with
   | Normal df => Normal df
   | Raise _ => read_csv conteudo (Some "latin1")
   end, encoding).

(** [df["MES_ANO"].mode().iloc[0].strip() if "MES_ANO" in df.columns else
    None] *)
Definition mes_ano_dominante (df : DataFrame) : resultado (option string) :=
  if bool_decide ("MES_ANO" ∈ columns df) then
    match Pandas.mode (Pandas.coluna "MES_ANO" df) with
    | [] =>
        Raise (Exception "IndexError"
                 "single positional indexer is out-of-bounds")
    | Str s :: _ => Normal (Some (Py.strip s))
    | Num _ :: _ =>
        Raise (Exception "AttributeError" "object has no attribute 'strip'")
    end
  else Normal None.

(** [df[colunas_preview].head(5).fillna("").to_dict(orient="records")] *)
Definition preview (df : DataFrame) : json :=
  let colunas_preview :=
    filter (λ c, c ∈ columns df) COLUNAS_PREVIEW in
  JArr (map (λ r : gmap string celula,
               JObj (map (λ c, (c, celula_json
                                     (Pandas.fillna (Str "") (r !! c))))
                         colunas_preview))
            (firstn 5 (linhas df))).

(** The count of [VALOR] entries that are not numbers once the comma is a
    point. *)
Definition valores_invalidos (df : DataFrame) : nat :=
  if bool_decide ("VALOR" ∈ columns df) then
    length
      (filter
         (λ c, Pandas.to_numeric
                 (Pandas.str_method (Py.replace_char ","%char "."%char) c)
               = None)
         (Pandas.coluna "VALOR" df))
  else 0.

Definition json_opt (o : option string) : json :=
  match o with
  | Some s => JStr s
  | None => JNull
  end.

(** [validar_csv(arquivo)] *)
Definition validar_csv (arquivo : UploadFile) : M json :=
  try_except
    (let '(lido, encoding) := ler (conteudo arquivo) in
     df ← lift lido;
     let colunas_faltando := Ingestao.faltando df in
     let colunas_ok := bool_decide (length colunas_faltando = 0) in
     let total_linhas := Pandas.len df in
     mes_ano ← lift (mes_ano_dominante df);
     ja_existe ←
       (if truthy (json_opt mes_ano) then
          _ ← get_supabase;
          existentes ← Store.select_count (json_opt mes_ano);
          mret (0 <? existentes)
        else mret false);
     mret (JObj
       [ ("ok", JBool colunas_ok);
         ("total_linhas", JNat total_linhas);
         ("colunas_faltando", JArr (JStr <$> colunas_faltando));
         ("mes_ano", json_opt mes_ano);
         ("ja_existe", JBool ja_existe);
         ("valores_invalidos", JNat (valores_invalidos df));
         ("preview", preview df);
         ("encoding", json_opt encoding) ]))
    (λ e, raise (HTTPException 500 (str_exc e))).

(** What the name [deletar_competencia] stands for while [importar_csv]
    runs. The module imports the function of [ingestao.py] under that name
    and later binds the same name to its own route handler, which has the
    single parameter [request]; a call looks the name up when it is made, so
    the call with the two arguments [(supabase, mes_ano)] reaches the
    handler and fails while binding them. *)
Definition deletar_competencia_2 (mes_ano : celula) : M nat :=
  raise (Exception "TypeError"
           "deletar_competencia() takes 1 positional argument but 2 were given").

(** [importar_csv(arquivo, usuario, substituir)]; [agora_1] and [agora_2]
    are the clock readings of [transformar] and of [registrar_log]. *)
Definition importar_csv (arquivo : UploadFile) (usuario : string)
    (substituir : bool) (agora_1 agora_2 : string) : M json :=
  try_except
    (let '(lido, encoding) := ler (conteudo arquivo) in
     df_raw ← lift lido;
     if negb (Ingestao.validar_colunas df_raw).1 then
       raise (HTTPException 400 "Estrutura do CSV inválida.")
     else
       t ← lift (Ingestao.transformar df_raw usuario agora_1);
       let df : DataFrame := t.1 in
       mes_ano ← lift (Ingestao.extrair_mes_ano df);
       let operacao := if substituir then "SUBSTITUICAO" else "NOVA" in
       _ ← get_supabase;
       _ ← (if substituir then deletar_competencia_2 mes_ano else mret 0);
       r ← Ingestao.inserir_em_lotes df;
       let inseridos := r.1 in
       let erros := r.2 in
       _ ← Ingestao.registrar_log mes_ano operacao (filename arquivo)
             (Pandas.len df) inseridos erros usuario agora_2;
       mret (JObj
         [ ("ok", JBool true);
           ("mes_ano", celula_json mes_ano);
           ("inseridos", JNat inseridos);
           ("erros", JNat erros);
           ("operacao", JStr operacao) ]))
    (λ e, match e with
          | HTTPException _ _ => raise e
          | Exception _ _ => raise (HTTPException 500 (str_exc e))
          end).

(** [deletar_competencia(request)], the handler of
    [/api/delete-competencia]; [request] is the decoded body, [None] when
    the body is not JSON. *)
Definition deletar_competencia (request : option json) : M json :=
  try_except
    (body ← lift (match request with
                  | Some b => Normal b
                  | None => Raise (Exception "JSONDecodeError"
                                     "Expecting value")
                  end);
     mes_ano ← lift (get "mes_ano" body);
     if negb (truthy mes_ano) then
       raise (HTTPException 400 "mes_ano não fornecido")
     else
       _ ← get_supabase;
       dados ← Store.delete_eq mes_ano;
       mret (JObj [("ok", JBool true); ("deleted", JNat (length dados))]))
    (λ e, raise (HTTPException 500 (str_exc e))).

End Endpoints.

(** [collections.Counter(xs).items()]: every value with the number of its
    occurrences, in the order of the first ones. *)
Definition Counter (xs : list celula) : list (celula * nat) :=
  map (λ x, (x, Pandas.contagem x xs)) (Pandas.distintos xs).

(** [a < b] on two items of a counter. Tuples compare by the first
    component that differs; a text and a number do not compare, and the
    comparison raises [TypeError], whose message names the two types (a
    number is named as a float here). *)
Definition item_lt (a b : celula * nat) : resultado bool :=
  match a.1, b.1 with
  | Str s, Str t =>
      Normal (if String.eqb s t then a.2 <? b.2 else String.ltb s t)
  | Num x, Num y =>
      Normal (if numero_eqb x y then a.2 <? b.2 else negb (numero_leb y x))
  | Str _, Num _ =>
      Raise (Exception "TypeError"
               "'<' not supported between instances of 'str' and 'float'")
  | Num _, Str _ =>
      Raise (Exception "TypeError"
               "'<' not supported between instances of 'float' and 'str'")
  end.

(** One item put in its place in a decreasing list, before the items it
    is not less than. *)
Fixpoint inserir_desc (x : celula * nat) (l : list (celula * nat))
    : resultado (list (celula * nat)) :=
  match l with
  | [] => Normal [x]
  | y :: r =>
      match item_lt x y with
      | Raise e => Raise e
      | Normal true =>
          match inserir_desc x r with
          | Raise e => Raise e
          | Normal r' => Normal (y :: r')
          end
      | Normal false => Normal (x :: l)
      end
  end.

(** [sorted(l, reverse=True)]: decreasing, items that compare equal in the
    order they had. *)
Definition sorted_reverse (l : list (celula * nat))
    : resultado (list (celula * nat)) :=
  foldr (λ x acc, match acc with
                  | Raise e => Raise e
                  | Normal a => inserir_desc x a
                  end) (Normal []) l.

(** [r["mes_ano"]] for the rows with [r.get("mes_ano")] true. *)
Definition mes_ano_de (r : gmap string celula) : option celula :=
  match r !! "mes_ano" with
  | Some c => if truthy (celula_json c) then Some c else None
  | None => None
  end.

(** [JSONResponse(content)] of the list of competencies: the encoder
    refuses a number that is not finite. *)
Definition JSONResponse (competencias : list (celula * nat))
    : resultado json :=
  if forallb (λ it, match it.1 with
                    | Num (Infinito _) => false
                    | _ => true
                    end) competencias
  then Normal (JObj
         [ ("ok", JBool true);
           ("competencias",
            JArr (map (λ it, JObj [ ("mes_ano", celula_json it.1);
                                    ("total", JNat it.2) ])
                      competencias)) ])
  else Raise (Exception "ValueError"
                "Out of range float values are not JSON compliant").

Section Consultas.

(** What
    [table("gratificacoes").select("mes_ano", count="exact").range(0, 999999).execute()]
    does: the rows of [resultado.data], or the exception of a request that
    fails. *)
Variable select_mes_ano : M (list (gmap string celula)).

(** [listar_competencias()], the handler of [/api/competencias]. *)
Definition listar_competencias : M json :=
  try_except
    (_ ← get_supabase;
     data ← select_mes_ano;
     if negb (bool_decide (data = [])) then
       let counts := Counter (omap mes_ano_de data) in
       competencias ← lift (sorted_reverse counts);
       lift (JSONResponse competencias)
     else lift (JSONResponse []))
    (λ e, raise (HTTPException 500 (str_exc e))).

End Consultas.

End App.

(** ** Definitions used by the statements

    The transformer read row by row, the predicates of the statements, and
    the files and stores of the worked examples. *)

Section Enunciados.

Implicit Types (r : gmap string celula) (df : DataFrame).

(** Step 2 of [transformar] on one row: the columns [cs] trimmed in
    turn. *)
Definition aparar_linha (cs : list string) r : gmap string celula :=
  fold_left
    (λ r' col,
       partial_alter (λ _, Pandas.str_method Py.strip (r' !! col)) col r')
    cs r.

(** [Ingestao.preparar] on one row (lemma [linhas_preparar]). *)
Definition preparar_linha r : gmap string celula :=
  let r1 :=
    filter (λ kv : string * celula, kv.1 ∈ Ingestao.COLUNAS_MANTER) r in
  let r2 := aparar_linha Ingestao.COLUNAS_MANTER r1 in
  let r3 :=
    partial_alter
      (λ _, Pandas.soma (Pandas.fillna (Str "") (r2 !! "NUMFUNC"))
                        (Pandas.fillna (Str "") (r2 !! "NUMVINC"))) "cod" r2 in
  let r4 :=
    partial_alter (λ _, Pandas.str_method Py.strip (r3 !! "cod")) "cod" r3 in
  let r5 :=
    partial_alter
      (λ _, Pandas.str_method Ingestao.normalizar_valor (r4 !! "VALOR"))
      "VALOR" r4 in
  partial_alter (λ _, Pandas.to_numeric (r5 !! "VALOR")) "VALOR" r5.

(** The text of a cell once trimmed; nothing for a cell without text. *)
Definition texto_aparado (c : option celula) : string :=
  match c with
  | Some (Str s) => Py.strip s
  | _ => ""
  end.

(** What [cod] and [valor] become for a row of the file. *)
Definition cod_de r : string :=
  Py.strip (texto_aparado (r !! "NUMFUNC")
            +:+ texto_aparado (r !! "NUMVINC")).

Definition valor_de r : option numero :=
  match r !! "VALOR" with
  | Some (Str s) =>
      Numeric.to_numeric (Ingestao.normalizar_valor (Py.strip s))
  | _ => None
  end.

(** The rows of the file that step 5 keeps. *)
Definition aceita r : bool :=
  negb (String.eqb (cod_de r) "") && bool_decide (is_Some (valor_de r)).

(** [Pandas.rename1] on one row. *)
Definition renomear_linha (de para : string) r : gmap string celula :=
  match r !! de with
  | Some v => <[para := v]> (delete de r)
  | None => r
  end.

(** [Ingestao.finalizar] on one row (lemma [linhas_finalizar]). *)
Definition finalizar_linha (usuario agora : string) r
    : gmap string celula :=
  let r :=
    fold_left (λ r' p, renomear_linha p.1 p.2 r') Ingestao.RENOMEAR r in
  let r := fold_left (λ r' c, delete c r') ["NUMFUNC"; "NUMVINC"] r in
  let r := partial_alter (λ _, Some (Str usuario)) "importado_por" r in
  partial_alter (λ _, Some (Str agora)) "importado_em" r.


(** The frame [df] with the rows [l] in place of its own. *)
Definition com_linhas (l : list (gmap string celula)) df : DataFrame :=
  {| columns := columns df; linhas := l |}.

(** A row of the first end-to-end scenario, [valor] being the text of its
    VALOR field; the fields the scenario leaves out are empty. *)
Definition linha_cenario (valor : string) : gmap string celula :=
  list_to_map
    [ ("EMP_CODIGO", Str "001"); ("MES_ANO", Str "01/2024");
      ("NUMFUNC", Str "123"); ("NUMVINC", Str "45"); ("VALOR", Str valor) ].

(** The file of that scenario: the 19 columns and that one row. *)
Definition csv_cenario (valor : string) : DataFrame :=
  {| columns := Ingestao.COLUNAS_MANTER; linhas := [linha_cenario valor] |}.


(** A row without NUMFUNC and with a NUMVINC of blanks. *)
Definition linha_sem_cod : gmap string celula :=
  list_to_map
    [ ("EMP_CODIGO", Str "001"); ("MES_ANO", Str "01/2024");
      ("NUMVINC", Str "   "); ("VALOR", Str "10,00") ].

(** A file without the column VALOR. *)
Definition csv_sem_valor : DataFrame :=
  {| columns := removelast Ingestao.COLUNAS_MANTER;
     linhas := [linha_cenario "10,00"] |}.

(** A configured store with empty tables that serves every request. *)
Definition loja_vazia : Supabase :=
  {| gratificacoes := []; importacoes_log := []; credenciais := true;
     chamadas := []; falha := λ _, false |}.

(** An allow-list of two users. *)
Definition usuarios_exemplo : gmap string string :=
  App.carregar_usuarios "Ana@prefeitura.gov:s3nha, bob@prefeitura.gov:pw".

(** A row with no MES_ANO, and the file that has only that row. *)
Definition linha_sem_mes_ano : gmap string celula :=
  list_to_map
    [ ("EMP_CODIGO", Str "001"); ("NUMFUNC", Str "123");
      ("NUMVINC", Str "45"); ("VALOR", Str "10,00") ].

Definition csv_sem_mes_ano : DataFrame :=
  {| columns := Ingestao.COLUNAS_MANTER; linhas := [linha_sem_mes_ano] |}.

(** Requests that only read. *)
Definition so_consulta (c : chamada) : bool :=
  match c with
  | SelectCount _ => true
  | _ => false
  end.

(** What the store holds and how it answers the next request. *)
Definition mesma_loja (a b : Supabase) : Prop :=
  gratificacoes a = gratificacoes b
  ∧ importacoes_log a = importacoes_log b
  ∧ credenciais a = credenciais b
  ∧ falha a (length (chamadas a)) = falha b (length (chamadas b)).

(** A store that already holds a row of the competency 01/2024. *)
Definition loja_com_dados : Supabase :=
  {| gratificacoes := [ {[ "mes_ano" := Str "01/2024" ]} ];
     importacoes_log := [];
     credenciais := true;
     chamadas := [];
     falha := λ _, false |}.

End Enunciados.

(** Whether every character of [s] is a digit, a point or a minus sign. *)
Fixpoint so_valor (s : string) : bool :=
  match s with
  | EmptyString => true
  | String c r => Ingestao.valor_char c && so_valor r
  end.

(** The header of every transformed frame. *)
Definition COLUNAS_SAIDA : list string :=
  [ "emp_codigo"; "mes_ano"; "num_folha"; "setor"; "orgao"; "situacao";
    "cargo"; "tipovinc"; "rubrica"; "nome_rubrica"; "complemento";
    "competencia"; "info"; "tipo_pagamento"; "tipo_rubrica"; "vda";
    "valor"; "cod"; "importado_por"; "importado_em" ].

(** Two rows with the same required fields. *)
Definition mesmos_campos (r1 r2 : gmap string celula) : Prop :=
  ∀ c, c ∈ Ingestao.COLUNAS_MANTER → r1 !! c = r2 !! c.

(** The number of commas and points of [s]. *)
Fixpoint separadores (s : string) : nat :=
  match s with
  | EmptyString => 0
  | String c r =>
      (if Ascii.eqb c ","%char || Ascii.eqb c "."%char then 1 else 0)
      + separadores r
  end.

(** The number of points of [s]. *)
Fixpoint pontos (s : string) : nat :=
  match s with
  | EmptyString => 0
  | String c r => (if Ascii.eqb c "."%char then 1 else 0) + pontos r
  end.



(** Requests that delete rows. *)
Definition apaga (c : chamada) : bool :=
  match c with
  | DeleteGratificacoes _ => true
  | _ => false
  end.

(** The transformed records of the scenario with VALOR ["10,00"]. *)
Definition registros_cenario : DataFrame :=
  Ingestao.finalizar "joao.silva" "2024-02-01T10:00:00"
    (Ingestao.filtrar (Ingestao.preparar (csv_cenario "10,00"))).


(** One step of the loop that builds the allow-list. *)
Definition registrar_usuario (users : gmap string string)
    (user_entry : string) : gmap string string :=
  if Py.contains ":"%char user_entry then
    match Py.split1 ":"%char (Py.strip user_entry) with
    | Some (email, password) =>
        <[Py.lower (Py.strip email) := Py.strip password]> users
    | None => users
    end
  else users.

(** The text that a row has in [mes_ano], when it has one that is not
    empty. *)
Definition competencia_de (r : gmap string celula) : option string :=
  match r !! "mes_ano" with
  | Some (Str s) => if String.eqb s "" then None else Some s
  | _ => None
  end.

(** Each competency is strictly greater than the next one. *)
Fixpoint decrescente (l : list (string * nat)) : bool :=
  match l with
  | a :: r =>
      match r with
      | b :: _ => String.ltb b.1 a.1 && decrescente r
      | [] => true
      end
  | [] => true
  end.

(** One entry of the answer of [/api/competencias]. *)
Definition item_json (p : string * nat) : json :=
  JObj [("mes_ano", JStr p.1); ("total", JNat p.2)].

(** The request of [/api/competencias] when the store serves it: the rows
    of the table. *)
Definition consulta_mes_ano : M (list (gmap string celula)) := λ st,
  (Normal (gratificacoes st), st).

(** A store with two competencies, a row with no competency and a row
    with an empty one. *)
Definition loja_competencias : Supabase :=
  {| gratificacoes :=
       [ {[ "mes_ano" := Str "01/2024" ]}; {[ "mes_ano" := Str "02/2024" ]};
         ∅; {[ "mes_ano" := Str "01/2024" ]}; {[ "mes_ano" := Str "" ]} ];
     importacoes_log := [];
     credenciais := true;
     chamadas := [];
     falha := λ _, false |}.

(** A store with a text and a number in [mes_ano]. *)
Definition loja_mista : Supabase :=
  {| gratificacoes :=
       [ {[ "mes_ano" := Str "01/2024" ]};
         {[ "mes_ano" := Num (Finito (Qmake 2024 1)) ]} ];
     importacoes_log := [];
     credenciais := true;
     chamadas := [];
     falha := λ _, false |}.

(** A store whose credentials are not set. *)
Definition loja_sem_credenciais : Supabase :=
  {| gratificacoes := []; importacoes_log := []; credenciais := false;
     chamadas := []; falha := λ _, false |}.

Definition item_texto (p : string * nat) : celula * nat := (Str p.1, p.2).

(** Whether a cell is a text. *)
Definition texto (c : celula) : bool :=
  match c with
  | Str _ => true
  | Num _ => false
  end.

(** Unfolds the monad of the endpoints. *)
Ltac desdobrar :=
  unfold try_except, mbind, M_bind, mret, M_ret, lift, raise;
  cbv beta iota zeta.

(** * Properties *)

Example to_numeric_plain :
  Numeric.to_numeric "1234.56" = Some (Finito (Qmake 30864 25)).
Proof. vm_compute. reflexivity. Qed.

Example to_numeric_two_points : Numeric.to_numeric "1.234.56" = None.
Proof. vm_compute. reflexivity. Qed.

Example mode_ties :
  Pandas.mode [Some (Str "02/2024"); None; Some (Str "01/2024"); None; None]
  = [Str "01/2024"; Str "02/2024"].
Proof. vm_compute. reflexivity. Qed.

(** ** The transformer, row by row *)

Section PorLinha.

Implicit Types (r : gmap string celula) (df : DataFrame).

Lemma linhas_fold_strip cs df :
  linhas (fold_left (λ d col, Pandas.set_coluna col
                     (λ r, Pandas.str_method Py.strip (r !! col)) d) cs df)
  = map (aparar_linha cs) (linhas df).
Proof.
  revert df. induction cs as [|c cs IH]; intros df; simpl.
  - by rewrite map_id.
  - rewrite IH. simpl. by rewrite map_map.
Qed.

Lemma aparar_linha_lookup cs r c :
  NoDup cs →
  aparar_linha cs r !! c
  = if bool_decide (c ∈ cs) then Pandas.str_method Py.strip (r !! c)
    else r !! c.
Proof.
  intros Hnd. revert r. induction Hnd as [|a cs Ha Hnd IH]; intros r; simpl.
  - done.
  - unfold aparar_linha in *. rewrite IH.
    destruct (decide (c = a)) as [->|Hne].
    + rewrite (bool_decide_eq_false_2 _ Ha), bool_decide_eq_true_2 by left.
      by rewrite lookup_partial_alter_eq.
    + rewrite !lookup_partial_alter_ne by done.
      destruct (decide (c ∈ cs)) as [Hin|Hin].
      * rewrite !bool_decide_eq_true_2; [done|by right|done].
      * rewrite !bool_decide_eq_false_2; [done| |done].
        intros [?|?]%elem_of_cons; done.
Qed.

Lemma linhas_set_coluna c f df :
  linhas (Pandas.set_coluna c f df)
  = map (λ r, partial_alter (λ _, f r) c r) (linhas df).
Proof. reflexivity. Qed.

Lemma linhas_preparar df :
  linhas (Ingestao.preparar df) = map preparar_linha (linhas df).
Proof.
  unfold Ingestao.preparar.
  rewrite !linhas_set_coluna, linhas_fold_strip.
  change (columns (Pandas.projetar Ingestao.COLUNAS_MANTER df))
    with Ingestao.COLUNAS_MANTER.
  change (linhas (Pandas.projetar Ingestao.COLUNAS_MANTER df))
    with (map (λ r : gmap string celula,
                 filter (λ kv : string * celula,
                           kv.1 ∈ Ingestao.COLUNAS_MANTER) r)
              (linhas df)).
  rewrite !map_map. apply map_ext. intros r.
  unfold preparar_linha. cbv beta zeta. reflexivity.
Qed.

Lemma NoDup_COLUNAS_MANTER : NoDup Ingestao.COLUNAS_MANTER.
Proof. compute_done. Qed.

Lemma aparada_lookup r c :
  c ∈ Ingestao.COLUNAS_MANTER →
  aparar_linha Ingestao.COLUNAS_MANTER
    (filter (λ kv : string * celula, kv.1 ∈ Ingestao.COLUNAS_MANTER) r) !! c
  = Pandas.str_method Py.strip (r !! c).
Proof.
  intros Hc. rewrite aparar_linha_lookup by apply NoDup_COLUNAS_MANTER.
  rewrite bool_decide_eq_true_2 by done.
  f_equal. rewrite map_lookup_filter.
  destruct (r !! c) as [v|]; simpl; [|done].
  by rewrite option_guard_True.
Qed.

Lemma fillna_str_method c :
  Pandas.fillna (Str "") (Pandas.str_method Py.strip c)
  = Str (texto_aparado c).
Proof. by destruct c as [[]|]. Qed.

Lemma preparar_linha_cod r :
  preparar_linha r !! "cod"
  = Some (Str (Py.strip (texto_aparado (r !! "NUMFUNC")
                         +:+ texto_aparado (r !! "NUMVINC")))).
Proof.
  unfold preparar_linha. cbv zeta.
  rewrite lookup_partial_alter_ne by done.
  rewrite lookup_partial_alter_ne by done.
  rewrite lookup_partial_alter_eq, lookup_partial_alter_eq.
  rewrite !aparada_lookup by compute_done.
  by rewrite !fillna_str_method.
Qed.

Lemma preparar_linha_valor r :
  preparar_linha r !! "VALOR"
  = match r !! "VALOR" with
    | Some (Str s) =>
        Num <$> Numeric.to_numeric (Ingestao.normalizar_valor (Py.strip s))
    | _ => None
    end.
Proof.
  unfold preparar_linha. cbv zeta.
  rewrite lookup_partial_alter_eq, lookup_partial_alter_eq.
  rewrite !lookup_partial_alter_ne by done.
  rewrite aparada_lookup by compute_done.
  by destruct (r !! "VALOR") as [[]|].
Qed.

End PorLinha.

Section Transformar.

Implicit Types (r : gmap string celula) (df : DataFrame).

Lemma linhas_rename m df :
  linhas (Pandas.rename m df)
  = map (λ r, fold_left (λ r' p, renomear_linha p.1 p.2 r') m r)
        (linhas df).
Proof.
  unfold Pandas.rename. revert df.
  induction m as [|p m IH]; intros df; simpl.
  - by rewrite map_id.
  - rewrite IH. simpl. by rewrite map_map.
Qed.

Lemma linhas_finalizar usuario agora df :
  linhas (Ingestao.finalizar usuario agora df)
  = map (finalizar_linha usuario agora) (linhas df).
Proof.
  unfold Ingestao.finalizar.
  rewrite !linhas_set_coluna.
  change (linhas (Pandas.drop ?cs ?d))
    with (map (λ r : gmap string celula,
                 fold_left (λ r' c, delete c r') cs r)
              (linhas d)).
  rewrite linhas_rename, !map_map. apply map_ext. intros r.
  unfold finalizar_linha. cbv beta zeta. reflexivity.
Qed.

Lemma filter_map_iff {A B} (f : A → B)
    (P : B → Prop) `{∀ y, Decision (P y)}
    (Q : A → Prop) `{∀ x, Decision (Q x)} (l : list A) :
  (∀ x, P (f x) ↔ Q x) →
  filter P (map f l) = map f (filter Q l).
Proof.
  intros HPQ. induction l as [|x l IH]; [done|].
  cbn [map]. rewrite !filter_cons.
  destruct (decide (P (f x))) as [HP|HP], (decide (Q x)) as [HQ|HQ].
  - cbn [map]. by rewrite IH.
  - by apply HPQ in HP.
  - by apply HPQ in HQ.
  - done.
Qed.

Lemma is_Some_None_false {A} : bool_decide (is_Some (@None A)) = false.
Proof. apply bool_decide_eq_false_2. by intros [? ?]. Qed.

Lemma sobrevive_preparar r :
  (forallb (λ c, bool_decide (is_Some (preparar_linha r !! c))) ["cod"; "VALOR"]
   && Ingestao.cod_nao_vazio (preparar_linha r)) = aceita r.
Proof.
  unfold Ingestao.cod_nao_vazio, aceita. cbn [forallb].
  rewrite preparar_linha_cod, preparar_linha_valor.
  fold (cod_de r). unfold valor_de.
  rewrite (bool_decide_eq_true_2 (is_Some (Some _))) by eauto.
  destruct (negb (cod_de r =? "")%string);
    destruct (r !! "VALOR") as [[s|x]|]; cbn [andb];
    rewrite ?is_Some_None_false; try reflexivity.
  all: destruct (Numeric.to_numeric _); cbn [fmap option_fmap option_map];
    rewrite ?is_Some_None_false; try reflexivity.
  all: rewrite !bool_decide_eq_true_2 by eauto; reflexivity.
Qed.

Lemma linhas_filtrar_preparar df :
  linhas (Ingestao.filtrar (Ingestao.preparar df))
  = map preparar_linha (filter (λ r, aceita r = true) (linhas df)).
Proof.
  unfold Ingestao.filtrar, Pandas.selecionar, Pandas.dropna.
  cbn [linhas columns].
  rewrite linhas_preparar, list_filter_filter.
  apply filter_map_iff. intros r.
  rewrite <- sobrevive_preparar, andb_true_iff. tauto.
Qed.

(** [transformar] on a file with every required column: the rows kept are
    the accepted ones, prepared and finished one by one and in the order of
    the file; the rest are counted as removed. *)
Lemma transformar_linhas df usuario agora :
  Ingestao.faltando df = [] →
  ∃ d,
    Ingestao.transformar df usuario agora
    = Normal (d, length (linhas df)
                 - length (filter (λ r, aceita r = true) (linhas df)))
    ∧ linhas d
      = map (λ r, finalizar_linha usuario agora (preparar_linha r))
            (filter (λ r, aceita r = true) (linhas df)).
Proof.
  intros Hf. unfold Ingestao.transformar. rewrite Hf.
  eexists. split.
  - unfold Pandas.len. rewrite linhas_filtrar_preparar, linhas_preparar.
    rewrite !length_map. reflexivity.
  - rewrite linhas_finalizar, linhas_filtrar_preparar, map_map. reflexivity.
Qed.

End Transformar.

Section Finalizar.

Implicit Types (r : gmap string celula) (df : DataFrame).

Lemma renomear_fold_outro (m : list (string * string)) r k :
  k ∉ m.*1 → k ∉ m.*2 →
  fold_left (λ r' p, renomear_linha p.1 p.2 r') m r !! k = r !! k.
Proof.
  revert r. induction m as [|[de para] m IH]; intros r H1 H2; [done|].
  cbn [fold_left fst snd]. rewrite IH.
  - unfold renomear_linha. destruct (r !! de); [|done].
    rewrite lookup_insert_ne, lookup_delete_ne; [done| |].
    + intros ->. apply H1. left.
    + intros ->. apply H2. left.
  - intros ?. apply H1. by right.
  - intros ?. apply H2. by right.
Qed.

Lemma finalizar_linha_cod usuario agora r :
  finalizar_linha usuario agora r !! "cod" = r !! "cod".
Proof.
  unfold finalizar_linha. cbv zeta.
  rewrite !lookup_partial_alter_ne by done.
  cbn [fold_left]. rewrite !lookup_delete_ne by done.
  apply renomear_fold_outro; compute_done.
Qed.

Lemma finalizar_linha_valor usuario agora r v :
  r !! "VALOR" = Some v →
  finalizar_linha usuario agora r !! "valor" = Some v.
Proof.
  intros Hv. unfold finalizar_linha. cbv zeta.
  rewrite !lookup_partial_alter_ne by done.
  cbn [fold_left]. rewrite !lookup_delete_ne by done.
  change Ingestao.RENOMEAR
    with (removelast Ingestao.RENOMEAR ++ [("VALOR", "valor")]).
  rewrite fold_left_app. cbn [fold_left fst snd].
  unfold renomear_linha at 1.
  rewrite renomear_fold_outro, Hv by compute_done.
  apply lookup_insert_eq.
Qed.

End Finalizar.

(** ** Trimming and the normalisation of [VALOR] *)



Lemma espaco_nao_e_valor c :
  Py.isspace c = true →
  Ingestao.valor_char (if Ascii.eqb c ","%char then "."%char else c) = false.
Proof.
  destruct c as [[] [] [] [] [] [] [] []]; vm_compute; congruence.
Qed.

Lemma normalizar_lstrip s :
  Ingestao.normalizar_valor (Py.lstrip s) = Ingestao.normalizar_valor s.
Proof.
  unfold Ingestao.normalizar_valor, Py.replace_char.
  induction s as [|c s IH]; [done|].
  cbn [Py.lstrip]. destruct (Py.isspace c) eqn:Hc; [|done].
  rewrite IH. cbn [Py.map_chars Py.filter_chars].
  by rewrite (espaco_nao_e_valor c Hc).
Qed.

Lemma normalizar_rstrip s :
  Ingestao.normalizar_valor (Py.rstrip s) = Ingestao.normalizar_valor s.
Proof.
  unfold Ingestao.normalizar_valor, Py.replace_char.
  induction s as [|c s IH]; [done|].
  cbn [Py.rstrip]. destruct (Py.rstrip s) as [|c' s'] eqn:Hr.
  - cbn [Py.map_chars Py.filter_chars] in *.
    destruct (Py.isspace c) eqn:Hc.
    + by rewrite (espaco_nao_e_valor c Hc).
    + cbn [Py.map_chars Py.filter_chars]. by rewrite <- IH.
  - cbn [Py.map_chars Py.filter_chars] in *. by rewrite IH.
Qed.

Lemma normalizar_strip s :
  Ingestao.normalizar_valor (Py.strip s) = Ingestao.normalizar_valor s.
Proof. unfold Py.strip. by rewrite normalizar_rstrip, normalizar_lstrip. Qed.

Section Exclusao.

Implicit Types (r : gmap string celula) (df : DataFrame).

(** A row that is not accepted leaves no trace in the output and adds one
    to the count of removed rows: the file without that row gives the same
    records. *)
Lemma transformar_exclui df usuario agora l1 r l2 :
  Ingestao.faltando df = [] →
  linhas df = l1 ++ r :: l2 →
  aceita r = false →
  ∃ d d' n,
    Ingestao.transformar df usuario agora = Normal (d, S n)
    ∧ Ingestao.transformar (com_linhas (l1 ++ l2) df) usuario agora
      = Normal (d', n)
    ∧ linhas d = linhas d'.
Proof.
  intros Hf Hl Hr.
  destruct (transformar_linhas df usuario agora Hf) as (d & Hd & Hld).
  destruct (transformar_linhas (com_linhas (l1 ++ l2) df) usuario agora Hf)
    as (d' & Hd' & Hld').
  cbn [com_linhas linhas] in Hd', Hld'.
  rewrite Hl in Hd, Hld.
  rewrite filter_app, filter_cons_False in Hd, Hld by (by rewrite Hr).
  rewrite filter_app in Hd', Hld'.
  exists d, d', (length (l1 ++ l2)
                 - length (filter (λ r, aceita r = true) l1
                           ++ filter (λ r, aceita r = true) l2)).
  split; [|split]; [|done|congruence].
  rewrite Hd. do 2 f_equal.
  pose proof (length_filter (λ r, aceita r = true) l1).
  pose proof (length_filter (λ r, aceita r = true) l2).
  rewrite !length_app in *. cbn [length]. lia.
Qed.

(** A row that is accepted is in the output, at the position it has among
    the accepted rows, with its [cod] and its [valor]. *)
Lemma transformar_mantem df usuario agora l1 r l2 x :
  Ingestao.faltando df = [] →
  linhas df = l1 ++ r :: l2 →
  negb (String.eqb (cod_de r) "") = true →
  valor_de r = Some x →
  ∃ d n r',
    Ingestao.transformar df usuario agora = Normal (d, n)
    ∧ linhas d !! length (filter (λ r, aceita r = true) l1) = Some r'
    ∧ r' !! "cod" = Some (Str (cod_de r))
    ∧ r' !! "valor" = Some (Num x).
Proof.
  intros Hf Hl Hc Hx.
  destruct (transformar_linhas df usuario agora Hf) as (d & Hd & Hld).
  assert (Ha : aceita r = true).
  { unfold aceita. rewrite Hc, Hx. cbn [andb]. apply bool_decide_eq_true_2.
    eauto. }
  rewrite Hl, filter_app, filter_cons_True, map_app in Hld by done.
  cbn [map] in Hld.
  eexists d, _, _. split; [exact Hd|]. split; [|split].
  - rewrite Hld. rewrite lookup_app_r by (rewrite length_map; lia).
    rewrite length_map, Nat.sub_diag. reflexivity.
  - rewrite finalizar_linha_cod. apply preparar_linha_cod.
  - apply finalizar_linha_valor. rewrite preparar_linha_valor.
    unfold valor_de in Hx.
    destruct (r !! "VALOR") as [[s|]|]; try discriminate.
    by rewrite Hx.
Qed.

End Exclusao.

(** ** The transformer: the scenario of the specification and the rows it
    drops *)

(** C1, as the specification states it, fails: the row with VALOR
    ["1.234,56"] does not survive, so no transformed row carries
    [cod = "12345"] and [valor = 1234.56]. *)
Lemma cenario_milhar_nao_sobrevive :
  ¬ ∃ d n r' q,
      Ingestao.transformar (csv_cenario "1.234,56") "joao.silva"
        "2024-02-01T10:00:00" = Normal (d, n)
      ∧ r' ∈ linhas d
      ∧ r' !! "cod" = Some (Str "12345")
      ∧ r' !! "valor" = Some (Num (Finito q))
      ∧ Qeq q (Qmake 123456 100).
Proof.
  intros (d & n & r' & q & H & Hin & _).
  vm_compute in H. injection H as <- <-.
  cbn [linhas] in Hin. by apply elem_of_nil in Hin.
Qed.

(** C1, amended. For a row with NUMFUNC ["123"] and NUMVINC ["45"]: when
    its VALOR is ["1.234,56"], the normalised text is ["1.234.56"], which
    is not a number, and the row is dropped and counted as removed; when
    its VALOR is ["1234,56"], the row survives with [cod = "12345"] and
    [valor = 1234.56]. *)
Theorem cenario_cod_e_valor df usuario agora l1 r l2 :
  Ingestao.faltando df = [] →
  linhas df = l1 ++ r :: l2 →
  r !! "NUMFUNC" = Some (Str "123") →
  r !! "NUMVINC" = Some (Str "45") →
  (r !! "VALOR" = Some (Str "1.234,56") →
     Ingestao.normalizar_valor "1.234,56" = "1.234.56"
     ∧ Numeric.to_numeric "1.234.56" = None
     ∧ ∃ d d' n,
         Ingestao.transformar df usuario agora = Normal (d, S n)
         ∧ Ingestao.transformar (com_linhas (l1 ++ l2) df) usuario agora
           = Normal (d', n)
         ∧ linhas d = linhas d')
  ∧ (r !! "VALOR" = Some (Str "1234,56") →
     ∃ d n r' q,
       Ingestao.transformar df usuario agora = Normal (d, n)
       ∧ linhas d !! length (filter (λ r, aceita r = true) l1) = Some r'
       ∧ r' !! "cod" = Some (Str "12345")
       ∧ r' !! "valor" = Some (Num (Finito q))
       ∧ Qeq q (Qmake 123456 100)).
Proof.
  intros Hf Hl Hnf Hnv. split; intros Hv.
  - split; [by vm_compute|]. split; [by vm_compute|].
    apply (transformar_exclui df usuario agora l1 r l2 Hf Hl).
    unfold aceita, valor_de. rewrite Hv.
    replace (Numeric.to_numeric _) with (@None numero) by (by vm_compute).
    rewrite is_Some_None_false. apply andb_false_r.
  - destruct (transformar_mantem df usuario agora l1 r l2
                (Finito (Qmake 30864 25)) Hf Hl)
      as (d & n & r' & Hd & Hr' & Hcod & Hval).
    + unfold cod_de. rewrite Hnf, Hnv. by vm_compute.
    + unfold valor_de. rewrite Hv. by vm_compute.
    + exists d, n, r', (Qmake 30864 25).
      split; [done|]. split; [done|]. split; [|split; [done|by vm_compute]].
      rewrite Hcod. unfold cod_de. rewrite Hnf, Hnv. by vm_compute.
Qed.

Lemma cenario_cod_e_valor_witness :
  ∃ d n r' q,
    Ingestao.transformar (csv_cenario "1234,56") "joao.silva"
      "2024-02-01T10:00:00" = Normal (d, n)
    ∧ linhas d !! 0 = Some r'
    ∧ r' !! "cod" = Some (Str "12345")
    ∧ r' !! "valor" = Some (Num (Finito q))
    ∧ Qeq q (Qmake 123456 100).
Proof.
  apply (cenario_cod_e_valor (csv_cenario "1234,56") "joao.silva"
           "2024-02-01T10:00:00" [] (linha_cenario "1234,56") []);
    reflexivity.
Defined.

(** C3, as the specification states it, fails: ["R$ 100,50"] is not a
    number once its comma is a point, and yet the row survives, with
    [valor = 100.5], and nothing is counted as removed. *)
Lemma valor_com_simbolo_sobrevive :
  Numeric.to_numeric (Py.replace_char ","%char "."%char "R$ 100,50") = None
  ∧ ∃ d r',
      Ingestao.transformar (csv_cenario "R$ 100,50") "joao.silva"
        "2024-02-01T10:00:00" = Normal (d, 0)
      ∧ linhas d = [r']
      ∧ r' !! "valor" = Some (Num (Finito (Qmake 201 2))).
Proof.
  split; [by vm_compute|].
  destruct (Ingestao.transformar (csv_cenario "R$ 100,50") "joao.silva"
              "2024-02-01T10:00:00") as [[d n]|e] eqn:E;
    vm_compute in E; [|discriminate].
  injection E as <- <-. eexists _, _. split; [reflexivity|].
  split; [reflexivity|]. by vm_compute.
Qed.

(** C3, amended. A row whose VALOR text is not a number once commas are
    points and every character other than a digit, a point or a minus sign
    is removed, is excluded from the output and counted as removed. *)
Theorem valor_invalido_excluido df usuario agora l1 r l2 s :
  Ingestao.faltando df = [] →
  linhas df = l1 ++ r :: l2 →
  r !! "VALOR" = Some (Str s) →
  Numeric.to_numeric (Ingestao.normalizar_valor s) = None →
  ∃ d d' n,
    Ingestao.transformar df usuario agora = Normal (d, S n)
    ∧ Ingestao.transformar (com_linhas (l1 ++ l2) df) usuario agora
      = Normal (d', n)
    ∧ linhas d = linhas d'.
Proof.
  intros Hf Hl Hv Hn.
  apply (transformar_exclui df usuario agora l1 r l2 Hf Hl).
  unfold aceita, valor_de. rewrite Hv, normalizar_strip, Hn.
  rewrite is_Some_None_false. apply andb_false_r.
Qed.

Lemma valor_invalido_excluido_witness :
  ∃ d d' n,
    Ingestao.transformar (csv_cenario "1.234,56") "joao.silva"
      "2024-02-01T10:00:00" = Normal (d, S n)
    ∧ Ingestao.transformar (com_linhas [] (csv_cenario "1.234,56"))
        "joao.silva" "2024-02-01T10:00:00" = Normal (d', n)
    ∧ linhas d = linhas d'.
Proof.
  apply (valor_invalido_excluido (csv_cenario "1.234,56") "joao.silva"
           "2024-02-01T10:00:00" [] (linha_cenario "1.234,56") []
           "1.234,56");
    reflexivity.
Defined.




(** ** The column validator *)

Lemma elem_of_faltando df c :
  c ∈ Ingestao.faltando df
  ↔ c ∈ (list_to_set Ingestao.COLUNAS_MANTER ∖ list_to_set (columns df)
         : gset string).
Proof.
  unfold Ingestao.faltando.
  rewrite list_elem_of_filter, elem_of_difference, !elem_of_list_to_set.
  tauto.
Qed.

Lemma validar_colunas_faltando df :
  Ingestao.validar_colunas df
  = (bool_decide (Ingestao.faltando df = []), Ingestao.faltando df).
Proof.
  unfold Ingestao.validar_colunas.
  by destruct (Ingestao.faltando df).
Qed.

(** C2. The validator succeeds exactly when the difference between the 19
    required names and the header is empty; when it fails it reports the
    names of that difference and no other; and the import endpoint then
    answers 400 and leaves the store as it was, the journal of requests
    included. *)
Theorem validar_colunas_diferenca
    (chardet_detect : string → option string)
    (read_csv : string → option string → resultado DataFrame)
    (arquivo : UploadFile) (usuario : string) (substituir : bool)
    (agora_1 agora_2 : string) (st : Supabase) (df : DataFrame) :
  length Ingestao.COLUNAS_MANTER = 19
  ∧ ((Ingestao.validar_colunas df).1 = true
     ↔ list_to_set Ingestao.COLUNAS_MANTER ∖ list_to_set (columns df)
       = (∅ : gset string))
  ∧ ((Ingestao.validar_colunas df).1 = false →
     ∀ c, c ∈ (Ingestao.validar_colunas df).2
          ↔ c ∈ (list_to_set Ingestao.COLUNAS_MANTER
                 ∖ list_to_set (columns df) : gset string))
  ∧ ((App.ler chardet_detect read_csv (conteudo arquivo)).1 = Normal df →
     (Ingestao.validar_colunas df).1 = false →
     ∃ detail,
       App.importar_csv chardet_detect read_csv arquivo usuario substituir
         agora_1 agora_2 st
       = (Raise (HTTPException 400 detail), st)).
Proof.
  rewrite validar_colunas_faltando. cbn [fst snd].
  split; [reflexivity|]. split; [|split].
  - rewrite bool_decide_eq_true. split.
    + intros H. apply set_eq. intros c.
      rewrite <- elem_of_faltando, H. set_solver.
    + intros H. apply elem_of_nil_inv. intros c.
      rewrite elem_of_faltando, H. set_solver.
  - intros _ c. apply elem_of_faltando.
  - intros Hler Hv. unfold App.importar_csv.
    destruct (App.ler chardet_detect read_csv (conteudo arquivo))
      as [lido encoding].
    cbn [fst] in Hler. subst lido.
    unfold try_except, mbind, M_bind, lift. cbv beta iota.
    rewrite validar_colunas_faltando. cbn [fst negb]. rewrite Hv.
    eexists. reflexivity.
Qed.

Lemma validar_colunas_diferenca_witness :
  ∃ detail,
    App.importar_csv (λ _, Some "utf-8") (λ _ _, Normal csv_sem_valor)
      {| filename := "fev.csv"; conteudo := "" |} "joao.silva" true
      "2024-02-01T10:00:00" "2024-02-01T10:00:01" loja_vazia
    = (Raise (HTTPException 400 detail), loja_vazia).
Proof.
  apply (validar_colunas_diferenca (λ _, Some "utf-8")
           (λ _ _, Normal csv_sem_valor)
           {| filename := "fev.csv"; conteudo := "" |} "joao.silva" true
           "2024-02-01T10:00:00" "2024-02-01T10:00:01" loja_vazia
           csv_sem_valor);
    reflexivity.
Defined.

(** ** The login check *)



Example carregar_usuarios_exemplo :
  usuarios_exemplo !! "ana@prefeitura.gov" = Some "s3nha"
  ∧ usuarios_exemplo !! "bob@prefeitura.gov" = Some "pw"
  ∧ size usuarios_exemplo = 2.
Proof. vm_compute. auto. Qed.

Example login_senha_errada :
  App.login usuarios_exemplo "ana@prefeitura.gov" "outra"
  = Raise (HTTPException 401 "E-mail ou senha incorretos").
Proof. by vm_compute. Qed.

Example login_sem_usuarios :
  ∃ detail,
    App.login (App.carregar_usuarios "") "ana@prefeitura.gov" "s3nha"
    = Raise (HTTPException 403 detail).
Proof. eexists. by vm_compute. Qed.

(** ** Deleting a competency on demand *)

(** C8, on the code: a body without the key [mes_ano] is answered with
    status 500, not with a client error; the 400 raised inside the [try] is
    caught by its own [except Exception]. No request reaches the store. *)
Theorem delete_sem_mes_ano_responde_500 :
  App.deletar_competencia (Some (JObj [])) loja_vazia
  = (Raise (HTTPException 500 "400: mes_ano não fornecido"), loja_vazia).
Proof. by vm_compute. Qed.

(** The same for every body that is an object without a usable [mes_ano],
    and for every state of the store. *)
Lemma delete_sem_mes_ano campos v st :
  App.get "mes_ano" (JObj campos) = Normal v →
  truthy v = false →
  App.deletar_competencia (Some (JObj campos)) st
  = (Raise (HTTPException 500 "400: mes_ano não fornecido"), st).
Proof.
  intros Hg Hv. unfold App.deletar_competencia.
  unfold try_except, mbind, M_bind, lift. cbv beta iota.
  rewrite Hg. cbv beta iota. rewrite Hv. by vm_compute.
Qed.

(** With a [mes_ano], the handler deletes and answers 200. *)
Example delete_com_mes_ano :
  App.deletar_competencia (Some (JObj [("mes_ano", JStr "01/2024")]))
    loja_vazia
  = (Normal (JObj [("ok", JBool true); ("deleted", JNat 0)]),
     Store.registrar (DeleteGratificacoes (JStr "01/2024")) loja_vazia).
Proof. by vm_compute. Qed.

(** ** The competency extractor *)

(** C6, on the code: the transformed records of a file whose rows all lack
    MES_ANO have the column [mes_ano] and one row, and [extrair_mes_ano]
    raises [IndexError] on them: it returns neither a value of the column
    nor the sentinel. *)
Theorem extrair_mes_ano_sem_valores :
  ∃ d,
    Ingestao.transformar csv_sem_mes_ano "joao.silva" "2024-02-01T10:00:00"
    = Normal (d, 0)
    ∧ "mes_ano" ∈ columns d
    ∧ Pandas.len d = 1
    ∧ Ingestao.extrair_mes_ano d
      = Raise (Exception "IndexError"
                 "single positional indexer is out-of-bounds").
Proof.
  destruct (Ingestao.transformar csv_sem_mes_ano "joao.silva"
              "2024-02-01T10:00:00") as [[d n]|e] eqn:E;
    vm_compute in E; [|discriminate].
  injection E as <- <-. eexists. split; [reflexivity|].
  split; [compute_done|]. split; [reflexivity|]. vm_compute. reflexivity.
Qed.

(** Without the column, or without rows, the answer is the sentinel. *)
Lemma extrair_mes_ano_sentinela df :
  "mes_ano" ∉ columns df ∨ linhas df = [] →
  Ingestao.extrair_mes_ano df = Normal (Str "DESCONHECIDO").
Proof.
  unfold Ingestao.extrair_mes_ano, Pandas.coluna.
  intros [H|H].
  - by rewrite bool_decide_eq_false_2.
  - rewrite H. cbn [map]. by case_bool_decide.
Qed.

Section Moda.

Implicit Types (x y : celula) (l : list celula).

Lemma elem_of_inserir_ordenado x y l :
  x ∈ Pandas.inserir_ordenado y l ↔ x = y ∨ x ∈ l.
Proof.
  induction l as [|z l IH]; cbn [Pandas.inserir_ordenado].
  - rewrite list_elem_of_singleton, elem_of_nil. tauto.
  - destruct (celula_leb y z).
    + by rewrite !elem_of_cons.
    + rewrite !elem_of_cons, IH. tauto.
Qed.

Lemma elem_of_ordenar x l : x ∈ Pandas.ordenar l ↔ x ∈ l.
Proof.
  unfold Pandas.ordenar. induction l as [|z l IH]; cbn [fold_right].
  - done.
  - by rewrite elem_of_inserir_ordenado, elem_of_cons, IH.
Qed.

Lemma elem_of_distintos x l : x ∈ Pandas.distintos l → x ∈ l.
Proof.
  induction l as [|z l IH]; cbn [Pandas.distintos]; [done|].
  rewrite !elem_of_cons, list_elem_of_filter. tauto.
Qed.

Lemma maximo_ge (ns : list nat) n : n ∈ ns → n ≤ Pandas.maximo ns.
Proof.
  unfold Pandas.maximo. induction ns as [|m ns IH]; cbn [fold_right].
  - by intros ?%elem_of_nil.
  - intros [->|H]%elem_of_cons; [lia|]. specialize (IH H). lia.
Qed.

Lemma maximo_elem (ns : list nat) : ns ≠ [] → Pandas.maximo ns ∈ ns.
Proof.
  unfold Pandas.maximo. induction ns as [|m ns IH]; [done|]. intros _.
  cbn [fold_right]. destruct ns as [|k ns].
  - cbn [fold_right]. rewrite Nat.max_0_r. left.
  - destruct (Nat.max_spec m (fold_right Nat.max 0 (k :: ns)))
      as [[_ ->]|[_ ->]].
    + right. by apply IH.
    + left.
Qed.

(** When some value is present, [mode] starts with a value of the series
    that no other value beats in number of occurrences. *)
Lemma mode_mais_frequente (serie : list (option celula)) v :
  Some v ∈ serie →
  ∃ x resto,
    Pandas.mode serie = x :: resto
    ∧ Some x ∈ serie
    ∧ ∀ y, Some y ∈ serie →
           Pandas.contagem y (omap id serie)
           ≤ Pandas.contagem x (omap id serie).
Proof.
  intros Hv. unfold Pandas.mode.
  set (vs := omap id serie).
  set (m := Pandas.maximo (map (λ x, Pandas.contagem x vs) vs)).
  assert (Hin : ∀ y, Some y ∈ serie ↔ y ∈ vs).
  { intros y. unfold vs. rewrite list_elem_of_omap. split.
    - intros H. exists (Some y). done.
    - intros ([z|] & H & Hz); simplify_eq/=. done. }
  assert (Hvs : v ∈ vs) by by apply Hin.
  destruct (Pandas.ordenar _) as [|x resto] eqn:Ho.
  - exfalso.
    assert (Hm : m ∈ map (λ x, Pandas.contagem x vs) vs).
    { apply maximo_elem. destruct vs; [by apply elem_of_nil in Hvs|done]. }
    apply list_elem_of_fmap_1 in Hm as (w & Hw & Hwin).
    assert (Hf : w ∈ filter (λ x, Pandas.contagem x vs = m) vs).
    { by apply list_elem_of_filter. }
    destruct (filter _ vs) as [|a f] eqn:Hfe; [by apply elem_of_nil in Hf|].
    assert (a ∈ Pandas.ordenar (Pandas.distintos (a :: f))).
    { apply elem_of_ordenar. cbn [Pandas.distintos]. left. }
    rewrite Ho in H. by apply elem_of_nil in H.
  - exists x, resto. split; [done|].
    assert (Hx : x ∈ filter (λ x, Pandas.contagem x vs = m) vs).
    { apply elem_of_distintos, elem_of_ordenar. rewrite Ho. left. }
    apply list_elem_of_filter in Hx as [Hxm Hxin].
    split; [by apply Hin|].
    intros y Hy%Hin. rewrite Hxm. apply maximo_ge.
    by apply (list_elem_of_fmap_2 (λ x, Pandas.contagem x vs)).
Qed.

(** With the column present and some value in it, [extrair_mes_ano]
    returns a value of the column that no other value beats in number of
    occurrences. *)
Lemma extrair_mes_ano_moda df v :
  "mes_ano" ∈ columns df →
  Some v ∈ Pandas.coluna "mes_ano" df →
  ∃ x,
    Ingestao.extrair_mes_ano df = Normal x
    ∧ Some x ∈ Pandas.coluna "mes_ano" df
    ∧ ∀ y, Some y ∈ Pandas.coluna "mes_ano" df →
           Pandas.contagem y (omap id (Pandas.coluna "mes_ano" df))
           ≤ Pandas.contagem x (omap id (Pandas.coluna "mes_ano" df)).
Proof.
  intros Hc Hv. unfold Ingestao.extrair_mes_ano.
  rewrite bool_decide_eq_true_2 by done.
  destruct (mode_mais_frequente _ _ Hv) as (x & resto & Hm & Hx & Hmax).
  destruct (Pandas.coluna "mes_ano" df) as [|c serie] eqn:Hs.
  - by apply elem_of_nil in Hv.
  - rewrite Hm. eauto.
Qed.

End Moda.

(** ** The import endpoint on a file whose rows are all dropped *)

Lemma inserir_em_lotes_vazio df st :
  linhas df = [] →
  Ingestao.inserir_em_lotes df st = (Normal (0, 0), st).
Proof.
  intros H. unfold Ingestao.inserir_em_lotes, Pandas.len. rewrite H.
  reflexivity.
Qed.

Lemma extrair_mes_ano_casos df :
  (∃ m, Ingestao.extrair_mes_ano df = Normal m)
  ∨ (∃ c msg, Ingestao.extrair_mes_ano df = Raise (Exception c msg)).
Proof.
  unfold Ingestao.extrair_mes_ano.
  destruct (bool_decide _); [|eauto].
  destruct (Pandas.coluna _ _); [eauto|].
  destruct (Pandas.mode _); eauto.
Qed.

(** C10, on the code: importing with [substituir] a file whose rows are all
    dropped ends in status 500 at the call of [deletar_competencia]; the
    store receives no request and no log record is written. *)
Theorem importar_substituir_tudo_removido :
  App.importar_csv (λ _, Some "utf-8")
    (λ _ _, Normal (csv_cenario "1.234,56"))
    {| filename := "fev.csv"; conteudo := "" |} "joao.silva" true
    "2024-02-01T10:00:00" "2024-02-01T10:00:01" loja_vazia
  = (Raise (HTTPException 500
       "deletar_competencia() takes 1 positional argument but 2 were given"),
     loja_vazia).
Proof. vm_compute. reflexivity. Qed.

(** The same for every file that passes the validator, whatever its rows,
    and for every state of the store: with [substituir] the endpoint
    answers 500 and the store is as before. *)
Lemma importar_substituir_500
    (chardet_detect : string → option string)
    (read_csv : string → option string → resultado DataFrame)
    (arquivo : UploadFile) (usuario agora_1 agora_2 : string)
    (st : Supabase) (df : DataFrame) :
  (App.ler chardet_detect read_csv (conteudo arquivo)).1 = Normal df →
  Ingestao.faltando df = [] →
  ∃ detail,
    App.importar_csv chardet_detect read_csv arquivo usuario true
      agora_1 agora_2 st
    = (Raise (HTTPException 500 detail), st).
Proof.
  intros Hler Hf.
  destruct (transformar_linhas df usuario agora_1 Hf) as (d & Hd & _).
  unfold App.importar_csv.
  destruct (App.ler chardet_detect read_csv (conteudo arquivo))
    as [lido encoding].
  cbn [fst] in Hler. subst lido. desdobrar.
  rewrite validar_colunas_faltando. cbn [fst negb].
  rewrite Hf, bool_decide_eq_true_2 by done. cbn [negb]. cbv beta iota.
  rewrite Hd. cbv beta iota. cbn [fst].
  unfold App.get_supabase, Store.create_client, App.deletar_competencia_2,
    raise.
  destruct (extrair_mes_ano_casos d) as [[m ->]|(c & msg & ->)];
    cbv beta iota; eauto.
  destruct (credenciais st); cbv beta iota; eauto.
Qed.

(** Without [substituir], with the credentials configured and the store
    serving the request: no insert is sent, the competency is the sentinel,
    and one log record with three zero counts is written. *)
Lemma importar_tudo_removido
    (chardet_detect : string → option string)
    (read_csv : string → option string → resultado DataFrame)
    (arquivo : UploadFile) (usuario agora_1 agora_2 : string)
    (st : Supabase) (df : DataFrame) :
  (App.ler chardet_detect read_csv (conteudo arquivo)).1 = Normal df →
  Ingestao.faltando df = [] →
  filter (λ r, aceita r = true) (linhas df) = [] →
  credenciais st = true →
  falha st (length (chamadas st)) = false →
  let registro :=
    {| log_mes_ano := Str "DESCONHECIDO";
       log_operacao := "NOVA";
       log_arquivo := filename arquivo;
       log_linhas_total := 0;
       log_linhas_inseridas := 0;
       log_linhas_erro := 0;
       log_importado_por := usuario;
       log_importado_em := agora_2 |} in
  App.importar_csv chardet_detect read_csv arquivo usuario false
    agora_1 agora_2 st
  = (Normal (JObj [ ("ok", JBool true);
                    ("mes_ano", JStr "DESCONHECIDO");
                    ("inseridos", JNat 0);
                    ("erros", JNat 0);
                    ("operacao", JStr "NOVA") ]),
     Store.com_log (importacoes_log st ++ [registro])
       (Store.registrar (InsertLog registro) st)).
Proof.
  intros Hler Hf Hvazio Hcred Hfalha registro.
  destruct (transformar_linhas df usuario agora_1 Hf) as (d & Hd & Hld).
  rewrite Hvazio in Hld. cbn [map] in Hld.
  unfold App.importar_csv.
  destruct (App.ler chardet_detect read_csv (conteudo arquivo))
    as [lido encoding].
  cbn [fst] in Hler. subst lido. desdobrar.
  rewrite validar_colunas_faltando. cbn [fst negb].
  rewrite Hf, bool_decide_eq_true_2 by done. cbn [negb]. cbv beta iota.
  rewrite Hd. cbv beta iota. cbn [fst].
  rewrite extrair_mes_ano_sentinela by (by right). cbv beta iota.
  unfold App.get_supabase, Store.create_client. rewrite Hcred.
  cbv beta iota.
  rewrite inserir_em_lotes_vazio by done. cbv beta iota. cbn [fst snd].
  unfold Ingestao.registrar_log, Store.insert_log, Store.execute.
  rewrite Hfalha. unfold Pandas.len. rewrite Hld. reflexivity.
Qed.

(** ** The dry run *)

(** C7. [validar_csv] changes neither table of the store and sends it
    nothing but counting selects; and on the same file it gives the same
    answer against every store that holds the same tables and serves the
    request alike, in particular when it is called a second time. *)
Theorem validar_csv_somente_leitura
    (chardet_detect : string → option string)
    (read_csv : string → option string → resultado DataFrame)
    (arquivo : UploadFile) (st : Supabase) :
  let r := App.validar_csv chardet_detect read_csv arquivo st in
  gratificacoes r.2 = gratificacoes st
  ∧ importacoes_log r.2 = importacoes_log st
  ∧ credenciais r.2 = credenciais st
  ∧ falha r.2 = falha st
  ∧ (∃ novas, chamadas r.2 = chamadas st ++ novas
              ∧ Forall (λ c, so_consulta c = true) novas)
  ∧ (∀ st2, mesma_loja st2 st →
            (App.validar_csv chardet_detect read_csv arquivo st2).1 = r.1)
  ∧ (falha st (length (chamadas r.2)) = falha st (length (chamadas st)) →
     (App.validar_csv chardet_detect read_csv arquivo r.2).1 = r.1).
Proof.
  assert (Hgeral : ∀ st2, mesma_loja st2 st →
            (App.validar_csv chardet_detect read_csv arquivo st2).1
            = (App.validar_csv chardet_detect read_csv arquivo st).1).
  { intros st2 (Hg & Hl & Hc & Hf). unfold App.validar_csv.
    destruct (App.ler chardet_detect read_csv (conteudo arquivo))
      as [[df|e] encoding]; desdobrar; [|done].
    destruct (App.mes_ano_dominante df) as [mes_ano|e]; cbv beta iota;
      [|done].
    destruct (truthy (App.json_opt mes_ano)); cbv beta iota; [|done].
    unfold App.get_supabase, Store.create_client. rewrite Hc.
    destruct (credenciais st); cbv beta iota; [|done].
    unfold Store.select_count, Store.execute. rewrite Hf.
    destruct (falha st (length (chamadas st))); cbv beta iota; [done|].
    cbn [gratificacoes Store.registrar fst]. by rewrite Hg. }
  assert (Hest :
    let r := App.validar_csv chardet_detect read_csv arquivo st in
    gratificacoes r.2 = gratificacoes st
    ∧ importacoes_log r.2 = importacoes_log st
    ∧ credenciais r.2 = credenciais st
    ∧ falha r.2 = falha st
    ∧ (∃ novas, chamadas r.2 = chamadas st ++ novas
                ∧ Forall (λ c, so_consulta c = true) novas)).
  { assert (Hnada : ∃ novas, chamadas st = chamadas st ++ novas
                     ∧ Forall (λ c, so_consulta c = true) novas).
    { exists []. by rewrite app_nil_r. }
    unfold App.validar_csv.
    destruct (App.ler chardet_detect read_csv (conteudo arquivo))
      as [[df|e] encoding]; desdobrar; [|done].
    destruct (App.mes_ano_dominante df) as [mes_ano|e]; cbv beta iota;
      [|done].
    destruct (truthy (App.json_opt mes_ano)); cbv beta iota; [|done].
    unfold App.get_supabase, Store.create_client.
    destruct (credenciais st) eqn:Hc; cbv beta iota; [|done].
    unfold Store.select_count, Store.execute.
    destruct (falha st (length (chamadas st))); cbv beta iota;
      cbn [fst snd gratificacoes importacoes_log credenciais falha chamadas
           Store.registrar];
      (do 4 (split; [done|])); eexists; (split; [reflexivity|]);
      by repeat constructor. }
  cbv zeta in *. destruct Hest as (Hg & Hl & Hc & Hf & Hn).
  repeat split; try done.
  intros Hfalha. apply Hgeral. repeat split; try done.
  by rewrite Hf.
Qed.

Lemma validar_csv_somente_leitura_witness :
  (App.validar_csv (λ _, Some "utf-8") (λ _ _, Normal (csv_cenario "10,00"))
     {| filename := "fev.csv"; conteudo := "" |}
     (App.validar_csv (λ _, Some "utf-8")
        (λ _ _, Normal (csv_cenario "10,00"))
        {| filename := "fev.csv"; conteudo := "" |} loja_com_dados).2).1
  = (App.validar_csv (λ _, Some "utf-8")
       (λ _ _, Normal (csv_cenario "10,00"))
       {| filename := "fev.csv"; conteudo := "" |} loja_com_dados).1.
Proof.
  apply (validar_csv_somente_leitura (λ _, Some "utf-8")
           (λ _ _, Normal (csv_cenario "10,00"))
           {| filename := "fev.csv"; conteudo := "" |} loja_com_dados).
  reflexivity.
Defined.

Example validar_csv_exemplo :
  App.validar_csv (λ _, Some "utf-8") (λ _ _, Normal (csv_cenario "R$ 10,00"))
    {| filename := "fev.csv"; conteudo := "" |} loja_com_dados
  = (Normal (JObj
       [ ("ok", JBool true);
         ("total_linhas", JNat 1);
         ("colunas_faltando", JArr []);
         ("mes_ano", JStr "01/2024");
         ("ja_existe", JBool true);
         ("valores_invalidos", JNat 1);
         ("preview",
          JArr [ JObj [ ("NUMFUNC", JStr "123"); ("NUMVINC", JStr "45");
                        ("MES_ANO", JStr "01/2024"); ("COMPETENCIA", JStr "");
                        ("NOME_RUBRICA", JStr ""); ("VALOR", JStr "R$ 10,00") ] ]);
         ("encoding", JStr "utf-8") ]),
     Store.registrar (SelectCount (JStr "01/2024")) loja_com_dados).
Proof. vm_compute. reflexivity. Qed.

(** ** The batches of the importer *)

Section Lotes.

Context {A : Type}.
Variable B : nat.
Hypothesis B_pos : 0 < B.
Variable registros : list A.

Let N := length registros.

Lemma range_aux_concat fuel i :
  N - i ≤ fuel →
  concat (map (λ j, Py.slice registros j (j + B)) (Py.range_aux fuel i N B))
  = skipn i registros.
Proof.
  revert i. induction fuel as [|fuel IH]; intros i Hfuel.
  - cbn [Py.range_aux map concat]. symmetry. apply skipn_all2.
    fold N. lia.
  - cbn [Py.range_aux]. destruct (Nat.ltb_spec i N) as [Hlt|Hge].
    + cbn [map concat]. rewrite IH by lia.
      unfold Py.slice. replace (i + B - i) with B by lia.
      rewrite Nat.add_comm, <- skipn_skipn. apply firstn_skipn.
    + cbn [map concat]. symmetry. apply skipn_all2. fold N. lia.
Qed.

Lemma range_aux_length fuel i :
  N - i ≤ fuel →
  length (Py.range_aux fuel i N B) = (N - i + (B - 1)) / B.
Proof.
  revert i. induction fuel as [|fuel IH]; intros i Hfuel.
  - cbn [Py.range_aux length]. symmetry. apply Nat.div_small. lia.
  - cbn [Py.range_aux]. destruct (Nat.ltb_spec i N) as [Hlt|Hge].
    + cbn [length]. rewrite IH by lia.
      destruct (Nat.le_gt_cases B (N - i)) as [Hle|Hgt].
      * replace (N - i + (B - 1)) with (N - (i + B) + (B - 1) + 1 * B)
          by lia.
        rewrite Nat.div_add by lia. lia.
      * replace (N - (i + B) + (B - 1)) with (B - 1) by lia.
        rewrite Nat.div_small by lia.
        apply (Nat.div_unique _ _ _ (N - i - 1)); lia.
    + cbn [length]. symmetry. apply Nat.div_small. lia.
Qed.

Lemma range_aux_lotes fuel i :
  Forall (λ j, 0 < length (Py.slice registros j (j + B)) ≤ B)
         (Py.range_aux fuel i N B).
Proof.
  revert i. induction fuel as [|fuel IH]; intros i; cbn [Py.range_aux].
  - constructor.
  - destruct (Nat.ltb_spec i N) as [Hlt|Hge]; constructor; [|apply IH].
    unfold Py.slice. rewrite length_firstn, length_skipn. fold N. lia.
Qed.

(** All the batches but the last are full. *)
Lemma range_aux_cheios fuel i k j :
  Py.range_aux fuel i N B !! k = Some j →
  S k < length (Py.range_aux fuel i N B) →
  length (Py.slice registros j (j + B)) = B.
Proof.
  revert i k. induction fuel as [|fuel IH]; intros i k; cbn [Py.range_aux].
  - by rewrite lookup_nil.
  - destruct (Nat.ltb_spec i N) as [Hlt|Hge]; [|by rewrite lookup_nil].
    destruct k as [|k]; cbn [lookup list_lookup length].
    + intros [= <-] Hlen.
      destruct fuel as [|fuel]; cbn [Py.range_aux length] in Hlen; [lia|].
      destruct (Nat.ltb_spec (i + B) N) as [Hlt2|]; cbn [length] in Hlen;
        [|lia].
      unfold Py.slice. rewrite length_firstn, length_skipn. fold N. lia.
    + intros Hj Hlen. apply (IH (i + B) k); [done|lia].
Qed.

End Lotes.

Section Importador.

Implicit Types (st : Supabase) (regs : list (gmap string celula)).

Lemma TAMANHO_LOTE_pos : 0 < Ingestao.TAMANHO_LOTE.
Proof. unfold Ingestao.TAMANHO_LOTE. lia. Qed.

(** The loop of [inserir_em_lotes] over any list of offsets: every offset
    gives one insert request, whether the earlier ones failed or not; the
    size of a batch goes to [erros] when its request fails and to
    [inseridos] otherwise. *)
Lemma for_each_inserir_lote regs indices acc st :
  ∃ st',
    for_each indices (Ingestao.inserir_lote regs) acc st
    = (Normal
         (acc.1 + sum_list
                    (imap (λ k i,
                             if falha st (length (chamadas st) + k) then 0
                             else length (Py.slice regs i
                                            (i + Ingestao.TAMANHO_LOTE)))
                          indices),
          acc.2 + sum_list
                    (imap (λ k i,
                             if falha st (length (chamadas st) + k)
                             then length (Py.slice regs i
                                            (i + Ingestao.TAMANHO_LOTE))
                             else 0)
                          indices)),
       st')
    ∧ chamadas st'
      = chamadas st
        ++ map (λ i, InsertGratificacoes
                       (Py.slice regs i (i + Ingestao.TAMANHO_LOTE)))
               indices
    ∧ falha st' = falha st
    ∧ importacoes_log st' = importacoes_log st.
Proof.
  revert acc st. induction indices as [|i indices IH]; intros acc st.
  - exists st. cbn [for_each imap sum_list map].
    rewrite !Nat.add_0_r, app_nil_r. by destruct acc.
  - set (lote := Py.slice regs i (i + Ingestao.TAMANHO_LOTE)).
    set (n := length (chamadas st)).
    assert (Hok : ∀ st1,
              falha st1 = falha st →
              length (chamadas st1) = S n →
              imap (λ k j, if falha st1 (length (chamadas st1) + k) then 0
                           else length (Py.slice regs j
                                          (j + Ingestao.TAMANHO_LOTE)))
                   indices
              = imap ((λ k j, if falha st (n + k) then 0
                              else length (Py.slice regs j
                                             (j + Ingestao.TAMANHO_LOTE)))
                      ∘ S) indices).
    { intros st1 Hf Hn. apply imap_ext. intros k j _. cbn.
      rewrite Hf, Hn. by replace (S n + k) with (n + S k) by lia. }
    assert (Hko : ∀ st1,
              falha st1 = falha st →
              length (chamadas st1) = S n →
              imap (λ k j, if falha st1 (length (chamadas st1) + k)
                           then length (Py.slice regs j
                                          (j + Ingestao.TAMANHO_LOTE))
                           else 0)
                   indices
              = imap ((λ k j, if falha st (n + k)
                              then length (Py.slice regs j
                                             (j + Ingestao.TAMANHO_LOTE))
                              else 0)
                      ∘ S) indices).
    { intros st1 Hf Hn. apply imap_ext. intros k j _. cbn.
      rewrite Hf, Hn. by replace (S n + k) with (n + S k) by lia. }
    rewrite !imap_cons. cbn [sum_list map].
    cbn [for_each]. unfold mbind at 1, M_bind at 1.
    unfold Ingestao.inserir_lote at 1.
    unfold try_except, mbind, M_bind, mret, M_ret, Store.insert,
      Store.execute.
    cbv beta iota zeta. fold lote. fold n.
    rewrite Nat.add_0_r.
    destruct (falha st n) eqn:Hfalha; cbv beta iota.
    + destruct (IH (acc.1, acc.2 + length lote)
                   (Store.registrar (InsertGratificacoes lote) st))
        as (st' & Hrun & Hch & Hf & Hlog).
      rewrite Hok, Hko in Hrun
        by (try done; cbn; rewrite length_app; cbn; lia).
      exists st'. rewrite Hrun, Hch, Hf, Hlog.
      cbn [fst snd Store.registrar chamadas falha importacoes_log].
      split; [|split; [by rewrite <- app_assoc|done]].
      unfold id. do 3 f_equal; lia.
    + destruct (IH (acc.1 + length lote, acc.2)
                   (Store.com_gratificacoes
                      (gratificacoes
                         (Store.registrar (InsertGratificacoes lote) st)
                       ++ lote)
                      (Store.registrar (InsertGratificacoes lote) st)))
        as (st' & Hrun & Hch & Hf & Hlog).
      rewrite Hok, Hko in Hrun
        by (try done; cbn; rewrite length_app; cbn; lia).
      exists st'. rewrite Hrun, Hch, Hf, Hlog.
      cbn [fst snd Store.registrar Store.com_gratificacoes chamadas falha
           importacoes_log].
      split; [|split; [by rewrite <- app_assoc|done]].
      unfold id. do 3 f_equal; lia.
Qed.

Lemma soma_particao {A} (f : nat → bool) (lotes : list (list A)) :
  sum_list (imap (λ k b, if f k then 0 else length b) lotes)
  + sum_list (imap (λ k b, if f k then length b else 0) lotes)
  = length (concat lotes).
Proof.
  revert f. induction lotes as [|b lotes IH]; intros f; [done|].
  rewrite !imap_cons. cbn [sum_list sum_list_with concat].
  rewrite length_app. specialize (IH (f ∘ S)).
  unfold compose, id in *. cbv beta in *.
  destruct (f 0); lia.
Qed.

(** C4. [inserir_em_lotes] on [N] records sends [ceil(N / 500)] insert
    requests, one per batch, whatever the outcome of the earlier ones; the
    batches are the records in order, cut every 500; the two counts add up
    to [N], a batch counting in [erros] when its request fails and in
    [inseridos] otherwise. *)
Theorem inserir_em_lotes_lotes (df : DataFrame) st :
  ∃ inseridos erros st' lotes,
    Ingestao.inserir_em_lotes df st = (Normal (inseridos, erros), st')
    ∧ chamadas st' = chamadas st ++ map InsertGratificacoes lotes
    ∧ length lotes = (Pandas.len df + 499) / 500
    ∧ concat lotes = linhas df
    ∧ Forall (λ lote, 0 < length lote ≤ 500) lotes
    ∧ (∀ k lote, lotes !! k = Some lote → S k < length lotes →
                 length lote = 500)
    ∧ inseridos + erros = Pandas.len df
    ∧ erros
      = sum_list (imap (λ k lote,
                          if falha st (length (chamadas st) + k)
                          then length lote else 0) lotes)
    ∧ inseridos
      = sum_list (imap (λ k lote,
                          if falha st (length (chamadas st) + k)
                          then 0 else length lote) lotes).
Proof.
  unfold Ingestao.inserir_em_lotes, Pandas.len, Py.range.
  set (regs := linhas df). set (N := length regs).
  set (indices := Py.range_aux (N - 0) 0 N Ingestao.TAMANHO_LOTE).
  destruct (for_each_inserir_lote regs indices (0, 0) st)
    as (st' & Hrun & Hch & _ & _).
  set (lotes := map (λ i, Py.slice regs i (i + Ingestao.TAMANHO_LOTE))
                    indices).
  assert (Hconcat : concat lotes = regs).
  { unfold lotes, indices.
    rewrite (range_aux_concat _ TAMANHO_LOTE_pos regs) by (fold N; lia).
    reflexivity. }
  eexists _, _, st', lotes. split; [exact Hrun|].
  split; [by unfold lotes; rewrite map_map|].
  split.
  { unfold lotes, indices. rewrite length_map.
    rewrite (range_aux_length _ TAMANHO_LOTE_pos regs) by (fold N; lia).
    fold N. rewrite Nat.sub_0_r. reflexivity. }
  split; [done|]. split.
  { unfold lotes. apply Forall_fmap.
    apply (range_aux_lotes _ TAMANHO_LOTE_pos regs). }
  split.
  { intros k lote Hk Hlen. unfold lotes in Hk, Hlen.
    rewrite length_map in Hlen.
    change (map ?f ?l) with (f <$> l) in Hk.
    apply list_lookup_fmap_Some in Hk as (j & -> & Hj).
    by apply (range_aux_cheios _ TAMANHO_LOTE_pos regs _ _ _ _ Hj). }
  cbn [fst snd]. unfold lotes.
  change (map ?f ?l) with (f <$> l).
  rewrite !imap_fmap. unfold compose.
  split; [|split; reflexivity].
  rewrite !Nat.add_0_l.
  pose proof (soma_particao
                (λ k, falha st (length (chamadas st) + k)) lotes) as Hs.
  rewrite Hconcat in Hs. unfold lotes in Hs.
  change (map ?f ?l) with (f <$> l) in Hs.
  rewrite !imap_fmap in Hs. unfold compose in Hs. exact Hs.
Qed.

End Importador.

(** 1001 records against a store that fails the second request: three
    requests are sent, the second batch is counted in [erros], the third is
    still attempted. *)
Example inserir_em_lotes_1001 :
  let df := {| columns := ["cod"];
               linhas := replicate 1001 {[ "cod" := Str "12345" ]} |} in
  let st := {| gratificacoes := []; importacoes_log := [];
               credenciais := true; chamadas := [];
               falha := λ n, n =? 1 |} in
  let r := Ingestao.inserir_em_lotes df st in
  r.1 = Normal (501, 500)
  ∧ length (chamadas r.2) = 3
  ∧ length (gratificacoes r.2) = 501.
Proof. vm_compute. auto. Qed.

(** ** More on the transformer *)

Section TransformarMais.

Implicit Types (r : gmap string celula) (df : DataFrame).

Lemma so_valor_normalizar s : so_valor (Ingestao.normalizar_valor s) = true.
Proof.
  unfold Ingestao.normalizar_valor.
  induction (Py.replace_char _ _ s) as [|c t IH]; [done|].
  cbn [Py.filter_chars]. destruct (Ingestao.valor_char c) eqn:Hc; [|done].
  cbn [so_valor]. by rewrite Hc, IH.
Qed.

Lemma lower_char_valor c :
  Ingestao.valor_char c = true → Py.lower_char c = c.
Proof. destruct c as [[] [] [] [] [] [] [] []]; vm_compute; congruence. Qed.

Lemma lower_so_valor t : so_valor t = true → Py.lower t = t.
Proof.
  unfold Py.lower. induction t as [|c t IH]; [done|].
  cbn [so_valor Py.map_chars]. intros [Hc Ht]%andb_true_iff.
  by rewrite lower_char_valor, IH.
Qed.

Lemma parse_inf_so_valor t : so_valor t = true → Numeric.parse_inf t = None.
Proof.
  intros Ht. unfold Numeric.parse_inf. rewrite (lower_so_valor t Ht).
  repeat case_bool_decide; [exfalso..|done].
  - destruct H as [-> | [-> | [-> | ->]]]; by vm_compute in Ht.
  - destruct H0 as [-> | ->]; by vm_compute in Ht.
Qed.




Lemma transformar_Normal df usuario agora d n :
  Ingestao.transformar df usuario agora = Normal (d, n) →
  Ingestao.faltando df = []
  ∧ d = Ingestao.finalizar usuario agora
          (Ingestao.filtrar (Ingestao.preparar df))
  ∧ linhas d
    = map (λ r, finalizar_linha usuario agora (preparar_linha r))
          (filter (λ r, aceita r = true) (linhas df))
  ∧ n = length (linhas df)
        - length (filter (λ r, aceita r = true) (linhas df)).
Proof.
  intros H.
  assert (Hf : Ingestao.faltando df = []).
  { unfold Ingestao.transformar in H.
    by destruct (Ingestao.faltando df). }
  destruct (transformar_linhas df usuario agora Hf) as (d' & Hd' & Hl).
  rewrite H in Hd'. injection Hd' as Hdd Hnn. subst d'.
  split; [done|]. split; [|done].
  clear Hl Hnn. unfold Ingestao.transformar in H. rewrite Hf in H.
  exact (eq_sym (f_equal (λ x : resultado (DataFrame * nat),
                            match x with
                            | Normal p => p.1
                            | Raise _ => d
                            end) H)).
Qed.

(** [transformar] and the validator agree: on a file the validator accepts
    it succeeds, its frame has the 20 columns of the store, and the rows it
    keeps and the rows it counts as removed add up to the rows of the file;
    on a file the validator rejects it raises [KeyError]. *)
Theorem transformar_sucesso_e_contagem df usuario agora :
  ((Ingestao.validar_colunas df).1 = true →
     ∃ d n,
       Ingestao.transformar df usuario agora = Normal (d, n)
       ∧ columns d = COLUNAS_SAIDA
       ∧ Pandas.len d + n = Pandas.len df)
  ∧ ((Ingestao.validar_colunas df).1 = false →
     ∃ msg,
       Ingestao.transformar df usuario agora
       = Raise (Exception "KeyError" msg)).
Proof.
  rewrite validar_colunas_faltando. cbn [fst]. split.
  - intros Hf%bool_decide_eq_true.
    destruct (transformar_linhas df usuario agora Hf) as (d & Hd & Hl).
    destruct (transformar_Normal _ _ _ _ _ Hd) as (_ & Heq & _ & _).
    eexists d, _. split; [exact Hd|]. split.
    + rewrite Heq. vm_compute. reflexivity.
    + unfold Pandas.len. rewrite Hl, length_map.
      pose proof (length_filter (λ r, aceita r = true) (linhas df)). lia.
  - intros Hf%bool_decide_eq_false. unfold Ingestao.transformar.
    destruct (Ingestao.faltando df); [done|eauto].
Qed.

Lemma transformar_sucesso_e_contagem_witness :
  ∃ d n,
    Ingestao.transformar
      {| columns := Ingestao.COLUNAS_MANTER;
         linhas := [linha_cenario "10,00"; linha_sem_cod] |}
      "joao.silva" "2024-02-01T10:00:00" = Normal (d, n)
    ∧ columns d = COLUNAS_SAIDA
    ∧ Pandas.len d + n = 2.
Proof.
  apply (transformar_sucesso_e_contagem
           {| columns := Ingestao.COLUNAS_MANTER;
              linhas := [linha_cenario "10,00"; linha_sem_cod] |}
           "joao.silva" "2024-02-01T10:00:00").
  reflexivity.
Defined.



End TransformarMais.

Section TransformarColunas.

Implicit Types (r : gmap string celula) (df : DataFrame).

Lemma transformar_colunas df usuario agora d n :
  Ingestao.transformar df usuario agora = Normal (d, n) →
  columns d = COLUNAS_SAIDA.
Proof.
  intros Hd. destruct (transformar_Normal _ _ _ _ _ Hd) as (_ & Heq & _).
  rewrite Heq. vm_compute. reflexivity.
Qed.

Lemma preparar_linha_mesmos_campos r1 r2 :
  mesmos_campos r1 r2 → preparar_linha r1 = preparar_linha r2.
Proof.
  intros H. unfold preparar_linha.
  assert (Hf : filter (λ kv : string * celula,
                         kv.1 ∈ Ingestao.COLUNAS_MANTER) r1
               = filter (λ kv : string * celula,
                           kv.1 ∈ Ingestao.COLUNAS_MANTER) r2).
  { apply map_eq. intros c. rewrite !map_lookup_filter.
    destruct (decide (c ∈ Ingestao.COLUNAS_MANTER)) as [Hc|Hc].
    - by rewrite (H c Hc).
    - destruct (r1 !! c), (r2 !! c); cbn;
        rewrite ?option_guard_False by done; done. }
  by rewrite Hf.
Qed.

Lemma aceita_mesmos_campos r1 r2 :
  mesmos_campos r1 r2 → aceita r1 = aceita r2.
Proof.
  intros H. unfold aceita, cod_de, valor_de.
  by rewrite !(H "NUMFUNC"), !(H "NUMVINC"), !(H "VALOR") by compute_done.
Qed.

(** Only the 19 required columns of a file matter: two files that pass the
    validator and whose rows agree, one by one, on those columns give the
    same transformed frame and the same count of removed rows. *)
Theorem transformar_so_colunas_obrigatorias df1 df2 usuario agora :
  Ingestao.faltando df1 = [] →
  Ingestao.faltando df2 = [] →
  Forall2 mesmos_campos (linhas df1) (linhas df2) →
  Ingestao.transformar df1 usuario agora
  = Ingestao.transformar df2 usuario agora.
Proof.
  intros Hf1 Hf2 H.
  destruct (transformar_linhas df1 usuario agora Hf1) as (d1 & Hd1 & Hl1).
  destruct (transformar_linhas df2 usuario agora Hf2) as (d2 & Hd2 & Hl2).
  pose proof (transformar_colunas _ _ _ _ _ Hd1) as Hc1.
  pose proof (transformar_colunas _ _ _ _ _ Hd2) as Hc2.
  rewrite Hd1, Hd2.
  assert (Hmap :
    map (λ r, finalizar_linha usuario agora (preparar_linha r))
        (filter (λ r, aceita r = true) (linhas df1))
    = map (λ r, finalizar_linha usuario agora (preparar_linha r))
          (filter (λ r, aceita r = true) (linhas df2))
    ∧ length (linhas df1) = length (linhas df2)).
  { clear -H. induction H as [|r1 r2 l1 l2 Hr Hl [IH1 IH2]]; [done|].
    rewrite !filter_cons, <- (aceita_mesmos_campos r1 r2 Hr).
    cbn [length]. split; [|by rewrite IH2].
    case_decide; cbn [map]; [|done].
    by rewrite IH1, (preparar_linha_mesmos_campos r1 r2 Hr). }
  destruct Hmap as [Hmap Hlen].
  assert (d1 = d2) as ->.
  { destruct d1, d2. simpl in Hc1, Hc2, Hl1, Hl2. congruence. }
  do 2 f_equal. rewrite Hlen.
  apply (f_equal length) in Hmap. rewrite !length_map in Hmap.
  by rewrite Hmap.
Qed.

Lemma transformar_so_colunas_obrigatorias_witness :
  Ingestao.transformar
    {| columns := "EXTRA" :: Ingestao.COLUNAS_MANTER;
       linhas := [ <["EXTRA" := Str "x"]> (linha_cenario "10,00") ] |}
    "joao.silva" "2024-02-01T10:00:00"
  = Ingestao.transformar (csv_cenario "10,00") "joao.silva"
      "2024-02-01T10:00:00".
Proof.
  apply transformar_so_colunas_obrigatorias.
  - vm_compute. reflexivity.
  - vm_compute. reflexivity.
  - repeat constructor. intros c Hc.
    rewrite lookup_insert_ne; [done|].
    assert (Hn : "EXTRA" ∉ Ingestao.COLUNAS_MANTER) by compute_done.
    by intros <-.
Defined.

End TransformarColunas.

(** ** Amounts with more than one separator *)

Lemma valor_char_casos c :
  Ingestao.valor_char c = true →
  Py.isdigit c = true ∨ c = "."%char ∨ c = "-"%char.
Proof.
  destruct c as [[] [] [] [] [] [] [] []]; vm_compute; intros; auto;
    discriminate.
Qed.

Lemma isdigit_nao_ponto c :
  Py.isdigit c = true → Ascii.eqb c "."%char = false.
Proof.
  destruct c as [[] [] [] [] [] [] [] []]; vm_compute; congruence.
Qed.

Lemma isdigit_nao_espaco c :
  Py.isdigit c = true → Numeric.isspace_ascii c = false.
Proof.
  destruct c as [[] [] [] [] [] [] [] []]; vm_compute; congruence.
Qed.

Lemma pontos_normalizar s :
  pontos (Ingestao.normalizar_valor s) = separadores s.
Proof.
  unfold Ingestao.normalizar_valor, Py.replace_char.
  induction s as [|c s IH]; [done|].
  cbn [Py.map_chars Py.filter_chars separadores].
  rewrite <- IH. clear IH.
  destruct c as [[] [] [] [] [] [] [] []]; reflexivity.
Qed.

Lemma digits_resto s :
  so_valor s = true →
  so_valor (Numeric.digits s).2 = true
  ∧ pontos (Numeric.digits s).2 = pontos s
  ∧ match (Numeric.digits s).2 with
    | EmptyString => True
    | String c _ => c = "."%char ∨ c = "-"%char
    end.
Proof.
  induction s as [|c s IH]; [done|].
  cbn [so_valor]. intros [Hc Hs]%andb_true_iff.
  cbn [Numeric.digits]. destruct (Py.isdigit c) eqn:Hd.
  - destruct (Numeric.digits s) as [ds rest]. cbn [snd] in *.
    destruct (IH Hs) as (? & ? & ?). cbn [pontos].
    rewrite (isdigit_nao_ponto c Hd). done.
  - cbn [snd so_valor]. rewrite Hc, Hs.
    destruct (valor_char_casos c Hc) as [?|?]; [congruence|done].
Qed.

Lemma sign_resto s :
  so_valor s = true →
  so_valor (Numeric.sign s).2 = true
  ∧ pontos (Numeric.sign s).2 = pontos s.
Proof.
  destruct s as [|c s]; [done|].
  cbn [so_valor]. intros [Hc Hs]%andb_true_iff.
  destruct (valor_char_casos c Hc) as [Hd|[-> | ->]].
  - assert (Numeric.sign (String c s) = (false, String c s)) as ->.
    { destruct c as [[] [] [] [] [] [] [] []]; try reflexivity;
        by vm_compute in Hd. }
    cbn [snd so_valor]. by rewrite Hc, Hs.
  - cbn. by rewrite Hs.
  - cbn. by rewrite Hs.
Qed.

Lemma skip_space_so_valor s :
  so_valor s = true → Numeric.skip_space s = s.
Proof.
  destruct s as [|c s]; [done|].
  cbn [so_valor]. intros [Hc _]%andb_true_iff. cbn [Numeric.skip_space].
  destruct (valor_char_casos c Hc) as [Hd|[-> | ->]]; [|done..].
  by rewrite (isdigit_nao_espaco c Hd).
Qed.

(** A text of digits, points and minus signs with two points or more is
    not a number. *)
Lemma parse_decimal_dois_pontos t :
  so_valor t = true → 2 ≤ pontos t → Numeric.parse_decimal t = None.
Proof.
  intros Ht Hp. unfold Numeric.parse_decimal.
  rewrite (skip_space_so_valor t Ht).
  destruct (sign_resto t Ht) as [Hs1 Hp1].
  destruct (Numeric.sign t) as [neg s1]. cbn [snd] in Hs1, Hp1.
  destruct (digits_resto s1 Hs1) as (Hs2 & Hp2 & Hc2).
  destruct (Numeric.digits s1) as [ip s2]. cbn [snd] in Hs2, Hp2, Hc2.
  destruct s2 as [|c2 r2]; [cbn in Hp2; lia|].
  destruct Hc2 as [-> | ->].
  - cbn [so_valor] in Hs2. apply andb_true_iff in Hs2 as [_ Hr2].
    cbn in Hp2.
    destruct (digits_resto r2 Hr2) as (Hs3 & Hp3 & Hc3).
    destruct (Numeric.digits r2) as [fp s3]. cbn [snd] in Hs3, Hp3, Hc3.
    destruct s3 as [|c3 r3]; [cbn in Hp3; lia|].
    destruct (ip ++ fp); [done|].
    destruct Hc3 as [-> | ->]; reflexivity.
  - destruct (ip ++ []); reflexivity.
Qed.

(** A VALOR written with two or more separators (commas or points), such
    as a thousands point together with a decimal comma, is never a number
    for the transformer: the row is excluded and counted as removed. *)
Theorem valor_com_dois_separadores_excluido
    (df : DataFrame) usuario agora l1 (r : gmap string celula) l2 s :
  Ingestao.faltando df = [] →
  linhas df = l1 ++ r :: l2 →
  r !! "VALOR" = Some (Str s) →
  2 ≤ separadores s →
  Numeric.to_numeric (Ingestao.normalizar_valor s) = None
  ∧ ∃ d d' n,
      Ingestao.transformar df usuario agora = Normal (d, S n)
      ∧ Ingestao.transformar (com_linhas (l1 ++ l2) df) usuario agora
        = Normal (d', n)
      ∧ linhas d = linhas d'.
Proof.
  intros Hf Hl Hv Hsep.
  assert (Hn : Numeric.to_numeric (Ingestao.normalizar_valor s) = None).
  { unfold Numeric.to_numeric.
    rewrite parse_decimal_dois_pontos, parse_inf_so_valor;
      [done|apply so_valor_normalizar..|].
    by rewrite pontos_normalizar. }
  split; [done|].
  apply (transformar_exclui df usuario agora l1 r l2 Hf Hl).
  unfold aceita, valor_de. rewrite Hv, normalizar_strip, Hn.
  rewrite is_Some_None_false. apply andb_false_r.
Qed.

Lemma valor_com_dois_separadores_excluido_witness :
  Numeric.to_numeric (Ingestao.normalizar_valor "R$ 12.345.678,90") = None
  ∧ ∃ d d' n,
      Ingestao.transformar (csv_cenario "R$ 12.345.678,90") "joao.silva"
        "2024-02-01T10:00:00" = Normal (d, S n)
      ∧ Ingestao.transformar
          (com_linhas [] (csv_cenario "R$ 12.345.678,90")) "joao.silva"
          "2024-02-01T10:00:00" = Normal (d', n)
      ∧ linhas d = linhas d'.
Proof.
  apply (valor_com_dois_separadores_excluido
           (csv_cenario "R$ 12.345.678,90") "joao.silva"
           "2024-02-01T10:00:00" [] (linha_cenario "R$ 12.345.678,90") []
           "R$ 12.345.678,90").
  - vm_compute. reflexivity.
  - reflexivity.
  - reflexivity.
  - vm_compute. lia.
Defined.

(** ** Amounts with a decimal comma *)









(** ** What the importer leaves in the table *)

Section Tabela.

Implicit Types (st : Supabase) (regs : list (gmap string celula)).

Lemma for_each_inserir_lote_tabela regs indices acc st :
  gratificacoes (for_each indices (Ingestao.inserir_lote regs) acc st).2
  = gratificacoes st
    ++ concat (imap (λ k i,
                       if falha st (length (chamadas st) + k) then []
                       else Py.slice regs i (i + Ingestao.TAMANHO_LOTE))
                    indices).
Proof.
  revert acc st. induction indices as [|i indices IH]; intros acc st.
  - cbn. by rewrite app_nil_r.
  - set (lote := Py.slice regs i (i + Ingestao.TAMANHO_LOTE)).
    set (n := length (chamadas st)).
    assert (Hdesl : ∀ st1,
              falha st1 = falha st →
              length (chamadas st1) = S n →
              imap (λ k j, if falha st1 (length (chamadas st1) + k) then []
                           else Py.slice regs j
                                  (j + Ingestao.TAMANHO_LOTE))
                   indices
              = imap ((λ k j, if falha st (n + k) then []
                              else Py.slice regs j
                                     (j + Ingestao.TAMANHO_LOTE))
                      ∘ S) indices).
    { intros st1 Hf Hn. apply imap_ext. intros k j _. cbn.
      rewrite Hf, Hn. by replace (S n + k) with (n + S k) by lia. }
    rewrite imap_cons. cbn [concat].
    cbn [for_each]. unfold mbind at 1, M_bind at 1.
    unfold Ingestao.inserir_lote at 1.
    unfold try_except, mbind, M_bind, mret, M_ret, Store.insert,
      Store.execute.
    cbv beta iota zeta. fold lote. fold n.
    rewrite Nat.add_0_r.
    destruct (falha st n) eqn:Hfalha; cbv beta iota.
    + rewrite IH, Hdesl
        by (try done; cbn; rewrite length_app; cbn; lia).
      reflexivity.
    + rewrite IH, Hdesl
        by (try done; cbn; rewrite length_app; cbn; lia).
      cbn [gratificacoes Store.com_gratificacoes Store.registrar].
      by rewrite <- app_assoc.
Qed.

Lemma imap_sem_indice {A B} (f : A → B) (l : list A) :
  imap (λ _ x, f x) l = map f l.
Proof.
  induction l as [|x l IH]; [done|].
  rewrite imap_cons. cbn [map]. f_equal. exact IH.
Qed.

Lemma soma_comprimentos {A} (lotes : list (list A)) :
  sum_list (map length lotes) = length (concat lotes).
Proof.
  induction lotes as [|b lotes IH]; [done|].
  cbn [map sum_list sum_list_with concat]. rewrite length_app.
  unfold id. by rewrite <- IH.
Qed.

Lemma soma_zeros {A} (l : list A) : sum_list (map (λ _, 0) l) = 0.
Proof. induction l as [|x l IH]; [done|]. exact IH. Qed.

Lemma lotes_concat (regs : list (gmap string celula)) :
  concat (map (λ i, Py.slice regs i (i + Ingestao.TAMANHO_LOTE))
              (Py.range_aux (length regs - 0) 0 (length regs)
                 Ingestao.TAMANHO_LOTE))
  = regs.
Proof.
  rewrite (range_aux_concat _ TAMANHO_LOTE_pos regs) by lia. reflexivity.
Qed.

Lemma inserir_em_lotes_contagem_servida (df : DataFrame) st :
  (∀ k, falha st (length (chamadas st) + k) = false) →
  (Ingestao.inserir_em_lotes df st).1 = Normal (Pandas.len df, 0).
Proof.
  intros Hok. unfold Ingestao.inserir_em_lotes, Pandas.len, Py.range.
  set (regs := linhas df).
  set (indices := Py.range_aux (length regs - 0) 0 (length regs)
                    Ingestao.TAMANHO_LOTE).
  destruct (for_each_inserir_lote regs indices (0, 0) st)
    as (st' & -> & _).
  cbn [fst snd].
  rewrite (imap_ext _ (λ _ i, length (Py.slice regs i
                                        (i + Ingestao.TAMANHO_LOTE))))
    by (intros; by rewrite Hok).
  rewrite (imap_ext (λ k i, if falha st (length (chamadas st) + k)
                            then _ else 0) (λ _ _, 0))
    by (intros; by rewrite Hok).
  rewrite (imap_sem_indice
             (λ i, length (Py.slice regs i (i + Ingestao.TAMANHO_LOTE)))).
  rewrite (imap_sem_indice (λ _ : nat, 0)), soma_zeros.
  rewrite <- (map_map (λ i, Py.slice regs i (i + Ingestao.TAMANHO_LOTE))
                length).
  unfold indices. rewrite soma_comprimentos, lotes_concat. reflexivity.
Qed.

Lemma inserir_em_lotes_tabela_servida (df : DataFrame) st :
  (∀ k, falha st (length (chamadas st) + k) = false) →
  gratificacoes (Ingestao.inserir_em_lotes df st).2
  = gratificacoes st ++ linhas df.
Proof.
  intros Hok. unfold Ingestao.inserir_em_lotes, Pandas.len, Py.range.
  rewrite for_each_inserir_lote_tabela. f_equal.
  rewrite (imap_ext _ (λ _ i, Py.slice (linhas df) i
                                (i + Ingestao.TAMANHO_LOTE)))
    by (intros; by rewrite Hok).
  rewrite imap_sem_indice. apply lotes_concat.
Qed.

(** When the store serves every insert request, [inserir_em_lotes] reports
    all the records as inserted and none as failed, and the table holds
    what it held followed by the records, in their order. *)
Theorem inserir_em_lotes_sem_falha (df : DataFrame) st :
  (∀ k, falha st (length (chamadas st) + k) = false) →
  (Ingestao.inserir_em_lotes df st).1 = Normal (Pandas.len df, 0)
  ∧ gratificacoes (Ingestao.inserir_em_lotes df st).2
    = gratificacoes st ++ linhas df.
Proof.
  intros Hok. split.
  - by apply inserir_em_lotes_contagem_servida.
  - by apply inserir_em_lotes_tabela_servida.
Qed.

Lemma inserir_em_lotes_sem_falha_witness :
  (Ingestao.inserir_em_lotes (csv_cenario "10,00") loja_vazia).1
  = Normal (Pandas.len (csv_cenario "10,00"), 0)
  ∧ gratificacoes (Ingestao.inserir_em_lotes (csv_cenario "10,00")
                     loja_vazia).2
    = gratificacoes loja_vazia ++ linhas (csv_cenario "10,00").
Proof.
  apply (inserir_em_lotes_sem_falha (csv_cenario "10,00") loja_vazia).
  intros k. reflexivity.
Defined.

(** When the store fails every insert request, [inserir_em_lotes] does not
    raise: it reports all the records as failed and the table is as it
    was. *)
Theorem inserir_em_lotes_tudo_falha (df : DataFrame) st :
  (∀ k, falha st (length (chamadas st) + k) = true) →
  (Ingestao.inserir_em_lotes df st).1 = Normal (0, Pandas.len df)
  ∧ gratificacoes (Ingestao.inserir_em_lotes df st).2 = gratificacoes st.
Proof.
  intros Hko. unfold Ingestao.inserir_em_lotes, Pandas.len, Py.range.
  set (regs := linhas df). set (N := length regs).
  set (indices := Py.range_aux (N - 0) 0 N Ingestao.TAMANHO_LOTE).
  assert (Hconcat :
    concat (map (λ i, Py.slice regs i (i + Ingestao.TAMANHO_LOTE)) indices)
    = regs).
  { unfold indices.
    rewrite (range_aux_concat _ TAMANHO_LOTE_pos regs) by (fold N; lia).
    reflexivity. }
  split.
  - destruct (for_each_inserir_lote regs indices (0, 0) st)
      as (st' & -> & _).
    cbn [fst snd].
    rewrite (imap_ext (λ k i, if falha st (length (chamadas st) + k)
                              then 0 else _) (λ _ _, 0))
      by (intros; by rewrite Hko).
    rewrite (imap_ext (λ k i, if falha st (length (chamadas st) + k)
                              then _ else 0)
               (λ _ i, length (Py.slice regs i
                                 (i + Ingestao.TAMANHO_LOTE))))
      by (intros; by rewrite Hko).
    rewrite (imap_sem_indice
               (λ i, length (Py.slice regs i (i + Ingestao.TAMANHO_LOTE)))).
    rewrite (imap_sem_indice (λ _ : nat, 0)), soma_zeros.
    rewrite <- (map_map (λ i, Py.slice regs i (i + Ingestao.TAMANHO_LOTE))
                  length).
    rewrite soma_comprimentos, Hconcat. reflexivity.
  - rewrite for_each_inserir_lote_tabela.
    rewrite (imap_ext _ (λ _ _, [])) by (intros; by rewrite Hko).
    rewrite (imap_sem_indice (λ _ : nat, [])).
    assert (Hnil : concat (map (λ _ : nat,
                                 [] : list (gmap string celula)) indices)
                   = []).
    { clear. induction indices as [|i l IH]; [done|]. exact IH. }
    by rewrite Hnil, app_nil_r.
Qed.

Lemma inserir_em_lotes_tudo_falha_witness :
  (Ingestao.inserir_em_lotes (csv_cenario "10,00")
     {| gratificacoes := []; importacoes_log := []; credenciais := true;
        chamadas := []; falha := λ _, true |}).1
  = Normal (0, Pandas.len (csv_cenario "10,00"))
  ∧ gratificacoes
      (Ingestao.inserir_em_lotes (csv_cenario "10,00")
         {| gratificacoes := []; importacoes_log := []; credenciais := true;
            chamadas := []; falha := λ _, true |}).2
    = [].
Proof.
  apply (inserir_em_lotes_tudo_falha (csv_cenario "10,00")
           {| gratificacoes := []; importacoes_log := [];
              credenciais := true; chamadas := []; falha := λ _, true |}).
  intros k. reflexivity.
Defined.

End Tabela.

(** ** The delete route *)

(** Whatever the request and the state of the store, an error answer of
    the delete route has status 500: the route never answers with a client
    error. *)
Theorem delete_rota_erro_sempre_500 (request : option json) (st : Supabase)
    e st' :
  App.deletar_competencia request st = (Raise e, st') →
  ∃ detail, e = HTTPException 500 detail.
Proof.
  unfold App.deletar_competencia, try_except, raise.
  match goal with
  | |- context [match ?x with _ => _ end] => destruct x as [[a|e0] st0]
  end; intros [= <- <-]. eauto.
Qed.

Lemma delete_rota_erro_sempre_500_witness :
  ∃ detail,
    HTTPException 500 "400: mes_ano não fornecido"
    = HTTPException 500 detail.
Proof.
  apply (delete_rota_erro_sempre_500 (Some (JObj [])) loja_vazia _
           loja_vazia).
  vm_compute. reflexivity.
Defined.

(** With a body whose [mes_ano] is a non-empty text, configured credentials
    and a store that serves the request, the delete route answers with the
    number of rows of that competency, and afterwards the table holds the
    other rows, in their order, and no row of that competency. *)
Theorem delete_rota_sucesso campos m (st : Supabase) :
  App.get "mes_ano" (JObj campos) = Normal (JStr m) →
  m ≠ "" →
  credenciais st = true →
  falha st (length (chamadas st)) = false →
  let r := App.deletar_competencia (Some (JObj campos)) st in
  r.1 = Normal (JObj [ ("ok", JBool true);
                       ("deleted",
                        JNat (length
                                (filter (λ l, Store.eq_mes_ano (JStr m) l
                                              = true)
                                        (gratificacoes st)))) ])
  ∧ gratificacoes r.2
    = filter (λ l, Store.eq_mes_ano (JStr m) l = false) (gratificacoes st)
  ∧ Forall (λ l, l !! "mes_ano" ≠ Some (Str m)) (gratificacoes r.2)
  ∧ importacoes_log r.2 = importacoes_log st.
Proof.
  intros Hg Hm Hc Hf. cbv zeta.
  unfold App.deletar_competencia.
  unfold try_except, mbind, M_bind, mret, M_ret, lift, raise.
  cbv beta iota. rewrite Hg. cbv beta iota.
  assert (Ht : truthy (JStr m) = true).
  { cbn. by destruct (String.eqb_spec m ""). }
  rewrite Ht. cbn [negb]. cbv beta iota.
  unfold App.get_supabase, Store.create_client. rewrite Hc. cbv beta iota.
  unfold Store.delete_eq, Store.execute. rewrite Hf. cbv beta iota.
  cbn [fst snd gratificacoes importacoes_log Store.com_gratificacoes
       Store.registrar].
  split; [done|]. split; [done|]. split; [|done].
  apply Forall_forall. intros l [Hl _]%list_elem_of_filter Heq.
  unfold Store.eq_mes_ano in Hl. rewrite Heq in Hl.
  by rewrite String.eqb_refl in Hl.
Qed.

Lemma delete_rota_sucesso_witness :
  (App.deletar_competencia (Some (JObj [("mes_ano", JStr "01/2024")]))
     loja_com_dados).1
  = Normal (JObj [ ("ok", JBool true); ("deleted", JNat 1) ])
  ∧ gratificacoes
      (App.deletar_competencia (Some (JObj [("mes_ano", JStr "01/2024")]))
         loja_com_dados).2
    = []
  ∧ Forall (λ l : gmap string celula, l !! "mes_ano" ≠ Some (Str "01/2024"))
      (gratificacoes
         (App.deletar_competencia
            (Some (JObj [("mes_ano", JStr "01/2024")])) loja_com_dados).2)
  ∧ importacoes_log
      (App.deletar_competencia (Some (JObj [("mes_ano", JStr "01/2024")]))
         loja_com_dados).2
    = [].
Proof.
  apply (delete_rota_sucesso [("mes_ano", JStr "01/2024")] "01/2024"
           loja_com_dados);
    [reflexivity | done | reflexivity | reflexivity].
Defined.

(** ** The dry run on files without competency *)

Lemma mode_sem_valores (serie : list (option celula)) :
  Forall (λ c, c = None) serie → Pandas.mode serie = [].
Proof.
  intros H. unfold Pandas.mode.
  assert (omap id serie = []) as ->; [|done].
  induction H as [|c l -> _ IH]; [done|]. exact IH.
Qed.

(** A file that has the column MES_ANO and no value in it, for one a file
    with a header and no rows, makes the dry run answer 500; the store
    receives no request. *)
Theorem validar_csv_sem_valores_mes_ano
    (chardet_detect : string → option string)
    (read_csv : string → option string → resultado DataFrame)
    (arquivo : UploadFile) (st : Supabase) (df : DataFrame) :
  (App.ler chardet_detect read_csv (conteudo arquivo)).1 = Normal df →
  "MES_ANO" ∈ columns df →
  Forall (λ r : gmap string celula, r !! "MES_ANO" = None) (linhas df) →
  App.validar_csv chardet_detect read_csv arquivo st
  = (Raise (HTTPException 500 "single positional indexer is out-of-bounds"),
     st).
Proof.
  intros Hler Hcol Hnone. unfold App.validar_csv.
  destruct (App.ler chardet_detect read_csv (conteudo arquivo))
    as [lido encoding].
  cbn [fst] in Hler. subst lido. desdobrar.
  unfold App.mes_ano_dominante.
  rewrite bool_decide_eq_true_2 by done.
  rewrite mode_sem_valores; [reflexivity|].
  unfold Pandas.coluna. by apply Forall_fmap.
Qed.

Lemma validar_csv_sem_valores_mes_ano_witness :
  App.validar_csv (λ _, Some "utf-8")
    (λ _ _, Normal {| columns := Ingestao.COLUNAS_MANTER; linhas := [] |})
    {| filename := "vazio.csv"; conteudo := "" |} loja_vazia
  = (Raise (HTTPException 500 "single positional indexer is out-of-bounds"),
     loja_vazia).
Proof.
  apply (validar_csv_sem_valores_mes_ano (λ _, Some "utf-8")
           (λ _ _, Normal {| columns := Ingestao.COLUNAS_MANTER;
                             linhas := [] |})
           {| filename := "vazio.csv"; conteudo := "" |} loja_vazia
           {| columns := Ingestao.COLUNAS_MANTER; linhas := [] |}).
  - reflexivity.
  - compute_done.
  - constructor.
Defined.

(** A file without the column MES_ANO gets an answer from the dry run that
    is not [ok], with a null [mes_ano] and [ja_existe] false, and the store
    receives no request, configured or not. *)
Theorem validar_csv_sem_coluna_mes_ano
    (chardet_detect : string → option string)
    (read_csv : string → option string → resultado DataFrame)
    (arquivo : UploadFile) (st : Supabase) (df : DataFrame) :
  (App.ler chardet_detect read_csv (conteudo arquivo)).1 = Normal df →
  "MES_ANO" ∉ columns df →
  ∃ faltando encoding,
    "MES_ANO" ∈ faltando
    ∧ App.validar_csv chardet_detect read_csv arquivo st
      = (Normal (JObj
           [ ("ok", JBool false);
             ("total_linhas", JNat (Pandas.len df));
             ("colunas_faltando", JArr (JStr <$> faltando));
             ("mes_ano", JNull);
             ("ja_existe", JBool false);
             ("valores_invalidos", JNat (App.valores_invalidos df));
             ("preview", App.preview df);
             ("encoding", encoding) ]),
         st).
Proof.
  intros Hler Hcol. unfold App.validar_csv.
  destruct (App.ler chardet_detect read_csv (conteudo arquivo))
    as [lido encoding].
  cbn [fst] in Hler. subst lido. desdobrar.
  unfold App.mes_ano_dominante.
  rewrite bool_decide_eq_false_2 by done. cbv beta iota.
  assert (Hin : "MES_ANO" ∈ Ingestao.faltando df).
  { apply list_elem_of_filter. split; [done|compute_done]. }
  exists (Ingestao.faltando df), (App.json_opt encoding).
  split; [done|].
  cbn [App.json_opt truthy]. cbv beta iota.
  rewrite bool_decide_eq_false_2; [reflexivity|].
  destruct (Ingestao.faltando df); [by apply elem_of_nil in Hin|done].
Qed.

Lemma validar_csv_sem_coluna_mes_ano_witness :
  ∃ faltando encoding,
    "MES_ANO" ∈ faltando
    ∧ App.validar_csv (λ _, Some "utf-8")
        (λ _ _, Normal {| columns := ["VALOR"]; linhas := [] |})
        {| filename := "x.csv"; conteudo := "" |} loja_vazia
      = (Normal (JObj
           [ ("ok", JBool false);
             ("total_linhas",
              JNat (Pandas.len {| columns := ["VALOR"]; linhas := [] |}));
             ("colunas_faltando", JArr (JStr <$> faltando));
             ("mes_ano", JNull);
             ("ja_existe", JBool false);
             ("valores_invalidos",
              JNat (App.valores_invalidos
                      {| columns := ["VALOR"]; linhas := [] |}));
             ("preview",
              App.preview {| columns := ["VALOR"]; linhas := [] |});
             ("encoding", encoding) ]),
         loja_vazia).
Proof.
  apply (validar_csv_sem_coluna_mes_ano (λ _, Some "utf-8")
           (λ _ _, Normal {| columns := ["VALOR"]; linhas := [] |})
           {| filename := "x.csv"; conteudo := "" |} loja_vazia
           {| columns := ["VALOR"]; linhas := [] |}).
  - reflexivity.
  - compute_done.
Defined.

(** ** The import endpoint and the table *)

Section ImportarTabela.

Variable chardet_detect : string → option string.
Variable read_csv : string → option string → resultado DataFrame.

Lemma inserir_em_lotes_resultado (df : DataFrame) (st : Supabase) :
  ∃ inseridos erros st' lotes,
    Ingestao.inserir_em_lotes df st = (Normal (inseridos, erros), st')
    ∧ gratificacoes st'
      = gratificacoes st
        ++ concat (imap (λ k lote,
                           if falha st (length (chamadas st) + k) then []
                           else lote) lotes)
    ∧ chamadas st' = chamadas st ++ map InsertGratificacoes lotes
    ∧ falha st' = falha st
    ∧ importacoes_log st' = importacoes_log st.
Proof.
  pose proof (for_each_inserir_lote_tabela (linhas df)
                (Py.range 0 (Pandas.len df) Ingestao.TAMANHO_LOTE)
                (0, 0) st) as Htab.
  unfold Ingestao.inserir_em_lotes.
  destruct (for_each_inserir_lote (linhas df)
              (Py.range 0 (Pandas.len df) Ingestao.TAMANHO_LOTE) (0, 0) st)
    as (st' & Hrun & Hch & Hf & Hlog).
  rewrite Hrun in Htab. cbn [snd] in Htab.
  eexists _, _, st',
    (map (λ i, Py.slice (linhas df) i (i + Ingestao.TAMANHO_LOTE))
         (Py.range 0 (Pandas.len df) Ingestao.TAMANHO_LOTE)).
  split; [exact Hrun|]. split; [|split; [|done]].
  - rewrite Htab. f_equal. change (map ?f ?l) with (f <$> l).
    by rewrite imap_fmap.
  - by rewrite Hch, map_map.
Qed.

(** [importar_csv] never removes a row from the table and never sends a
    delete request, whatever the file, the flag [substituir] and the state
    of the store: afterwards the table is what it was, followed by the rows
    it inserted. *)
Theorem importar_csv_nunca_apaga (arquivo : UploadFile) (usuario : string)
    (substituir : bool) (agora_1 agora_2 : string) (st : Supabase) :
  let r := App.importar_csv chardet_detect read_csv arquivo usuario
             substituir agora_1 agora_2 st in
  (∃ novas, gratificacoes r.2 = gratificacoes st ++ novas)
  ∧ (∃ novas, chamadas r.2 = chamadas st ++ novas
              ∧ Forall (λ c, apaga c = false) novas).
Proof.
  cbv zeta.
  assert (Hnada : (∃ novas, gratificacoes st = gratificacoes st ++ novas)
                  ∧ (∃ novas, chamadas st = chamadas st ++ novas
                              ∧ Forall (λ c, apaga c = false) novas)).
  { split; exists []; rewrite app_nil_r; [done|]. by split. }
  unfold App.importar_csv.
  destruct (App.ler chardet_detect read_csv (conteudo arquivo))
    as [[df|e] encoding]; desdobrar; [|by destruct e].
  destruct (negb (Ingestao.validar_colunas df).1); [done|].
  destruct (Ingestao.transformar df usuario agora_1) as [[d n]|e];
    cbv beta iota; [|by destruct e].
  cbn [fst].
  destruct (Ingestao.extrair_mes_ano d) as [m|e];
    cbv beta iota; [|by destruct e].
  unfold App.get_supabase, Store.create_client.
  destruct (credenciais st); cbv beta iota; [|done].
  destruct substituir; cbv beta iota; [done|].
  destruct (inserir_em_lotes_resultado d st)
    as (ins & err & st1 & lotes & -> & Hg & Hc & Hf & Hl).
  cbv beta iota.
  unfold Ingestao.registrar_log, Store.insert_log, Store.execute.
  destruct (falha st1 (length (chamadas st1))); cbv beta iota;
    cbn [fst snd gratificacoes chamadas Store.registrar Store.com_log];
    rewrite Hg, Hc; (split; [eauto|]); eexists;
    (split; [by rewrite <- app_assoc|]);
    apply Forall_app; (split; [|by repeat constructor]);
    apply Forall_fmap; by apply Forall_true.
Qed.


End ImportarTabela.


(** ** The allow-list *)

Lemma carregar_usuarios_fold raw :
  App.carregar_usuarios raw
  = if String.eqb raw "" then ∅
    else fold_left registrar_usuario (Py.split ","%char raw) ∅.
Proof. reflexivity. Qed.





Lemma fold_registrar_origem entries (users : gmap string string) k v :
  fold_left registrar_usuario entries users !! k = Some v →
  users !! k = Some v
  ∨ ∃ entry email password,
      entry ∈ entries
      ∧ Py.contains ":"%char entry = true
      ∧ Py.split1 ":"%char (Py.strip entry) = Some (email, password)
      ∧ k = Py.lower (Py.strip email)
      ∧ v = Py.strip password.
Proof.
  revert users.
  induction entries as [|entry entries IH]; intros users; [by left|].
  cbn [fold_left]. intros [Hu|(en & e & p & Hin & ?)]%IH.
  - unfold registrar_usuario in Hu.
    destruct (Py.contains ":"%char entry) eqn:Hc; [|by left].
    destruct (Py.split1 ":"%char (Py.strip entry)) as [[e p]|] eqn:Hs;
      [|by left].
    destruct (decide (Py.lower (Py.strip e) = k)) as [<-|Hne].
    + rewrite lookup_insert_eq in Hu. injection Hu as <-.
      right. exists entry, e, p. split; [left|done].
    + rewrite lookup_insert_ne in Hu by done. by left.
  - right. exists en, e, p. split; [by right|done].
Qed.

Lemma carregar_usuarios_entrada raw k v :
  App.carregar_usuarios raw !! k = Some v →
  ∃ entry email password,
    entry ∈ Py.split ","%char raw
    ∧ Py.contains ":"%char entry = true
    ∧ Py.split1 ":"%char (Py.strip entry) = Some (email, password)
    ∧ k = Py.lower (Py.strip email)
    ∧ v = Py.strip password.
Proof.
  rewrite carregar_usuarios_fold. destruct (String.eqb raw "").
  { by rewrite lookup_empty. }
  intros [Hu|H]%fold_registrar_origem; [by rewrite lookup_empty in Hu|done].
Qed.

(** Whoever logs in was configured: a login answered 200 means that some
    entry of the configuration has a colon, the submitted e-mail, trimmed
    and in lower case, equal to the text before its first colon trimmed and
    in lower case, and the submitted password equal to the rest of the
    entry, trimmed. *)
Theorem login_aceito_tem_entrada raw email password resposta :
  App.login (App.carregar_usuarios raw) email password = Normal resposta →
  ∃ entry e p,
    entry ∈ Py.split ","%char raw
    ∧ Py.contains ":"%char entry = true
    ∧ Py.split1 ":"%char (Py.strip entry) = Some (e, p)
    ∧ Py.lower (Py.strip email) = Py.lower (Py.strip e)
    ∧ password = Py.strip p.
Proof.
  unfold App.login. case_bool_decide; [done|].
  case_bool_decide as Hk; [|done]. intros _.
  by apply carregar_usuarios_entrada in Hk.
Qed.

Lemma login_aceito_tem_entrada_witness :
  ∃ entry e p,
    entry ∈ Py.split ","%char
              "Ana@prefeitura.gov:s3nha, bob@prefeitura.gov:pw"
    ∧ Py.contains ":"%char entry = true
    ∧ Py.split1 ":"%char (Py.strip entry) = Some (e, p)
    ∧ Py.lower (Py.strip " BOB@prefeitura.gov") = Py.lower (Py.strip e)
    ∧ "pw" = Py.strip p.
Proof.
  apply (login_aceito_tem_entrada
           "Ana@prefeitura.gov:s3nha, bob@prefeitura.gov:pw"
           " BOB@prefeitura.gov" "pw"
           (JObj [("ok", JBool true); ("email", JStr " BOB@prefeitura.gov")])).
  vm_compute. reflexivity.
Defined.









(** ** The command line *)

Section LinhaDeComando.

Variable chardet_detect : string → option string.
Variable read_csv : string → option string → resultado DataFrame.
Variable arquivos : string → option string.

Local Abbreviation ler_csv := (Ingestao.ler_csv chardet_detect read_csv arquivos).
Local Abbreviation main := (Ingestao.main chardet_detect read_csv arquivos).

Lemma ler_csv_existe caminho df :
  ler_csv caminho = Normal df → is_Some (arquivos caminho).
Proof.
  unfold Ingestao.ler_csv, Ingestao.detectar_encoding.
  destruct (arquivos caminho); [eauto|done].
Qed.

(** The command ends with status 1, and sends nothing to the store, when
    the file does not exist, when the store is not configured, or when the
    file lacks a required column. *)
Theorem main_recusa_sem_requisicao (args : Ingestao.Args)
    (entrada agora_1 agora_2 : string) (st : Supabase) :
  arquivos (Ingestao.arquivo args) = None
  ∨ credenciais st = false
  ∨ (∃ df, ler_csv (Ingestao.arquivo args) = Normal df
           ∧ (Ingestao.validar_colunas df).1 = false) →
  main args entrada agora_1 agora_2 st = (Normal 1, st).
Proof.
  intros H. unfold Ingestao.main.
  destruct (arquivos (Ingestao.arquivo args)) as [conteudo|] eqn:Harq.
  2:{ by rewrite bool_decide_eq_false_2 by (by intros [? ?]). }
  rewrite bool_decide_eq_true_2 by eauto. cbn [negb].
  unfold try_except, mbind, M_bind, mret, M_ret, lift, Store.create_client.
  cbv beta iota.
  destruct (credenciais st) eqn:Hc; cbn [negb]; cbv beta iota; [|done].
  rewrite Hc. cbv beta iota. cbn [negb].
  destruct H as [?|[?|(df & Hler & Hv)]]; [done..|].
  rewrite Hler. cbv beta iota. by rewrite Hv.
Qed.

(** With [--substituir], any answer to the confirmation other than SIM (in
    any case, with blanks around) ends the command with status 0 before
    anything is sent to the store: nothing is deleted, inserted or
    logged. *)
Theorem main_substituicao_cancelada (args : Ingestao.Args)
    (entrada agora_1 agora_2 : string) (st : Supabase)
    (df d : DataFrame) (n : nat) (m : celula) :
  credenciais st = true →
  ler_csv (Ingestao.arquivo args) = Normal df →
  Ingestao.transformar df (Ingestao.usuario args) agora_1 = Normal (d, n) →
  Ingestao.extrair_mes_ano d = Normal m →
  Ingestao.substituir args = true →
  Py.upper (Py.strip entrada) ≠ "SIM" →
  main args entrada agora_1 agora_2 st = (Normal 0, st).
Proof.
  intros Hc Hler Hd Hm Hs Hn.
  destruct (transformar_Normal _ _ _ _ _ Hd) as (Hf & _).
  unfold Ingestao.main.
  rewrite bool_decide_eq_true_2 by (by eapply ler_csv_existe).
  cbn [negb].
  unfold try_except, mbind, M_bind, mret, M_ret, lift, Store.create_client.
  repeat (progress (cbv beta iota; cbn [negb]; rewrite ?Hc)).
  rewrite Hler. cbv beta iota.
  rewrite validar_colunas_faltando. cbn [fst].
  rewrite Hf, bool_decide_eq_true_2 by done. cbn [negb]. cbv beta iota.
  rewrite Hd. cbv beta iota zeta. cbn [fst]. rewrite Hm. cbv beta iota.
  rewrite Hs.
  destruct (String.eqb_spec (Py.upper (Py.strip entrada)) "SIM"); [done|].
  reflexivity.
Qed.

Lemma filter_contrario {A} (p : A → bool) (l : list A) :
  filter (λ x, p x = true) (filter (λ x, p x = false) l) = [].
Proof.
  induction l as [|x l IH]; [done|].
  rewrite (filter_cons (λ x, p x = false)).
  destruct (decide (p x = false)) as [Hx|Hx]; [|done].
  rewrite filter_cons_False; [done|]. by rewrite Hx.
Qed.

(** With [--substituir], the confirmation given and a configured store that
    serves every request: the command ends with status 0; the table holds
    its former rows of the other competencies followed by the transformed
    records, so that the rows of the competency of the file are exactly
    those of the file; and the log has one more record, of kind
    SUBSTITUICAO, with the name of the file without its directory and the
    three counts. *)
Theorem main_substituicao_confirmada (args : Ingestao.Args)
    (entrada agora_1 agora_2 : string) (st : Supabase)
    (df d : DataFrame) (n : nat) (m : celula) :
  credenciais st = true →
  ler_csv (Ingestao.arquivo args) = Normal df →
  Ingestao.transformar df (Ingestao.usuario args) agora_1 = Normal (d, n) →
  Ingestao.extrair_mes_ano d = Normal m →
  Ingestao.substituir args = true →
  Py.upper (Py.strip entrada) = "SIM" →
  (∀ k, falha st (length (chamadas st) + k) = false) →
  let r := main args entrada agora_1 agora_2 st in
  r.1 = Normal 0
  ∧ gratificacoes r.2
    = filter (λ l, Store.eq_mes_ano (celula_json m) l = false)
             (gratificacoes st)
      ++ linhas d
  ∧ filter (λ l, Store.eq_mes_ano (celula_json m) l = true)
           (gratificacoes r.2)
    = filter (λ l, Store.eq_mes_ano (celula_json m) l = true) (linhas d)
  ∧ importacoes_log r.2
    = importacoes_log st
      ++ [ {| log_mes_ano := m;
              log_operacao := "SUBSTITUICAO";
              log_arquivo := Py.basename (Ingestao.arquivo args);
              log_linhas_total := Pandas.len d;
              log_linhas_inseridas := Pandas.len d;
              log_linhas_erro := 0;
              log_importado_por := Ingestao.usuario args;
              log_importado_em := agora_2 |} ].
Proof.
  intros Hc Hler Hd Hm Hs Hsim Hok. cbv zeta.
  destruct (transformar_Normal _ _ _ _ _ Hd) as (Hf & _).
  set (st1 := Store.com_gratificacoes
                (filter (λ l, Store.eq_mes_ano (celula_json m) l = false)
                        (gratificacoes st))
                (Store.registrar (DeleteGratificacoes (celula_json m)) st)).
  assert (Hlen1 : length (chamadas st1) = S (length (chamadas st))).
  { cbn. rewrite length_app. cbn. lia. }
  assert (Hok1 : ∀ k, falha st1 (length (chamadas st1) + k) = false).
  { intros k. rewrite Hlen1. cbn [falha st1 Store.com_gratificacoes
                                  Store.registrar].
    replace (S (length (chamadas st)) + k)
      with (length (chamadas st) + S k) by lia. apply Hok. }
  pose proof (inserir_em_lotes_contagem_servida d st1 Hok1) as Hres.
  pose proof (inserir_em_lotes_tabela_servida d st1 Hok1) as Htab.
  destruct (inserir_em_lotes_resultado d st1)
    as (ins & err & st2 & lotes & Hrun & _ & Hch & Hfalha & Hl).
  rewrite Hrun in Hres, Htab. cbn [fst snd] in Hres, Htab.
  injection Hres as -> ->.
  assert (Hdel : Ingestao.deletar_competencia m st
                 = (Normal (length (filter (λ l, Store.eq_mes_ano
                                                   (celula_json m) l = true)
                                           (gratificacoes st))), st1)).
  { unfold Ingestao.deletar_competencia, Store.delete_eq, Store.execute.
    unfold mbind, M_bind, mret, M_ret. cbv beta iota.
    pose proof (Hok 0) as H0. rewrite Nat.add_0_r in H0. rewrite H0.
    reflexivity. }
  unfold Ingestao.main.
  rewrite bool_decide_eq_true_2 by (by eapply ler_csv_existe).
  cbn [negb].
  unfold try_except, mbind, M_bind, mret, M_ret, lift, Store.create_client.
  repeat (progress (cbv beta iota; cbn [negb]; rewrite ?Hc)).
  rewrite Hler. cbv beta iota.
  rewrite validar_colunas_faltando. cbn [fst].
  rewrite Hf, bool_decide_eq_true_2 by done. cbn [negb]. cbv beta iota.
  rewrite Hd. cbv beta iota zeta. cbn [fst]. rewrite Hm. cbv beta iota.
  rewrite Hs, Hsim.
  change (String.eqb "SIM" "SIM") with true. cbn [negb]. cbv beta iota.
  rewrite Hdel. cbv beta iota. cbn [negb]. cbv beta iota.
  rewrite Hrun. cbv beta iota. cbn [fst snd].
  unfold Ingestao.registrar_log, Store.insert_log, Store.execute.
  assert (Hf2 : falha st2 (length (chamadas st2)) = false).
  { rewrite Hfalha, Hch, length_app. apply Hok1. }
  rewrite Hf2. cbv beta iota.
  cbn [fst snd gratificacoes importacoes_log Store.registrar Store.com_log].
  rewrite Htab, Hl.
  cbn [gratificacoes importacoes_log st1 Store.com_gratificacoes
       Store.registrar].
  split; [done|]. split; [done|]. split; [|done].
  by rewrite filter_app, filter_contrario.
Qed.

End LinhaDeComando.

Lemma main_recusa_sem_requisicao_witness :
  Ingestao.main (λ _, Some "utf-8") (λ _ _, Normal csv_sem_valor)
    (λ _, Some "")
    {| Ingestao.arquivo := "dados/pagamento_fev.csv";
       Ingestao.usuario := "joao.silva";
       Ingestao.substituir := false |}
    "" "2024-02-01T10:00:00" "2024-02-01T10:00:01" loja_vazia
  = (Normal 1, loja_vazia).
Proof.
  apply main_recusa_sem_requisicao. right. right.
  exists csv_sem_valor. split; reflexivity.
Defined.

Lemma main_substituicao_cancelada_witness :
  Ingestao.main (λ _, Some "utf-8") (λ _ _, Normal (csv_cenario "10,00"))
    (λ _, Some "")
    {| Ingestao.arquivo := "dados/pagamento_fev.csv";
       Ingestao.usuario := "joao.silva";
       Ingestao.substituir := true |}
    " nao " "2024-02-01T10:00:00" "2024-02-01T10:00:01" loja_com_dados
  = (Normal 0, loja_com_dados).
Proof.
  apply (main_substituicao_cancelada (λ _, Some "utf-8")
           (λ _ _, Normal (csv_cenario "10,00")) (λ _, Some "")
           {| Ingestao.arquivo := "dados/pagamento_fev.csv";
              Ingestao.usuario := "joao.silva";
              Ingestao.substituir := true |}
           " nao " "2024-02-01T10:00:00" "2024-02-01T10:00:01"
           loja_com_dados (csv_cenario "10,00") registros_cenario 0
           (Str "01/2024")).
  - reflexivity.
  - reflexivity.
  - vm_compute. reflexivity.
  - vm_compute. reflexivity.
  - reflexivity.
  - vm_compute. discriminate.
Defined.

Lemma main_substituicao_confirmada_witness :
  (Ingestao.main (λ _, Some "utf-8") (λ _ _, Normal (csv_cenario "10,00"))
     (λ _, Some "")
     {| Ingestao.arquivo := "dados/pagamento_fev.csv";
        Ingestao.usuario := "joao.silva";
        Ingestao.substituir := true |}
     " sim " "2024-02-01T10:00:00" "2024-02-01T10:00:01" loja_com_dados).1
  = Normal 0
  ∧ gratificacoes
      (Ingestao.main (λ _, Some "utf-8")
         (λ _ _, Normal (csv_cenario "10,00")) (λ _, Some "")
         {| Ingestao.arquivo := "dados/pagamento_fev.csv";
            Ingestao.usuario := "joao.silva";
            Ingestao.substituir := true |}
         " sim " "2024-02-01T10:00:00" "2024-02-01T10:00:01"
         loja_com_dados).2
    = filter (λ l, Store.eq_mes_ano (celula_json (Str "01/2024")) l = false)
             (gratificacoes loja_com_dados)
      ++ linhas registros_cenario
  ∧ filter (λ l, Store.eq_mes_ano (celula_json (Str "01/2024")) l = true)
      (gratificacoes
         (Ingestao.main (λ _, Some "utf-8")
            (λ _ _, Normal (csv_cenario "10,00")) (λ _, Some "")
            {| Ingestao.arquivo := "dados/pagamento_fev.csv";
               Ingestao.usuario := "joao.silva";
               Ingestao.substituir := true |}
            " sim " "2024-02-01T10:00:00" "2024-02-01T10:00:01"
            loja_com_dados).2)
    = filter (λ l, Store.eq_mes_ano (celula_json (Str "01/2024")) l = true)
             (linhas registros_cenario)
  ∧ importacoes_log
      (Ingestao.main (λ _, Some "utf-8")
         (λ _ _, Normal (csv_cenario "10,00")) (λ _, Some "")
         {| Ingestao.arquivo := "dados/pagamento_fev.csv";
            Ingestao.usuario := "joao.silva";
            Ingestao.substituir := true |}
         " sim " "2024-02-01T10:00:00" "2024-02-01T10:00:01"
         loja_com_dados).2
    = importacoes_log loja_com_dados
      ++ [ {| log_mes_ano := Str "01/2024";
              log_operacao := "SUBSTITUICAO";
              log_arquivo := Py.basename "dados/pagamento_fev.csv";
              log_linhas_total := Pandas.len registros_cenario;
              log_linhas_inseridas := Pandas.len registros_cenario;
              log_linhas_erro := 0;
              log_importado_por := "joao.silva";
              log_importado_em := "2024-02-01T10:00:01" |} ].
Proof.
  apply (main_substituicao_confirmada (λ _, Some "utf-8")
           (λ _ _, Normal (csv_cenario "10,00")) (λ _, Some "")
           {| Ingestao.arquivo := "dados/pagamento_fev.csv";
              Ingestao.usuario := "joao.silva";
              Ingestao.substituir := true |}
           " sim " "2024-02-01T10:00:00" "2024-02-01T10:00:01"
           loja_com_dados (csv_cenario "10,00") registros_cenario 0
           (Str "01/2024")).
  - reflexivity.
  - reflexivity.
  - vm_compute. reflexivity.
  - vm_compute. reflexivity.
  - reflexivity.
  - vm_compute. reflexivity.
  - intros k. reflexivity.
Defined.

Example basename_exemplo :
  Py.basename "dados/2024/pagamento_fev.csv" = "pagamento_fev.csv"
  ∧ Py.basename "pagamento_fev.csv" = "pagamento_fev.csv".
Proof. vm_compute. auto. Qed.

(** ** The list of competencies *)

Lemma ltb_total s t : s ≠ t → String.ltb s t = false → String.ltb t s = true.
Proof.
  unfold String.ltb. intros Hne H.
  rewrite String.compare_antisym.
  destruct (String.compare s t) eqn:E; [|done..].
  by apply String.compare_eq_iff in E.
Qed.

Lemma inserir_desc_texto s n (l : list (string * nat)) :
  s ∉ l.*1 → decrescente l = true →
  ∃ l', App.inserir_desc (Str s, n) (item_texto <$> l)
        = Normal (item_texto <$> l')
        ∧ l' ≡ₚ (s, n) :: l
        ∧ decrescente l' = true
        ∧ (∀ a r', l' = a :: r' →
             a = (s, n) ∨ ∃ r, l = a :: r).
Proof.
  induction l as [|[t m] r IH]; intros Hs Hd.
  - exists [(s, n)]. repeat split; [done..|]. intros a r' [= <- <-]. by left.
  - rewrite fmap_cons in Hs. apply not_elem_of_cons in Hs as [Hst Hs].
    cbn [fst] in Hst.
    assert (Hdr : decrescente r = true).
    { destruct r; [done|]. cbn in Hd. by apply andb_true_iff in Hd as [_ ?]. }
    rewrite fmap_cons. cbn [App.inserir_desc].
    unfold App.item_lt, item_texto at 1. cbn [fst snd].
    rewrite (proj2 (String.eqb_neq s t)) by done.
    destruct (String.ltb s t) eqn:Elt.
    + destruct (IH Hs Hdr) as (l' & -> & Hp & Hd' & Hh).
      exists ((t, m) :: l'). split; [done|]. split.
      { rewrite Hp. apply Permutation_swap. }
      split; [|intros a r' [= <- <-]; right; by eexists].
      destruct l' as [|b l'']; [done|].
      change (decrescente ((t, m) :: b :: l''))
        with (String.ltb b.1 t && decrescente (b :: l'')).
      rewrite Hd', andb_true_r.
      destruct (Hh b l'' eq_refl) as [->|[r0 ->]]; [done|].
      cbn in Hd. by apply andb_true_iff in Hd as [? _].
    + exists ((s, n) :: (t, m) :: r). split; [done|]. split; [done|].
      split; [|intros a r' [= <- <-]; by left].
      change (decrescente ((s, n) :: (t, m) :: r))
        with (String.ltb t s && decrescente ((t, m) :: r)).
      rewrite Hd, andb_true_r. by apply ltb_total.
Qed.

Lemma sorted_reverse_texto (l : list (string * nat)) :
  NoDup l.*1 →
  ∃ l', App.sorted_reverse (item_texto <$> l) = Normal (item_texto <$> l')
        ∧ l' ≡ₚ l ∧ decrescente l' = true.
Proof.
  induction l as [|[s n] l IH]; intros Hnd.
  - by exists [].
  - rewrite fmap_cons in Hnd. apply NoDup_cons in Hnd as [Hs Hnd].
    destruct (IH Hnd) as (l1 & Hl1 & Hp & Hd).
    destruct (inserir_desc_texto s n l1) as (l' & Hi & Hp' & Hd' & _);
      [by rewrite Hp|done|].
    exists l'. split.
    { rewrite fmap_cons. unfold App.sorted_reverse. cbn [foldr].
      fold (App.sorted_reverse (item_texto <$> l)). by rewrite Hl1. }
    split; [by rewrite Hp', Hp|done].
Qed.

Lemma contagem_texto s (ss : list string) :
  Pandas.contagem (Str s) (Str <$> ss)
  = length (filter (λ t, s = t) ss).
Proof.
  unfold Pandas.contagem. induction ss as [|t ss IH]; [done|].
  rewrite fmap_cons, !filter_cons. cbn [celula_eqb].
  destruct (String.eqb_spec s t) as [->|Hne].
  - rewrite !decide_True by done. cbn [length]. f_equal. exact IH.
  - rewrite !decide_False by done. exact IH.
Qed.

Lemma filter_texto_distinto s (ds : list string) :
  filter (λ y, celula_eqb (Str s) y = false) (Str <$> ds)
  = Str <$> filter (λ t, s ≠ t) ds.
Proof.
  induction ds as [|d ds IH]; [done|].
  rewrite fmap_cons, !filter_cons. cbn [celula_eqb].
  destruct (String.eqb_spec s d) as [->|Hne].
  - rewrite !decide_False by (try done; by intros ?). exact IH.
  - rewrite !decide_True by done. rewrite fmap_cons. f_equal. exact IH.
Qed.

Lemma distintos_texto (ss : list string) :
  ∃ ds, Pandas.distintos (Str <$> ss) = Str <$> ds
        ∧ NoDup ds ∧ ∀ s, s ∈ ds ↔ s ∈ ss.
Proof.
  induction ss as [|s ss (ds & Hds & Hnd & Hin)].
  - exists []. split; [done|]. split; [constructor|done].
  - exists (s :: filter (λ t, s ≠ t) ds).
    rewrite fmap_cons. cbn [Pandas.distintos]. rewrite Hds. split.
    { rewrite fmap_cons. f_equal. apply filter_texto_distinto. }
    split.
    { apply NoDup_cons. split; [|by apply NoDup_filter].
      rewrite list_elem_of_filter. by intros [? _]. }
    intros t. rewrite elem_of_cons, list_elem_of_filter, elem_of_cons, Hin.
    split.
    + intros [->|[? ?]]; [by left|by right].
    + intros [->|Ht]; [by left|].
      destruct (decide (s = t)) as [->|]; [by left|by right].
Qed.

Lemma soma_indicadora (a : string) (ds : list string) :
  NoDup ds → a ∈ ds →
  sum_list (map (λ s, if decide (s = a) then 1 else 0) ds) = 1.
Proof.
  induction ds as [|d ds IH]; intros Hnd Ha; [by apply elem_of_nil in Ha|].
  apply NoDup_cons in Hnd as [Hd Hnd]. simpl.
  destruct (decide (d = a)) as [->|Hne].
  - assert (H0 : sum_list (map (λ s, if decide (s = a) then 1 else 0) ds) = 0).
    { clear IH Hnd Ha. induction ds as [|e ds IH]; [done|].
      apply not_elem_of_cons in Hd as [? ?]. simpl.
      rewrite decide_False by congruence. by rewrite IH. }
    by rewrite H0.
  - apply elem_of_cons in Ha as [->|Ha]; [done|]. by rewrite IH.
Qed.

Lemma soma_contagens (ds ss : list string) :
  NoDup ds → (∀ s, s ∈ ss → s ∈ ds) →
  sum_list (map (λ s, length (filter (λ t, s = t) ss)) ds) = length ss.
Proof.
  intros Hnd. induction ss as [|a ss IH]; intros Hin.
  - clear. induction ds as [|d ds IHd]; [done|].
    change (sum_list (map ?f (d :: ds))) with (f d + sum_list (map f ds)).
    by rewrite IHd.
  - assert (Hs : ∀ l : list string,
               sum_list (map (λ s, length (filter (λ t, s = t) (a :: ss))) l)
               = sum_list (map (λ s, if decide (s = a) then 1 else 0) l)
                 + sum_list (map (λ s, length (filter (λ t, s = t) ss)) l)).
    { induction l as [|d l IHl]; [done|].
      change (sum_list (map ?f (d :: l))) with (f d + sum_list (map f l)).
      cbv beta. rewrite IHl, filter_cons.
      destruct (decide (d = a)); cbn [length]; lia. }
    rewrite Hs, soma_indicadora, IH; [done| |done|].
    + intros s ?. apply Hin. by right.
    + apply Hin. by left.
Qed.

Lemma sum_list_permutacao (l k : list nat) :
  l ≡ₚ k → sum_list l = sum_list k.
Proof. induction 1; simpl in *; lia. Qed.

Lemma mes_ano_de_texto (data : list (gmap string celula)) :
  (∀ r x, r ∈ data → r !! "mes_ano" ≠ Some (Num x)) →
  omap App.mes_ano_de data = Str <$> omap competencia_de data.
Proof.
  induction data as [|r data IH]; intros Ht; [done|].
  cbn [omap list_omap]. fold (omap App.mes_ano_de data).
  fold (omap competencia_de data).
  rewrite IH by (intros ? ? ?; apply Ht; by right).
  unfold App.mes_ano_de, competencia_de.
  destruct (r !! "mes_ano") as [[s|x]|] eqn:E; [| |done].
  - cbn [celula_json truthy]. by destruct (String.eqb s "").
  - exfalso. by apply (Ht r x); [left|].
Qed.

Lemma contagem_competencia s (data : list (gmap string celula)) :
  length (filter (λ t, s = t) (omap competencia_de data))
  = length (filter (λ r, competencia_de r = Some s) data).
Proof.
  induction data as [|r data IH]; [done|].
  cbn [omap list_omap]. fold (omap competencia_de data).
  rewrite (filter_cons _ r).
  destruct (competencia_de r) as [t|].
  - rewrite filter_cons.
    destruct (decide (s = t)) as [->|Hne].
    + rewrite decide_True by done. cbn [length]. by f_equal.
    + rewrite decide_False by congruence. done.
  - rewrite decide_False by done. done.
Qed.

Lemma total_competencias (data : list (gmap string celula)) :
  length (omap competencia_de data)
  = length (filter (λ r, is_Some (competencia_de r)) data).
Proof.
  induction data as [|r data IH]; [done|].
  cbn [omap list_omap]. fold (omap competencia_de data).
  rewrite filter_cons.
  destruct (competencia_de r) as [t|].
  - rewrite decide_True by done. cbn [length]. by f_equal.
  - rewrite decide_False by (by intros [? ?]). done.
Qed.

Lemma JSONResponse_texto (l : list (string * nat)) :
  App.JSONResponse (item_texto <$> l)
  = Normal (JObj [ ("ok", JBool true);
                   ("competencias", JArr (item_json <$> l)) ]).
Proof.
  unfold App.JSONResponse.
  assert (Hf : forallb (λ it : celula * nat,
                          match it.1 with
                          | Num (Infinito _) => false
                          | _ => true
                          end) (item_texto <$> l) = true).
  { induction l as [|p l IH]; [done|]. rewrite fmap_cons. cbn. exact IH. }
  assert (Hm : map (λ it : celula * nat,
                      JObj [ ("mes_ano", celula_json it.1);
                             ("total", JNat it.2) ]) (item_texto <$> l)
               = item_json <$> l).
  { clear Hf. induction l as [|p l IH]; [done|].
    rewrite !fmap_cons. cbn [map]. f_equal. exact IH. }
  by rewrite Hf, Hm.
Qed.

Lemma item_lt_Normal x y b :
  App.item_lt x y = Normal b → texto x.1 = texto y.1.
Proof. unfold App.item_lt. by destruct x.1, y.1. Qed.

Lemma inserir_desc_Normal x a0 a :
  App.inserir_desc x a0 = Normal a →
  a ≡ₚ x :: a0 ∧ ∀ y r, a0 = y :: r → texto x.1 = texto y.1.
Proof.
  revert a. induction a0 as [|y r IH]; intros a; cbn [App.inserir_desc].
  - intros [= <-]. by split.
  - destruct (App.item_lt x y) as [[]|] eqn:E; [| |done].
    + destruct (App.inserir_desc x r) as [r'|]; [|done].
      intros [= <-]. destruct (IH r' eq_refl) as [Hp _]. split.
      * rewrite Hp. apply Permutation_swap.
      * intros ? ? [= <- <-]. by eapply item_lt_Normal.
    + intros [= <-]. split; [done|].
      intros ? ? [= <- <-]. by eapply item_lt_Normal.
Qed.

Lemma sorted_reverse_Normal l a :
  App.sorted_reverse l = Normal a →
  a ≡ₚ l ∧ ∀ y z, y ∈ a → z ∈ a → texto y.1 = texto z.1.
Proof.
  revert a. induction l as [|x l IH]; intros a.
  - intros [= <-]. split; [done|]. intros ? ? H. by apply elem_of_nil in H.
  - unfold App.sorted_reverse. cbn [foldr].
    fold (App.sorted_reverse l).
    destruct (App.sorted_reverse l) as [a0|]; [|done].
    destruct (IH a0 eq_refl) as [Hp Hh]. intros Hi.
    apply inserir_desc_Normal in Hi as [Hp' Hx].
    split; [by rewrite Hp', Hp|].
    assert (Hxa : ∀ y, y ∈ a0 → texto x.1 = texto y.1).
    { destruct a0 as [|h r]; [intros ? H; by apply elem_of_nil in H|].
      intros y Hy. rewrite (Hx h r eq_refl). apply Hh; [left|done]. }
    intros y z. rewrite !Hp', !elem_of_cons.
    intros [->|Hy] [->|Hz]; [done|by apply Hxa|symmetry; by apply Hxa|].
    by apply Hh.
Qed.

Lemma celula_eqb_texto a b : celula_eqb a b = true → texto a = texto b.
Proof. by destruct a, b. Qed.

Lemma distintos_representante c (vs : list celula) :
  c ∈ vs → ∃ c', c' ∈ Pandas.distintos vs ∧ texto c' = texto c.
Proof.
  induction vs as [|v r IH]; [intros H; by apply elem_of_nil in H|].
  cbn [Pandas.distintos]. intros [->|Hc]%elem_of_cons.
  - exists v. split; [left|done].
  - destruct (IH Hc) as (c' & Hin & Ht).
    destruct (celula_eqb v c') eqn:E.
    + exists v. split; [left|]. rewrite <- Ht. by apply celula_eqb_texto.
    + exists c'. split; [|done]. right. by apply list_elem_of_filter.
Qed.

Section Competencias.

Variable select_mes_ano : M (list (gmap string celula)).

Local Abbreviation listar_competencias :=
  (App.listar_competencias select_mes_ano).

(** When the request is served and no row has a number in [mes_ano], the
    answer of [/api/competencias] lists every non-empty competency of the
    rows exactly once, with the number of rows that carry it, greatest
    competency first; the totals add up to the number of rows that have a
    non-empty competency. *)
Theorem listar_competencias_totais (st st' : Supabase)
    (data : list (gmap string celula)) :
  credenciais st = true →
  select_mes_ano st = (Normal data, st') →
  (∀ r x, r ∈ data → r !! "mes_ano" ≠ Some (Num x)) →
  ∃ l : list (string * nat),
    listar_competencias st
    = (Normal (JObj [ ("ok", JBool true);
                      ("competencias", JArr (item_json <$> l)) ]), st')
    ∧ decrescente l = true
    ∧ NoDup l.*1
    ∧ (∀ s n, (s, n) ∈ l
              ↔ 0 < n
                ∧ n = length (filter (λ r, competencia_de r = Some s) data))
    ∧ sum_list l.*2
      = length (filter (λ r, is_Some (competencia_de r)) data).
Proof.
  intros Hc Hsel Htxt.
  set (ss := omap competencia_de data).
  destruct (distintos_texto ss) as (ds & Hds & Hnd & Hin).
  set (c := (λ s, (s, length (filter (λ t, s = t) ss))) <$> ds).
  assert (Hc1 : c.*1 = ds).
  { unfold c. rewrite <- list_fmap_compose. apply list_fmap_id. }
  assert (Hcounter : App.Counter (Str <$> ss) = item_texto <$> c).
  { unfold App.Counter, c. rewrite Hds, <- list_fmap_compose.
    change (map ?f (Str <$> ds)) with (f <$> (Str <$> ds)).
    rewrite <- list_fmap_compose. apply list_fmap_ext. intros _ s _.
    unfold compose, item_texto. cbn [fst snd]. by rewrite contagem_texto. }
  destruct (sorted_reverse_texto c) as (l & Hsort & Hperm & Hdec);
    [by rewrite Hc1|].
  exists l. split; [|split; [done|split; [by rewrite Hperm, Hc1|split]]].
  - unfold App.listar_competencias, App.get_supabase, Store.create_client.
    unfold try_except, mbind, M_bind, mret, M_ret, lift, raise.
    cbv beta iota. rewrite Hc. cbv beta iota. rewrite Hsel. cbv beta iota.
    case_bool_decide as Hd; cbn [negb].
    + subst data. cbn in ss. subst ss.
      destruct ds as [|d ds].
      2:{ assert (Hd : d ∈ d :: ds) by left.
          apply Hin in Hd. by apply elem_of_nil in Hd. }
      apply Permutation_nil_r in Hperm. subst l.
      reflexivity.
    + rewrite mes_ano_de_texto by done. fold ss.
      rewrite Hcounter, Hsort. cbv beta iota.
      by rewrite JSONResponse_texto.
  - intros s n. rewrite Hperm. unfold c. rewrite list_elem_of_fmap.
    rewrite <- (contagem_competencia s data). fold ss. split.
    + intros (t & [= -> ->] & Ht). split; [|done].
      apply Hin in Ht. apply list_elem_of_split in Ht as (l1 & l2 & ->).
      rewrite filter_app, filter_cons, decide_True, length_app by done.
      cbn [length]. lia.
    + intros [Hn ->]. exists s. split; [done|]. apply Hin.
      destruct (filter (λ t, s = t) ss) as [|t f] eqn:Ef;
        [cbn in Hn; lia|].
      assert (Ht : t ∈ filter (λ t, s = t) ss) by (rewrite Ef; left).
      apply list_elem_of_filter in Ht as [-> ?]. done.
  - rewrite (sum_list_permutacao _ c.*2) by (by rewrite Hperm).
    unfold c. rewrite <- list_fmap_compose.
    change (sum_list (?f <$> ds)) with (sum_list (map f ds)).
    unfold compose. cbn [snd].
    rewrite soma_contagens; [apply total_competencias|done|].
    intros s. apply Hin.
Qed.

(** Whatever the request raises, the answer is the status 500 with the
    text of the exception, as when the store is not configured. *)
Theorem listar_competencias_erro (st st' : Supabase) (e : excecao) :
  credenciais st = false ∨ select_mes_ano st = (Raise e, st') →
  ∃ detail, (listar_competencias st).1 = Raise (HTTPException 500 detail).
Proof.
  unfold App.listar_competencias, App.get_supabase, Store.create_client.
  unfold try_except, mbind, M_bind, mret, M_ret, lift, raise.
  cbv beta iota. intros [Hc|Hs].
  - rewrite Hc. cbv beta iota. by eexists.
  - destruct (credenciais st); cbv beta iota; [|by eexists].
    rewrite Hs. cbv beta iota. by eexists.
Qed.

(** A table that has both a text and a number in [mes_ano] makes the
    listing fail: the two do not compare, and the answer is the status
    500. *)
Theorem listar_competencias_mistura (st st' : Supabase)
    (data : list (gmap string celula)) (s : string) (x : numero) :
  credenciais st = true →
  select_mes_ano st = (Normal data, st') →
  Str s ∈ omap App.mes_ano_de data →
  Num x ∈ omap App.mes_ano_de data →
  ∃ detail, (listar_competencias st).1 = Raise (HTTPException 500 detail).
Proof.
  intros Hc Hsel Hs Hx.
  unfold App.listar_competencias, App.get_supabase, Store.create_client.
  unfold try_except, mbind, M_bind, mret, M_ret, lift, raise.
  cbv beta iota. rewrite Hc. cbv beta iota. rewrite Hsel. cbv beta iota.
  case_bool_decide as Hd; cbn [negb].
  { subst data. by apply elem_of_nil in Hs. }
  destruct (App.sorted_reverse _) as [a|e] eqn:E; [|by eexists].
  exfalso. apply sorted_reverse_Normal in E as [Hp Hh].
  destruct (distintos_representante _ _ Hs) as (c1 & H1 & Ht1).
  destruct (distintos_representante _ _ Hx) as (c2 & H2 & Ht2).
  set (vs := omap App.mes_ano_de data) in *.
  assert (Hi : ∀ c, c ∈ Pandas.distintos vs →
                    (c, Pandas.contagem c vs) ∈ a).
  { intros c Hin. rewrite Hp. unfold App.Counter.
    by apply (list_elem_of_fmap_2 (λ x, (x, Pandas.contagem x vs))). }
  specialize (Hh _ _ (Hi _ H1) (Hi _ H2)). cbn [fst] in Hh.
  rewrite Ht1, Ht2 in Hh. done.
Qed.

End Competencias.

Lemma listar_competencias_totais_witness :
  ∃ l : list (string * nat),
    App.listar_competencias consulta_mes_ano loja_competencias
    = (Normal (JObj [ ("ok", JBool true);
                      ("competencias", JArr (item_json <$> l)) ]),
       loja_competencias)
    ∧ decrescente l = true
    ∧ NoDup l.*1
    ∧ (∀ s n, (s, n) ∈ l
              ↔ 0 < n
                ∧ n = length (filter (λ r, competencia_de r = Some s)
                                     (gratificacoes loja_competencias)))
    ∧ sum_list l.*2
      = length (filter (λ r, is_Some (competencia_de r))
                       (gratificacoes loja_competencias)).
Proof.
  apply (listar_competencias_totais consulta_mes_ano loja_competencias
           loja_competencias (gratificacoes loja_competencias)).
  - reflexivity.
  - reflexivity.
  - intros r x Hr.
    repeat (apply elem_of_cons in Hr as [-> | Hr]);
      try (by apply elem_of_nil in Hr); vm_compute; discriminate.
Defined.

Example listar_competencias_exemplo :
  (App.listar_competencias consulta_mes_ano loja_competencias).1
  = Normal (JObj [ ("ok", JBool true);
                   ("competencias",
                    JArr [ item_json ("02/2024", 1);
                           item_json ("01/2024", 2) ]) ]).
Proof. vm_compute. reflexivity. Qed.

Lemma listar_competencias_erro_witness :
  ∃ detail,
    (App.listar_competencias consulta_mes_ano loja_sem_credenciais).1
    = Raise (HTTPException 500 detail).
Proof.
  apply (listar_competencias_erro consulta_mes_ano loja_sem_credenciais
           loja_sem_credenciais (Exception "APIError" "request failed")).
  left. reflexivity.
Defined.

Lemma listar_competencias_mistura_witness :
  ∃ detail,
    (App.listar_competencias consulta_mes_ano loja_mista).1
    = Raise (HTTPException 500 detail).
Proof.
  apply (listar_competencias_mistura consulta_mes_ano loja_mista loja_mista
           (gratificacoes loja_mista) "01/2024" (Finito (Qmake 2024 1))).
  - reflexivity.
  - reflexivity.
  - vm_compute. left.
  - vm_compute. right. left.
Defined.

(** ** The import endpoint when the log request fails *)

Section ImportarSemRegistro.

Variable chardet_detect : string → option string.
Variable read_csv : string → option string → resultado DataFrame.

Lemma inserir_em_lotes_servidos (df : DataFrame) (st : Supabase) :
  (∀ k, k < length (Py.range 0 (Pandas.len df) Ingestao.TAMANHO_LOTE) →
        falha st (length (chamadas st) + k) = false) →
  ∃ st',
    Ingestao.inserir_em_lotes df st = (Normal (Pandas.len df, 0), st')
    ∧ gratificacoes st' = gratificacoes st ++ linhas df
    ∧ length (chamadas st')
      = length (chamadas st)
        + length (Py.range 0 (Pandas.len df) Ingestao.TAMANHO_LOTE)
    ∧ falha st' = falha st
    ∧ importacoes_log st' = importacoes_log st.
Proof.
  intros Hok.
  pose proof (for_each_inserir_lote_tabela (linhas df)
                (Py.range 0 (Pandas.len df) Ingestao.TAMANHO_LOTE)
                (0, 0) st) as Htab.
  unfold Ingestao.inserir_em_lotes.
  destruct (for_each_inserir_lote (linhas df)
              (Py.range 0 (Pandas.len df) Ingestao.TAMANHO_LOTE) (0, 0) st)
    as (st' & Hrun & Hch & Hf & Hlog).
  rewrite Hrun in Htab. cbn [snd] in Htab.
  exists st'. split; [|split; [|split; [|done]]].
  - rewrite Hrun. cbn [fst snd]. do 2 f_equal.
    rewrite (imap_ext _ (λ _ i, length (Py.slice (linhas df) i
                                          (i + Ingestao.TAMANHO_LOTE))))
      by (intros k i Hk; rewrite Hok; [done|by eapply lookup_lt_Some]).
    rewrite (imap_ext (λ k i, if falha st (length (chamadas st) + k)
                              then _ else 0) (λ _ _, 0))
      by (intros k i Hk; rewrite Hok; [done|by eapply lookup_lt_Some]).
    rewrite (imap_sem_indice
               (λ i, length (Py.slice (linhas df) i
                               (i + Ingestao.TAMANHO_LOTE)))).
    rewrite (imap_sem_indice (λ _ : nat, 0)), soma_zeros.
    rewrite <- (map_map (λ i, Py.slice (linhas df) i
                                (i + Ingestao.TAMANHO_LOTE)) length).
    unfold Py.range, Pandas.len.
    rewrite soma_comprimentos, lotes_concat. reflexivity.
  - rewrite Htab. f_equal.
    rewrite (imap_ext _ (λ _ i, Py.slice (linhas df) i
                                  (i + Ingestao.TAMANHO_LOTE)))
      by (intros k i Hk; rewrite Hok; [done|by eapply lookup_lt_Some]).
    rewrite imap_sem_indice. apply lotes_concat.
  - by rewrite Hch, length_app, length_map.
Qed.

(** The import is not atomic. When the store serves the insert requests
    and fails the one that writes the log, [importar_csv] answers the
    status 500 although every transformed record is in the table; the log
    has no record of the import. *)
Theorem importar_csv_falha_no_registro (arquivo : UploadFile)
    (usuario agora_1 agora_2 : string) (st : Supabase)
    (df d : DataFrame) (n : nat) (m : celula) :
  let lotes := length (Py.range 0 (Pandas.len d) Ingestao.TAMANHO_LOTE) in
  (App.ler chardet_detect read_csv (conteudo arquivo)).1 = Normal df →
  Ingestao.transformar df usuario agora_1 = Normal (d, n) →
  Ingestao.extrair_mes_ano d = Normal m →
  credenciais st = true →
  (∀ k, k < lotes → falha st (length (chamadas st) + k) = false) →
  falha st (length (chamadas st) + lotes) = true →
  let r := App.importar_csv chardet_detect read_csv arquivo usuario false
             agora_1 agora_2 st in
  (∃ detail, r.1 = Raise (HTTPException 500 detail))
  ∧ gratificacoes r.2 = gratificacoes st ++ linhas d
  ∧ importacoes_log r.2 = importacoes_log st.
Proof.
  intros lotes Hler Hd Hm Hcred Hok Hko. cbv zeta.
  destruct (transformar_Normal _ _ _ _ _ Hd) as (Hf & _).
  destruct (inserir_em_lotes_servidos d st Hok)
    as (st1 & Hrun & Htab & Hc & Hfalha & Hl).
  unfold App.importar_csv.
  destruct (App.ler chardet_detect read_csv (conteudo arquivo))
    as [lido encoding].
  cbn [fst] in Hler. subst lido. desdobrar.
  rewrite validar_colunas_faltando. cbn [fst].
  rewrite Hf, bool_decide_eq_true_2 by done. cbn [negb]. cbv beta iota.
  rewrite Hd. cbv beta iota. cbn [fst].
  rewrite Hm. cbv beta iota.
  unfold App.get_supabase, Store.create_client. rewrite Hcred.
  cbv beta iota. rewrite Hrun. cbv beta iota. cbn [fst snd].
  unfold Ingestao.registrar_log, Store.insert_log, Store.execute.
  rewrite Hfalha, Hc. fold lotes. rewrite Hko. cbv beta iota.
  cbn [fst snd gratificacoes importacoes_log Store.registrar].
  split; [by eexists|]. by rewrite Htab, Hl.
Qed.

End ImportarSemRegistro.

Lemma importar_csv_falha_no_registro_witness :
  (∃ detail,
     (App.importar_csv (λ _, Some "utf-8")
        (λ _ _, Normal (csv_cenario "10,00"))
        {| filename := "fev.csv"; conteudo := "" |} "joao.silva" false
        "2024-02-01T10:00:00" "2024-02-01T10:00:01"
        {| gratificacoes := []; importacoes_log := []; credenciais := true;
           chamadas := []; falha := λ i, bool_decide (i = 1) |}).1
     = Raise (HTTPException 500 detail))
  ∧ gratificacoes
      (App.importar_csv (λ _, Some "utf-8")
         (λ _ _, Normal (csv_cenario "10,00"))
         {| filename := "fev.csv"; conteudo := "" |} "joao.silva" false
         "2024-02-01T10:00:00" "2024-02-01T10:00:01"
         {| gratificacoes := []; importacoes_log := []; credenciais := true;
            chamadas := []; falha := λ i, bool_decide (i = 1) |}).2
    = [] ++ linhas registros_cenario
  ∧ importacoes_log
      (App.importar_csv (λ _, Some "utf-8")
         (λ _ _, Normal (csv_cenario "10,00"))
         {| filename := "fev.csv"; conteudo := "" |} "joao.silva" false
         "2024-02-01T10:00:00" "2024-02-01T10:00:01"
         {| gratificacoes := []; importacoes_log := []; credenciais := true;
            chamadas := []; falha := λ i, bool_decide (i = 1) |}).2
    = [].
Proof.
  apply (importar_csv_falha_no_registro (λ _, Some "utf-8")
           (λ _ _, Normal (csv_cenario "10,00"))
           {| filename := "fev.csv"; conteudo := "" |} "joao.silva"
           "2024-02-01T10:00:00" "2024-02-01T10:00:01"
           {| gratificacoes := []; importacoes_log := [];
              credenciais := true; chamadas := [];
              falha := λ i, bool_decide (i = 1) |}
           (csv_cenario "10,00") registros_cenario 0 (Str "01/2024")).
  - reflexivity.
  - vm_compute. reflexivity.
  - vm_compute. reflexivity.
  - reflexivity.
  - intros k Hk. vm_compute in Hk.
    assert (k = 0) as -> by lia. reflexivity.
  - vm_compute. reflexivity.
Defined.

(** ** The competency of the records *)

Lemma extrair_mes_ano_moda_witness :
  ∃ x,
    Ingestao.extrair_mes_ano registros_cenario = Normal x
    ∧ Some x ∈ Pandas.coluna "mes_ano" registros_cenario
    ∧ ∀ y, Some y ∈ Pandas.coluna "mes_ano" registros_cenario →
           Pandas.contagem y
             (omap id (Pandas.coluna "mes_ano" registros_cenario))
           ≤ Pandas.contagem x
               (omap id (Pandas.coluna "mes_ano" registros_cenario)).
Proof.
  apply (extrair_mes_ano_moda registros_cenario (Str "01/2024")).
  - compute_done.
  - vm_compute. left.
Defined.

(** ** The dry run after an import *)

Lemma for_each_inserir_lote_credenciais regs indices acc (st : Supabase) :
  credenciais (for_each indices (Ingestao.inserir_lote regs) acc st).2
  = credenciais st.
Proof.
  revert acc st. induction indices as [|i indices IH]; intros acc st.
  - reflexivity.
  - cbn [for_each]. unfold mbind at 1, M_bind at 1.
    unfold Ingestao.inserir_lote at 1.
    unfold try_except, mbind, M_bind, mret, M_ret, Store.insert,
      Store.execute.
    cbv beta iota zeta.
    destruct (falha st (length (chamadas st))); cbv beta iota;
      by rewrite IH.
Qed.

Lemma extrair_mes_ano_presente (d : DataFrame) (m : celula) :
  "mes_ano" ∈ columns d → linhas d ≠ [] →
  Ingestao.extrair_mes_ano d = Normal m →
  ∃ r, r ∈ linhas d ∧ r !! "mes_ano" = Some m.
Proof.
  intros Hc Hl. unfold Ingestao.extrair_mes_ano.
  rewrite bool_decide_eq_true_2 by done.
  destruct (Pandas.coluna "mes_ano" d) as [|c serie] eqn:Hs.
  { unfold Pandas.coluna in Hs. by destruct (linhas d). }
  destruct (Pandas.mode (c :: serie)) as [|x resto] eqn:Hm; [done|].
  intros [= ->].
  assert (Hx : m ∈ Pandas.mode (c :: serie)) by (rewrite Hm; left).
  unfold Pandas.mode in Hx.
  apply elem_of_ordenar, elem_of_distintos, list_elem_of_filter in Hx
    as [_ Hx].
  apply list_elem_of_omap in Hx as ([y|] & Hy & [= ->]).
  rewrite <- Hs in Hy. unfold Pandas.coluna in Hy.
  change (map ?f ?l) with (f <$> l) in Hy.
  apply list_elem_of_fmap in Hy as (r & Hr & Hin). eauto.
Qed.

Section ValidarDepois.

Variable chardet_detect : string → option string.
Variable read_csv : string → option string → resultado DataFrame.

(** An import and a dry run compose: after an import without [substituir]
    that inserted at least one record, against a store that serves every
    request, the dry run of any file whose dominant competency is the one
    of the import answers that the competency is already in the table. *)
Theorem validar_csv_depois_de_importar (arquivo arquivo2 : UploadFile)
    (usuario agora_1 agora_2 : string) (st : Supabase)
    (df d df2 : DataFrame) (n : nat) (s : string) :
  (App.ler chardet_detect read_csv (conteudo arquivo)).1 = Normal df →
  Ingestao.transformar df usuario agora_1 = Normal (d, n) →
  Ingestao.extrair_mes_ano d = Normal (Str s) →
  linhas d ≠ [] →
  credenciais st = true →
  (∀ k, falha st (length (chamadas st) + k) = false) →
  (App.ler chardet_detect read_csv (conteudo arquivo2)).1 = Normal df2 →
  App.mes_ano_dominante df2 = Normal (Some s) →
  s ≠ "" →
  let st2 := (App.importar_csv chardet_detect read_csv arquivo usuario false
                agora_1 agora_2 st).2 in
  ∃ resposta,
    (App.validar_csv chardet_detect read_csv arquivo2 st2).1
    = Normal resposta
    ∧ App.get "mes_ano" resposta = Normal (JStr s)
    ∧ App.get "ja_existe" resposta = Normal (JBool true).
Proof.
  intros Hler Hd Hm Hlin Hcred Hok Hler2 Hdom Hs. cbv zeta.
  destruct (transformar_Normal _ _ _ _ _ Hd) as (Hf & _).
  pose proof (transformar_colunas _ _ _ _ _ Hd) as Hcols.
  destruct (extrair_mes_ano_presente d (Str s)) as (r & Hr & Hrm);
    [rewrite Hcols; compute_done|done|done|].
  destruct (inserir_em_lotes_servidos d st (λ k _, Hok k))
    as (st1 & Hrun & Htab & Hc & Hfalha & Hl).
  pose proof (for_each_inserir_lote_credenciais (linhas d)
                (Py.range 0 (Pandas.len d) Ingestao.TAMANHO_LOTE)
                (0, 0) st) as Hcr.
  change (for_each _ _ _ st) with (Ingestao.inserir_em_lotes d st) in Hcr.
  rewrite Hrun in Hcr. cbn [snd] in Hcr.
  unfold App.importar_csv.
  destruct (App.ler chardet_detect read_csv (conteudo arquivo))
    as [lido encoding].
  cbn [fst] in Hler. subst lido. desdobrar.
  rewrite validar_colunas_faltando. cbn [fst].
  rewrite Hf, bool_decide_eq_true_2 by done. cbn [negb]. cbv beta iota.
  rewrite Hd. cbv beta iota. cbn [fst].
  rewrite Hm. cbv beta iota.
  unfold App.get_supabase, Store.create_client. rewrite Hcred.
  cbv beta iota. rewrite Hrun. cbv beta iota. cbn [fst snd].
  unfold Ingestao.registrar_log, Store.insert_log, Store.execute.
  rewrite Hfalha, Hc, Hok. cbv beta iota. cbn [snd].
  unfold App.validar_csv.
  destruct (App.ler chardet_detect read_csv (conteudo arquivo2))
    as [lido2 encoding2].
  cbn [fst] in Hler2. subst lido2. desdobrar.
  rewrite Hdom. cbv beta iota.
  cbn [App.json_opt truthy].
  rewrite (proj2 (String.eqb_neq s "")) by done. cbn [negb].
  cbv beta iota.
  unfold App.get_supabase, Store.create_client.
  cbn [credenciais Store.com_log Store.registrar]. rewrite Hcr, Hcred.
  cbv beta iota.
  unfold Store.select_count, Store.execute.
  cbn [falha chamadas Store.com_log Store.registrar].
  rewrite Hfalha, length_app, Hc. cbn [length].
  rewrite <- Nat.add_assoc, Hok. cbv beta iota.
  cbn [gratificacoes Store.com_log Store.registrar fst snd].
  eexists. split; [reflexivity|].
  split; [reflexivity|].
  cbn [App.get find String.eqb fst snd].
  assert (Hpos : (0 <? length (filter (λ r, Store.eq_mes_ano (JStr s) r
                                               = true)
                                       (gratificacoes st1))) = true).
  { apply Nat.ltb_lt. rewrite Htab, filter_app, length_app.
    apply list_elem_of_split in Hr as (l1 & l2 & ->).
    rewrite filter_app, filter_cons, decide_True, !length_app.
    - cbn [length]. lia.
    - unfold Store.eq_mes_ano. rewrite Hrm. apply String.eqb_refl. }
  vm_compute find. cbn [fmap option_fmap option_map default snd].
  by rewrite Hpos.
Qed.

End ValidarDepois.

Lemma validar_csv_depois_de_importar_witness :
  ∃ resposta,
    (App.validar_csv (λ _, Some "utf-8")
       (λ _ _, Normal (csv_cenario "10,00"))
       {| filename := "fev.csv"; conteudo := "" |}
       (App.importar_csv (λ _, Some "utf-8")
          (λ _ _, Normal (csv_cenario "10,00"))
          {| filename := "fev.csv"; conteudo := "" |} "joao.silva" false
          "2024-02-01T10:00:00" "2024-02-01T10:00:01" loja_vazia).2).1
    = Normal resposta
    ∧ App.get "mes_ano" resposta = Normal (JStr "01/2024")
    ∧ App.get "ja_existe" resposta = Normal (JBool true).
Proof.
  apply (validar_csv_depois_de_importar (λ _, Some "utf-8")
           (λ _ _, Normal (csv_cenario "10,00"))
           {| filename := "fev.csv"; conteudo := "" |}
           {| filename := "fev.csv"; conteudo := "" |} "joao.silva"
           "2024-02-01T10:00:00" "2024-02-01T10:00:01" loja_vazia
           (csv_cenario "10,00") registros_cenario (csv_cenario "10,00")
           0 "01/2024").
  - reflexivity.
  - vm_compute. reflexivity.
  - vm_compute. reflexivity.
  - intros H. apply (f_equal length) in H. vm_compute in H. discriminate.
  - reflexivity.
  - intros k. reflexivity.
  - reflexivity.
  - vm_compute. reflexivity.
  - discriminate.
Defined.

Example validar_csv_antes_de_importar :
  App.get "ja_existe"
    (match (App.validar_csv (λ _, Some "utf-8")
              (λ _ _, Normal (csv_cenario "10,00"))
              {| filename := "fev.csv"; conteudo := "" |} loja_vazia).1 with
     | Normal resposta => resposta
     | Raise _ => JNull
     end)
  = Normal (JBool false).
Proof. vm_compute. reflexivity. Qed.
